(** * fronius-exporter: the device API client and the metrics collector

    A shallow embedding of [api/api.go] (the Fronius JSON v1 client) and of
    the collector of [main.go], with the properties the specification
    states about them.

    Conventions.
    - Go [int] values are [Z]; the program only compares and prints them.
    - Go [string] and [[]byte] values are [string] (byte sequences).
      Strings reaching the collector are produced by [encoding/json] and
      [html.UnescapeString], both of which deliver valid UTF-8.
    - Go [float64] values are primitive binary64 floats.
    - A Go [(T, error)] return is a [result T]; a call that can panic ends
      in a [completion].
    - The Go standard library, the HTTP transport and the iteration order
      of Go maps are the fields of the class [Runtime]; nothing is assumed
      about them unless a theorem says so in a hypothesis. *)

From Stdlib Require Import ZArith String Ascii List Floats DecimalString Lia.
From stdpp Require Import base option list gmap strings sorting.

Set Warnings "-inexact-float".
Set Default Proof Using "Type".

Open Scope Z_scope.

(** ** Errors *)

(** A Go [error] value: either a plain message ([errors.New], [fmt.Errorf]
    without [%w], errors of the libraries) or a message wrapping another
    error ([fmt.Errorf] with [%w]). *)
Inductive error : Type :=
| errorString (s : string)
| wrapError (msg : string) (err : error).

Definition Error_msg (e : error) : string :=
  match e with
  | errorString s => s
  | wrapError msg _ => msg
  end.

Definition Unwrap (e : error) : option error :=
  match e with
  | errorString _ => None
  | wrapError _ err => Some err
  end.

(** [fmt.Errorf (prefix ++ "%w", err)]. *)
Definition Errorf_w (prefix : string) (err : error) : error :=
  wrapError (prefix +:+ Error_msg err) err.

Inductive result (A : Type) : Type :=
| Ok (a : A)
| Err (err : error).
Arguments Ok {A} a.
Arguments Err {A} err.

(** How a Go call ends: it returns, or it panics and the panic unwinds
    the stack (the program has no [recover]). *)
Inductive completion (A : Type) : Type :=
| Return (a : A)
| Panic (v : string).
Arguments Return {A} a.
Arguments Panic {A} v.

(** The panic of the Go runtime for an access through a nil pointer. *)
Definition nil_dereference : string :=
  "runtime error: invalid memory address or nil pointer dereference".

(** [fmt.Sprintf("%d", n)]. *)
Definition fmt_d (n : Z) : string := NilZero.string_of_int (Z.to_int n).

(** ** Status codes *)

Module Status.

Definition StatusCode : Type := Z.

Definition StatusCodeStartup : string := "Startup".
Definition StatusCodeRunning : string := "Running".
Definition StatusCodeStandby : string := "Standby".
Definition StatusCodeBootloading : string := "Bootloading".
Definition StatusCodeError : string := "Error".
Definition StatusCodeIdle : string := "Idle".
Definition StatusCodeReady : string := "Ready".
Definition StatusCodeSleeping : string := "Sleeping".
Definition StatusCodeUnknown : string := "Unknown".
Definition StatusCodeInvalid : string := "INVALID".

Definition StatusCodes : list string :=
  [ StatusCodeStartup;
    StatusCodeRunning;
    StatusCodeStandby;
    StatusCodeBootloading;
    StatusCodeError;
    StatusCodeIdle;
    StatusCodeReady;
    StatusCodeSleeping;
    StatusCodeUnknown;
    StatusCodeInvalid ].

(** [func (i StatusCode) String() string] *)
Definition StatusCode_String (i : StatusCode) : string :=
  if (0 <=? i) && (i <? 7) then StatusCodeStartup
  else if i =? 7 then StatusCodeRunning
  else if i =? 8 then StatusCodeStandby
  else if i =? 9 then StatusCodeBootloading
  else if i =? 10 then StatusCodeError
  else if i =? 11 then StatusCodeIdle
  else if i =? 12 then StatusCodeReady
  else if i =? 13 then StatusCodeSleeping
  else if i =? 255 then StatusCodeUnknown
  else StatusCodeInvalid.

End Status.
Export Status.

(** ** Wire and domain records *)

Definition RawMessage : Type := string.

(** [url.URL], with the fields a base address has. The client copies the
    whole value and then assigns [Path] and [RawQuery] of the copy. *)
Record URL : Type := mkURL {
  Scheme : string;
  Host : string;
  Path : string;
  RawQuery : string;
  Fragment : string
}.

Definition URL_set_Path (u : URL) (p : string) : URL :=
  {| Scheme := Scheme u; Host := Host u; Path := p;
     RawQuery := RawQuery u; Fragment := Fragment u |}.

Definition URL_set_RawQuery (u : URL) (q : string) : URL :=
  {| Scheme := Scheme u; Host := Host u; Path := Path u;
     RawQuery := q; Fragment := Fragment u |}.

(** [type Fronius struct]. The [Client] field is the HTTP transport; it is
    [Client_Do] of the class [Runtime] below. *)
Record Fronius : Type := mkFronius {
  baseURL : URL
}.

(** The [Head.Status] member of [Msg]. *)
Record MsgStatus : Type := mkMsgStatus {
  Code : Z;
  Reason : string;
  UserMessage : string
}.

Record MsgBody : Type := mkMsgBody {
  Data : RawMessage
}.

Record MsgHead : Type := mkMsgHead {
  Status : MsgStatus;
  Timestamp : Z
}.

(** [type Msg struct] *)
Record Msg : Type := mkMsg {
  Body : MsgBody;
  Head : MsgHead
}.

(** [type InverterInfo struct] *)
Record InverterInfo : Type := mkInverterInfo {
  Name : string;
  CustomName : string;
  Dt : Z;
  ErrorCode : Z;
  PVPower : Z;
  Show : Z;
  Info_StatusCode : StatusCode;
  UniqueID : string
}.

(** [type DataValue struct] *)
Record DataValue : Type := mkDataValue {
  Unit : string;
  Value : float
}.

(** [type DeviceStatus struct] *)
Record DeviceStatus : Type := mkDeviceStatus {
  DS_ErrorCode : Z;
  LEDColor : Z;
  LEDState : Z;
  MgmtTimerRemainingTime : Z;
  StateToReset : bool;
  DS_StatusCode : StatusCode
}.

(** [type InverterCommonData struct] *)
Record InverterCommonData : Type := mkInverterCommonData {
  DayEnergy : DataValue;
  CD_DeviceStatus : DeviceStatus;
  Fac : DataValue;
  Iac : DataValue;
  Idc : DataValue;
  Pac : DataValue;
  TotalEnergy : DataValue;
  Uac : DataValue;
  Udc : DataValue;
  YearEnergy : DataValue
}.

(** [type InverterThreePhaseData struct] *)
Record InverterThreePhaseData : Type := mkInverterThreePhaseData {
  IacL1 : DataValue;
  IacL2 : DataValue;
  IacL3 : DataValue;
  UacL1 : DataValue;
  UacL2 : DataValue;
  UacL3 : DataValue
}.

(** ** HTTP *)

(** [context.WithTimeout(context.Background(), d)]: the deadline [d], in
    nanoseconds. Whether it expires is decided by the transport. *)
Record Context : Type := mkContext {
  ctx_timeout : Z
}.

Record Request : Type := mkRequest {
  req_ctx : Context;
  req_Method : string;
  req_URL : string;
  req_Header : gmap string (list string)
}.

(** [req.Header.Set(k, v)]; both keys used by the client are in canonical
    form already. *)
Definition Header_Set (k v : string) (req : Request) : Request :=
  {| req_ctx := req_ctx req; req_Method := req_Method req;
     req_URL := req_URL req; req_Header := <[k := [v]]> (req_Header req) |}.

Record Response : Type := mkResponse {
  resp_StatusCode : Z;
  resp_Status : string;
  resp_Body : string
}.

Definition http_StatusOK : Z := 200.

(** ** The runtime the program runs on

    Everything the program calls but does not define. The fields carry no
    laws: a property that depends on the behaviour of one of them states
    that behaviour as a hypothesis.

    [json_Unmarshal_inverters] is [json.Unmarshal] into a map from
    [string] to pointers to [InverterInfo]: an entry is [Some] record, or
    [None] for the nil pointer a JSON [null] entry decodes to.

    [http_request_error method url] is the error, if any, with which
    [http.NewRequestWithContext] rejects a method or an address.

    [unicode_ToLower_Map] is [strings.Map(unicode.ToLower, s)], the path
    [strings.ToLower] takes on a string that is not pure ASCII.

    [map_range] is the order in which a [for ... range] statement visits
    the entries of a map; Go picks it afresh at every loop, so it depends
    on the state of the world. *)
Class Runtime : Type := {
  World : Type;
  url_Parse : string -> result URL;
  filepath_Join : list string -> string;
  Values_Encode : list (string * list string) -> string;
  URL_String : URL -> string;
  http_request_error : string -> string -> option error;
  Client_Do : Request -> World -> result Response * World;
  json_Decode_Msg : string -> result Msg;
  json_Unmarshal_inverters : RawMessage -> result (gmap string (option InverterInfo));
  json_Unmarshal_common : RawMessage -> result InverterCommonData;
  json_Unmarshal_threephase : RawMessage -> result InverterThreePhaseData;
  html_UnescapeString : string -> string;
  unicode_ToLower_Map : string -> string;
  map_range : World -> gmap string (option InverterInfo)
              -> list (string * option InverterInfo)
}.

(** ** [encoding/json], as far as decoding common data goes

    Modelled from the documentation of Go's [encoding/json]; the package
    is not part of this repository. A JSON text that is well formed is a
    [value]; a number is kept as what [strconv.ParseFloat] and
    [strconv.ParseInt] make of its literal. [Unmarshal] into a struct
    - leaves the struct as it is on [null],
    - on an object sets, member after member, the field whose name equals
      the member's key after case folding, and skips a member that names no
      field,
    - reports a type error for any other value, and for a member whose
      value does not suit the field; the first such error is returned.
    A field no member names keeps its zero value. *)

Module encoding_json.

Inductive value : Type :=
| Null
| Bool (b : bool)
| Number (as_float : option float) (as_int : option Z)
| Str (s : string)
| Array (elements : list value)
| Object (members : list (string * value)).

Definition kind (v : value) : string :=
  match v with
  | Null => "null"
  | Bool _ => "bool"
  | Number _ _ => "number"
  | Str _ => "string"
  | Array _ => "array"
  | Object _ => "object"
  end.

(** [*json.UnmarshalTypeError]; [field] is empty for the value as a
    whole. *)
Definition UnmarshalTypeError (v : value) (field type : string) : error :=
  errorString
    ("json: cannot unmarshal " +:+ kind v +:+
     (if String.eqb field "" then " into Go value"
      else " into Go struct field " +:+ field)
     +:+ " of type " +:+ type).

Definition zero_DataValue : DataValue := {| Unit := ""; Value := 0%float |}.

Definition zero_DeviceStatus : DeviceStatus :=
  {| DS_ErrorCode := 0; LEDColor := 0; LEDState := 0;
     MgmtTimerRemainingTime := 0; StateToReset := false; DS_StatusCode := 0 |}.

Definition zero_InverterCommonData : InverterCommonData :=
  {| DayEnergy := zero_DataValue;
     CD_DeviceStatus := zero_DeviceStatus;
     Fac := zero_DataValue;
     Iac := zero_DataValue;
     Idc := zero_DataValue;
     Pac := zero_DataValue;
     TotalEnergy := zero_DataValue;
     Uac := zero_DataValue;
     Udc := zero_DataValue;
     YearEnergy := zero_DataValue |}.

(** The names of the members of the three structs, from their [json]
    tags. *)
Definition InverterCommonData_fields : list string :=
  [ "DAY_ENERGY"; "DeviceStatus"; "FAC"; "IAC"; "IDC"; "PAC";
    "TOTAL_ENERGY"; "UAC"; "UDC"; "YEAR_ENERGY" ].

Section Decode.

(** The case folding under which a key names a field. *)
Variable foldName : string -> string.

Definition names (field key : string) : bool :=
  String.eqb (foldName key) (foldName field).

Definition decode_float64 (field : string) (v : value) (cur : float) : result float :=
  match v with
  | Null => Ok cur
  | Number (Some f) _ => Ok f
  | _ => Err (UnmarshalTypeError v field "float64")
  end.

Definition decode_string (field : string) (v : value) (cur : string) : result string :=
  match v with
  | Null => Ok cur
  | Str s => Ok s
  | _ => Err (UnmarshalTypeError v field "string")
  end.

(** A Go [int] has 64 bits. *)
Definition decode_int (field type : string) (v : value) (cur : Z) : result Z :=
  match v with
  | Null => Ok cur
  | Number _ (Some z) =>
      if (- 2 ^ 63 <=? z) && (z <? 2 ^ 63) then Ok z
      else Err (UnmarshalTypeError v field type)
  | _ => Err (UnmarshalTypeError v field type)
  end.

Definition decode_bool (field : string) (v : value) (cur : bool) : result bool :=
  match v with
  | Null => Ok cur
  | Bool b => Ok b
  | _ => Err (UnmarshalTypeError v field "bool")
  end.

Definition and_then {A B} (r : result A) (k : A -> B) : result B :=
  match r with
  | Ok a => Ok (k a)
  | Err err => Err err
  end.

Fixpoint decode_members {T} (set_member : string -> value -> T -> result T)
    (members : list (string * value)) (cur : T) : result T :=
  match members with
  | [] => Ok cur
  | (key, v) :: members' =>
      match set_member key v cur with
      | Ok cur' => decode_members set_member members' cur'
      | Err err => Err err
      end
  end.

Definition decode_struct {T} (field type : string)
    (set_member : string -> value -> T -> result T) (v : value) (cur : T)
  : result T :=
  match v with
  | Null => Ok cur
  | Object members => decode_members set_member members cur
  | _ => Err (UnmarshalTypeError v field type)
  end.

Definition set_DataValue_member (field key : string) (v : value) (cur : DataValue)
  : result DataValue :=
  if names "Unit" key then
    and_then (decode_string (field +:+ ".Unit") v (Unit cur))
             (fun s => {| Unit := s; Value := Value cur |})
  else if names "Value" key then
    and_then (decode_float64 (field +:+ ".Value") v (Value cur))
             (fun f => {| Unit := Unit cur; Value := f |})
  else Ok cur.

Definition decode_DataValue (field : string) (v : value) (cur : DataValue)
  : result DataValue :=
  decode_struct field "api.DataValue" (set_DataValue_member field) v cur.

Definition set_DeviceStatus_member (field key : string) (v : value)
    (cur : DeviceStatus) : result DeviceStatus :=
  if names "ErrorCode" key then
    and_then (decode_int (field +:+ ".ErrorCode") "int" v (DS_ErrorCode cur))
      (fun z => {| DS_ErrorCode := z; LEDColor := LEDColor cur;
                   LEDState := LEDState cur;
                   MgmtTimerRemainingTime := MgmtTimerRemainingTime cur;
                   StateToReset := StateToReset cur;
                   DS_StatusCode := DS_StatusCode cur |})
  else if names "LEDColor" key then
    and_then (decode_int (field +:+ ".LEDColor") "int" v (LEDColor cur))
      (fun z => {| DS_ErrorCode := DS_ErrorCode cur; LEDColor := z;
                   LEDState := LEDState cur;
                   MgmtTimerRemainingTime := MgmtTimerRemainingTime cur;
                   StateToReset := StateToReset cur;
                   DS_StatusCode := DS_StatusCode cur |})
  else if names "LEDState" key then
    and_then (decode_int (field +:+ ".LEDState") "int" v (LEDState cur))
      (fun z => {| DS_ErrorCode := DS_ErrorCode cur; LEDColor := LEDColor cur;
                   LEDState := z;
                   MgmtTimerRemainingTime := MgmtTimerRemainingTime cur;
                   StateToReset := StateToReset cur;
                   DS_StatusCode := DS_StatusCode cur |})
  else if names "MgmtTimerRemainingTime" key then
    and_then (decode_int (field +:+ ".MgmtTimerRemainingTime") "int" v
                (MgmtTimerRemainingTime cur))
      (fun z => {| DS_ErrorCode := DS_ErrorCode cur; LEDColor := LEDColor cur;
                   LEDState := LEDState cur;
                   MgmtTimerRemainingTime := z;
                   StateToReset := StateToReset cur;
                   DS_StatusCode := DS_StatusCode cur |})
  else if names "StateToReset" key then
    and_then (decode_bool (field +:+ ".StateToReset") v (StateToReset cur))
      (fun b => {| DS_ErrorCode := DS_ErrorCode cur; LEDColor := LEDColor cur;
                   LEDState := LEDState cur;
                   MgmtTimerRemainingTime := MgmtTimerRemainingTime cur;
                   StateToReset := b;
                   DS_StatusCode := DS_StatusCode cur |})
  else if names "StatusCode" key then
    and_then (decode_int (field +:+ ".StatusCode") "api.StatusCode" v
                (DS_StatusCode cur))
      (fun z => {| DS_ErrorCode := DS_ErrorCode cur; LEDColor := LEDColor cur;
                   LEDState := LEDState cur;
                   MgmtTimerRemainingTime := MgmtTimerRemainingTime cur;
                   StateToReset := StateToReset cur;
                   DS_StatusCode := z |})
  else Ok cur.

Definition decode_DeviceStatus (field : string) (v : value) (cur : DeviceStatus)
  : result DeviceStatus :=
  decode_struct field "api.DeviceStatus" (set_DeviceStatus_member field) v cur.

Definition with_DayEnergy (cur : InverterCommonData) (x : DataValue) :=
  {| DayEnergy := x; CD_DeviceStatus := CD_DeviceStatus cur; Fac := Fac cur;
     Iac := Iac cur; Idc := Idc cur; Pac := Pac cur; TotalEnergy := TotalEnergy cur;
     Uac := Uac cur; Udc := Udc cur; YearEnergy := YearEnergy cur |}.
Definition with_DeviceStatus (cur : InverterCommonData) (x : DeviceStatus) :=
  {| DayEnergy := DayEnergy cur; CD_DeviceStatus := x; Fac := Fac cur;
     Iac := Iac cur; Idc := Idc cur; Pac := Pac cur; TotalEnergy := TotalEnergy cur;
     Uac := Uac cur; Udc := Udc cur; YearEnergy := YearEnergy cur |}.
Definition with_Fac (cur : InverterCommonData) (x : DataValue) :=
  {| DayEnergy := DayEnergy cur; CD_DeviceStatus := CD_DeviceStatus cur; Fac := x;
     Iac := Iac cur; Idc := Idc cur; Pac := Pac cur; TotalEnergy := TotalEnergy cur;
     Uac := Uac cur; Udc := Udc cur; YearEnergy := YearEnergy cur |}.
Definition with_Iac (cur : InverterCommonData) (x : DataValue) :=
  {| DayEnergy := DayEnergy cur; CD_DeviceStatus := CD_DeviceStatus cur; Fac := Fac cur;
     Iac := x; Idc := Idc cur; Pac := Pac cur; TotalEnergy := TotalEnergy cur;
     Uac := Uac cur; Udc := Udc cur; YearEnergy := YearEnergy cur |}.
Definition with_Idc (cur : InverterCommonData) (x : DataValue) :=
  {| DayEnergy := DayEnergy cur; CD_DeviceStatus := CD_DeviceStatus cur; Fac := Fac cur;
     Iac := Iac cur; Idc := x; Pac := Pac cur; TotalEnergy := TotalEnergy cur;
     Uac := Uac cur; Udc := Udc cur; YearEnergy := YearEnergy cur |}.
Definition with_Pac (cur : InverterCommonData) (x : DataValue) :=
  {| DayEnergy := DayEnergy cur; CD_DeviceStatus := CD_DeviceStatus cur; Fac := Fac cur;
     Iac := Iac cur; Idc := Idc cur; Pac := x; TotalEnergy := TotalEnergy cur;
     Uac := Uac cur; Udc := Udc cur; YearEnergy := YearEnergy cur |}.
Definition with_TotalEnergy (cur : InverterCommonData) (x : DataValue) :=
  {| DayEnergy := DayEnergy cur; CD_DeviceStatus := CD_DeviceStatus cur; Fac := Fac cur;
     Iac := Iac cur; Idc := Idc cur; Pac := Pac cur; TotalEnergy := x;
     Uac := Uac cur; Udc := Udc cur; YearEnergy := YearEnergy cur |}.
Definition with_Uac (cur : InverterCommonData) (x : DataValue) :=
  {| DayEnergy := DayEnergy cur; CD_DeviceStatus := CD_DeviceStatus cur; Fac := Fac cur;
     Iac := Iac cur; Idc := Idc cur; Pac := Pac cur; TotalEnergy := TotalEnergy cur;
     Uac := x; Udc := Udc cur; YearEnergy := YearEnergy cur |}.
Definition with_Udc (cur : InverterCommonData) (x : DataValue) :=
  {| DayEnergy := DayEnergy cur; CD_DeviceStatus := CD_DeviceStatus cur; Fac := Fac cur;
     Iac := Iac cur; Idc := Idc cur; Pac := Pac cur; TotalEnergy := TotalEnergy cur;
     Uac := Uac cur; Udc := x; YearEnergy := YearEnergy cur |}.
Definition with_YearEnergy (cur : InverterCommonData) (x : DataValue) :=
  {| DayEnergy := DayEnergy cur; CD_DeviceStatus := CD_DeviceStatus cur; Fac := Fac cur;
     Iac := Iac cur; Idc := Idc cur; Pac := Pac cur; TotalEnergy := TotalEnergy cur;
     Uac := Uac cur; Udc := Udc cur; YearEnergy := x |}.

Definition set_InverterCommonData_member (key : string) (v : value)
    (cur : InverterCommonData) : result InverterCommonData :=
  if names "DAY_ENERGY" key then
    and_then (decode_DataValue "InverterCommonData.DAY_ENERGY" v (DayEnergy cur))
             (with_DayEnergy cur)
  else if names "DeviceStatus" key then
    and_then (decode_DeviceStatus "InverterCommonData.DeviceStatus" v
                (CD_DeviceStatus cur))
             (with_DeviceStatus cur)
  else if names "FAC" key then
    and_then (decode_DataValue "InverterCommonData.FAC" v (Fac cur)) (with_Fac cur)
  else if names "IAC" key then
    and_then (decode_DataValue "InverterCommonData.IAC" v (Iac cur)) (with_Iac cur)
  else if names "IDC" key then
    and_then (decode_DataValue "InverterCommonData.IDC" v (Idc cur)) (with_Idc cur)
  else if names "PAC" key then
    and_then (decode_DataValue "InverterCommonData.PAC" v (Pac cur)) (with_Pac cur)
  else if names "TOTAL_ENERGY" key then
    and_then (decode_DataValue "InverterCommonData.TOTAL_ENERGY" v (TotalEnergy cur))
             (with_TotalEnergy cur)
  else if names "UAC" key then
    and_then (decode_DataValue "InverterCommonData.UAC" v (Uac cur)) (with_Uac cur)
  else if names "UDC" key then
    and_then (decode_DataValue "InverterCommonData.UDC" v (Udc cur)) (with_Udc cur)
  else if names "YEAR_ENERGY" key then
    and_then (decode_DataValue "InverterCommonData.YEAR_ENERGY" v (YearEnergy cur))
             (with_YearEnergy cur)
  else Ok cur.

(** [json.Unmarshal(data, &commonData)] on the value [data] is the text
    of, with [commonData] freshly declared. *)
Definition Unmarshal_InverterCommonData (v : value) : result InverterCommonData :=
  decode_struct "" "api.InverterCommonData" set_InverterCommonData_member v
    zero_InverterCommonData.

End Decode.

End encoding_json.

(** ** Metric records (the part of [prometheus] the collector uses) *)

Module prometheus.

Record Desc : Type := mkDesc {
  fqName : string;
  help : string;
  variableLabels : list string
}.

(** [prometheus.NewDesc(fqName, help, variableLabels, nil)]. The names the
    collector passes are constants and valid, so the descriptor carries no
    error. *)
Definition NewDesc (name hlp : string) (labels : list string) : Desc :=
  {| fqName := name; help := hlp; variableLabels := labels |}.

Inductive ValueType : Type :=
| CounterValue
| GaugeValue
| UntypedValue.

Record Metric : Type := mkMetric {
  desc : Desc;
  valType : ValueType;
  value : float;
  labelValues : list string
}.

Definition errInconsistentCardinality : error :=
  errorString "inconsistent label cardinality".

(** [prometheus.NewConstMetric(desc, valueType, value, labelValues...)]:
    fails when the number of label values differs from the number of
    variable labels of the descriptor. (Its other check, that label values
    are valid UTF-8, holds of every string of this program.) *)
Definition NewConstMetric (d : Desc) (vt : ValueType) (v : float)
    (lvs : list string) : result Metric :=
  if Nat.eqb (length lvs) (length (variableLabels d))
  then Ok {| desc := d; valType := vt; value := v; labelValues := lvs |}
  else Err errInconsistentCardinality.

End prometheus.
Export prometheus.

(** ** Program state and the state monad *)

(** One [zerolog] entry: [log.Err(err).Msg(msg)]. *)
Record LogEntry : Type := mkLogEntry {
  log_err : error;
  log_msg : string
}.

Section Program.
Context `{RT : Runtime}.

(** What the program can read or change:
    - [client]: the [Fronius] object the pointers [f] and [c.api] refer to;
    - [world]: the device and the network;
    - [wire]: the requests handed to the transport so far, oldest first;
    - [sink]: the metrics sent on the channel [ch] so far, oldest first;
    - [logs]: the log entries written so far. *)
Record State : Type := mkState {
  client : Fronius;
  world : World;
  wire : list Request;
  sink : list Metric;
  logs : list LogEntry
}.

Definition M (A : Type) : Type := State -> A * State.

Definition ret {A} (a : A) : M A := fun st => (a, st).

Definition bind {A B} (m : M A) (k : A -> M B) : M B :=
  fun st => let (a, st') := m st in k a st'.

Notation "'let*' x ':=' m 'in' k" := (bind m (fun x => k))
  (at level 10, x name, m at level 100, k at level 200).
Notation "'do*' m 'in' k" := (bind m (fun _ => k))
  (at level 10, m at level 100, k at level 200).

(** Reading through the pointer [f]. *)
Definition deref_client : M Fronius := fun st => (client st, st).

(** [f.Client.Do(req)] *)
Definition Do (req : Request) : M (result Response) := fun st =>
  let (r, w) := Client_Do req (world st) in
  (r, {| client := client st; world := w; wire := wire st ++ [req];
         sink := sink st; logs := logs st |}).

(** [for name, inverter := range inverters]: the entries in the order of
    this visit. *)
Definition range (inverters : gmap string (option InverterInfo))
  : M (list (string * option InverterInfo)) :=
  fun st => (map_range (world st) inverters, st).

(** [ch <- m] *)
Definition send (m : Metric) : M unit := fun st =>
  (tt, {| client := client st; world := world st; wire := wire st;
          sink := sink st ++ [m]; logs := logs st |}).

(** [log.Err(err).Msg(msg)] *)
Definition log_Err (err : error) (msg : string) : M unit := fun st =>
  (tt, {| client := client st; world := world st; wire := wire st;
          sink := sink st;
          logs := logs st ++ [{| log_err := err; log_msg := msg |}] |}).

(** [for _, x := range xs { body x }] over a slice. *)
Fixpoint for_each {A} (xs : list A) (body : A -> M unit) : M unit :=
  match xs with
  | [] => ret tt
  | x :: xs' => do* body x in for_each xs' body
  end.

(** ** The client: [api/api.go] *)

(** [func NewFronius(urlString string)], returning the new client or an
    error. *)
Definition NewFronius (urlString : string) : result Fronius :=
  match url_Parse urlString with
  | Err err => Err err
  | Ok u =>
      let u := URL_set_Path u (filepath_Join [Path u; "solar_api/v1/"]) in
      Ok {| baseURL := u |}
  end.

(** The method [Error() error] of [Msg]; [None] is the nil error. *)
Definition Msg_Error (m : Msg) : option error :=
  if Code (Status (Head m)) =? 0 then None
  else Some (errorString
    ("fronius status code=" +:+ fmt_d (Code (Status (Head m)))
     +:+ ": msg=" +:+ UserMessage (Status (Head m))
     +:+ " reason=" +:+ Reason (Status (Head m)))).

(** The method [newRequest(ctx, method, url, body)] of [Fronius]; the
    body is nil at both call sites. *)
Definition newRequest (ctx : Context) (method url : string) : result Request :=
  match http_request_error method url with
  | Some err => Err err
  | None =>
      let req := {| req_ctx := ctx; req_Method := method; req_URL := url;
                    req_Header := ∅ |} in
      let req := Header_Set "Accept" "application/json" req in
      let req := Header_Set "User-Agent" "fronius-exporter" req in
      Ok req
  end.

(** [html.UnescapeString] and the assignment of [Name] in the loop of
    [GetInverterInfo]. *)
Definition fill_inverter (name : string) (inverter : InverterInfo) : InverterInfo :=
  {| Name := name;
     CustomName := html_UnescapeString (CustomName inverter);
     Dt := Dt inverter;
     ErrorCode := ErrorCode inverter;
     PVPower := PVPower inverter;
     Show := Show inverter;
     Info_StatusCode := Info_StatusCode inverter;
     UniqueID := UniqueID inverter |}.

(** The insertion step of [sort.Slice]: [x] goes before the first element
    it is less than. *)
Fixpoint sort_insert {A} (less : A -> A -> bool) (x : A) (l : list A) : list A :=
  match l with
  | [] => [x]
  | y :: l' => if less x y then x :: y :: l' else y :: sort_insert less x l'
  end.

(** [sort.Slice(x, less)], as the insertion sort the library runs on
    slices of fewer than twelve elements. On longer slices it runs a
    pattern-defeating quicksort; the records sorted here have pairwise
    different keys, for which every sorting algorithm returns the same
    slice (lemma [strictly_sorted_unique] below). *)
Definition sort_Slice {A} (less : A -> A -> bool) (x : list A) : list A :=
  fold_left (fun sorted a => sort_insert less a sorted) x [].

Definition less_Name (a b : InverterInfo) : bool := String.ltb (Name a) (Name b).

(** The loop of [GetInverterInfo], on the entries of the map in the order
    the loop visits them: each record is filled in and appended to
    [result]. The assignment [inverter.Name = name] through a nil pointer
    panics. *)
Fixpoint append_inverters (entries : list (string * option InverterInfo))
    (result : list InverterInfo) : completion (list InverterInfo) :=
  match entries with
  | [] => Return result
  | (name, None) :: _ => Panic nil_dereference
  | (name, Some inverter) :: entries' =>
      append_inverters entries' (result ++ [fill_inverter name inverter])
  end.

(** The loop and the sort of [GetInverterInfo]. *)
Definition collect_sorted (entries : list (string * option InverterInfo))
  : completion (list InverterInfo) :=
  match append_inverters entries [] with
  | Panic v => Panic v
  | Return result => Return (sort_Slice less_Name result)
  end.

(** The address [GetInverterInfo] requests: the copy [u] of [f.baseURL]
    with its [Path] and [RawQuery] assigned, as [u.String()]. *)
Definition GetInverterInfo_url (f : Fronius) : string :=
  let u := baseURL f in
  let u := URL_set_Path u (filepath_Join [Path u; "GetInverterInfo.cgi"]) in
  let u := URL_set_RawQuery u (Values_Encode [("DeviceClass", ["System"])]) in
  URL_String u.

(** The method [GetInverterInfo(ctx)] of [Fronius]. It returns the
    inventory or an error, or panics in its loop. *)
Definition GetInverterInfo (ctx : Context)
  : M (completion (result (list InverterInfo))) :=
  let* f := deref_client in
  match newRequest ctx "GET" (GetInverterInfo_url f) with
  | Err err => ret (Return (Err err))
  | Ok req =>
    let* r := Do req in
    match r with
    | Err err => ret (Return (Err err))
    | Ok resp =>
      if negb (resp_StatusCode resp =? http_StatusOK)
      then ret (Return (Err (errorString
                              ("unexpected http status: " +:+ resp_Status resp))))
      else
        match json_Decode_Msg (resp_Body resp) with
        | Err err => ret (Return (Err (Errorf_w "error parsing json message: " err)))
        | Ok msg =>
          match Msg_Error msg with
          | Some err => ret (Return (Err err))
          | None =>
            match json_Unmarshal_inverters (Data (Body msg)) with
            | Err err => ret (Return (Err err))
            | Ok inverters =>
                let* entries := range inverters in
                match collect_sorted entries with
                | Panic v => ret (Panic v)
                | Return result => ret (Return (Ok result))
                end
            end
          end
        end
    end
  end.

(** The address [GetRealtimeInverterRealtimeData] requests. *)
Definition GetRealtimeInverterRealtimeData_url (f : Fronius)
    (scope dataCollection deviceID : string) : string :=
  let u := baseURL f in
  let u := URL_set_Path u (filepath_Join [Path u; "GetInverterRealtimeData.cgi"]) in
  let u := URL_set_RawQuery u
             (Values_Encode [("Scope", [scope]);
                             ("DataCollection", [dataCollection]);
                             ("DeviceId", [deviceID])]) in
  URL_String u.

(** The method [GetRealtimeInverterRealtimeData(ctx, scope,
    dataCollection, deviceID)] of [Fronius]. *)
Definition GetRealtimeInverterRealtimeData (ctx : Context)
    (scope dataCollection deviceID : string) : M (result RawMessage) :=
  let* f := deref_client in
  match newRequest ctx "GET"
          (GetRealtimeInverterRealtimeData_url f scope dataCollection deviceID) with
  | Err err => ret (Err err)
  | Ok req =>
    let* r := Do req in
    match r with
    | Err err => ret (Err err)
    | Ok resp =>
      if negb (resp_StatusCode resp =? http_StatusOK)
      then ret (Err (errorString ("unexpected http status: " +:+ resp_Status resp)))
      else
        match json_Decode_Msg (resp_Body resp) with
        | Err err => ret (Err (Errorf_w "error parsing json message: " err))
        | Ok msg =>
          match Msg_Error msg with
          | Some err => ret (Err err)
          | None => ret (Ok (Data (Body msg)))
          end
        end
    end
  end.

(** The method [GetInverterRealtimeCommonData(ctx, deviceID)] of [Fronius]. *)
Definition GetInverterRealtimeCommonData (ctx : Context) (deviceID : string)
  : M (result InverterCommonData) :=
  let* r := GetRealtimeInverterRealtimeData ctx "Device" "CommonInverterData" deviceID in
  match r with
  | Err err => ret (Err err)
  | Ok data =>
    match json_Unmarshal_common data with
    | Err err => ret (Err (Errorf_w "unable to parse inverter common data: " err))
    | Ok commonData => ret (Ok commonData)
    end
  end.

(** The method [GetInverterRealtimeThreePhaseData(ctx, deviceID)] of
    [Fronius]. *)
Definition GetInverterRealtimeThreePhaseData (ctx : Context) (deviceID : string)
  : M (result InverterThreePhaseData) :=
  let* r := GetRealtimeInverterRealtimeData ctx "Device" "3PInverterData" deviceID in
  match r with
  | Err err => ret (Err err)
  | Ok data =>
    match json_Unmarshal_threephase data with
    | Err err => ret (Err (Errorf_w "unable to parse inverter three phase data: " err))
    | Ok threePhaseData => ret (Ok threePhaseData)
    end
  end.

End Program.

(** ** [strings.ToLower] *)

Definition is_upper (c : ascii) : bool :=
  (65 <=? N_of_ascii c)%N && (N_of_ascii c <=? 90)%N.

(** [c += 'a' - 'A'] on an upper-case ASCII letter. *)
Definition lower_byte (c : ascii) : ascii :=
  if is_upper c then ascii_of_N (N_of_ascii c + 32) else c.

Fixpoint isASCII (s : string) : bool :=
  match s with
  | EmptyString => true
  | String c s' => (N_of_ascii c <? 128)%N && isASCII s'
  end.

Fixpoint hasUpper (s : string) : bool :=
  match s with
  | EmptyString => false
  | String c s' => is_upper c || hasUpper s'
  end.

Fixpoint map_bytes (f : ascii -> ascii) (s : string) : string :=
  match s with
  | EmptyString => EmptyString
  | String c s' => String (f c) (map_bytes f s')
  end.

(** [strings.ToLower]: a pure-ASCII string is lowered byte by byte (and
    returned as it is when it has no upper-case letter); any other string
    goes through [strings.Map(unicode.ToLower, s)]. *)
Definition strings_ToLower `{RT : Runtime} (s : string) : string :=
  if isASCII s then
    if hasUpper s then map_bytes lower_byte s else s
  else unicode_ToLower_Map s.

(** ** The collector: [main.go] *)

(** [const timeout = 15 * time.Second], in nanoseconds. *)
Definition timeout : Z := 15 * 1000000000.

Definition WithTimeout (d : Z) : Context := {| ctx_timeout := d |}.

(** [type collector struct]. Its field [api] is a pointer to the client,
    which is [client] of the program state. *)
Record collector : Type := mkCollector {
  inverterInfo : Desc;
  inverterStatus : Desc;
  inverterTotalEnergy : Desc;
  inverterDCVoltage : Desc;
  inverterDCCurrent : Desc;
  inverterACFrequency : Desc;
  inverterACVoltage : Desc;
  inverterACCurrent : Desc
}.

(** [func newCollector] *)
Definition newCollector : collector :=
  {| inverterInfo := NewDesc
       "fronius_inverter_info"
       "Information about the inverter"
       ["device_id"; "device_type"; "device_name"; "serial"];
     inverterStatus := NewDesc
       "fronius_inverter_status"
       "Status of the inverter"
       ["device_id"; "status"];
     inverterTotalEnergy := NewDesc
       "inverter_yield_total"
       "Information about the inverter"
       ["device_id"];
     inverterDCVoltage := NewDesc
       "inverter_dc_voltage"
       "Solar panel (DC) voltage"
       ["device_id"];
     inverterDCCurrent := NewDesc
       "inverter_dc_current"
       "Solar panel (DC) current"
       ["device_id"];
     inverterACFrequency := NewDesc
       "inverter_grid_frequency"
       "Grid (AC) frequency"
       ["device_id"];
     inverterACVoltage := NewDesc
       "inverter_grid_voltage"
       "Grid (AC) current"
       ["device_id"; "phase"];
     inverterACCurrent := NewDesc
       "inverter_grid_current"
       "Grid (AC) current"
       ["device_id"; "phase"] |}.

Section Collector.
Context `{RT : Runtime}.

Notation "'let*' x ':=' m 'in' k" := (bind m (fun x => k))
  (at level 10, x name, m at level 100, k at level 200).
Notation "'do*' m 'in' k" := (bind m (fun _ => k))
  (at level 10, m at level 100, k at level 200).

(** [for _, x := range xs { s = body s x }], for a loop that builds up a
    value [s]. *)
Fixpoint for_fold {A S} (xs : list A) (s : S) (body : S -> A -> M S) : M S :=
  match xs with
  | [] => ret s
  | x :: xs' => let* s' := body s x in for_fold xs' s' body
  end.

(** A loop whose body may [return] from the enclosing function: the body
    answers [false] to leave. *)
Fixpoint for_until_return {A} (xs : list A) (body : A -> M bool) : M unit :=
  match xs with
  | [] => ret tt
  | x :: xs' =>
      let* go_on := body x in
      if go_on then for_until_return xs' body else ret tt
  end.

(** The inner loop of [collectInverters]: one indicator per status name. *)
Definition report_status (c : collector) (inverter : InverterInfo) : M unit :=
  for_each StatusCodes (fun status =>
    let value :=
      if String.eqb (StatusCode_String (Info_StatusCode inverter)) status
      then 1%float else 0%float in
    match NewConstMetric (inverterStatus c) GaugeValue value
            [Name inverter; strings_ToLower status] with
    | Err err => log_Err err "unable to generate metrics for inverter status"
    | Ok m => send m
    end).

(** The method [collectInverters(ch)] of [collector]; it returns the
    device ids. A panic of [GetInverterInfo] unwinds through it. *)
Definition collectInverters (c : collector) : M (completion (list string)) :=
  let ctx := WithTimeout timeout in
  let* r := GetInverterInfo ctx in
  match r with
  | Panic v => ret (Panic v)
  | Return (Err err) =>
      do* log_Err err "unable to get inverter info" in
      ret (Return [])
  | Return (Ok inverters) =>
      let* ids :=
        for_fold inverters [] (fun ids inverter =>
          let ids := ids ++ [Name inverter] in
          match NewConstMetric (inverterInfo c) GaugeValue 1%float
                  [Name inverter; fmt_d (Dt inverter);
                   CustomName inverter; UniqueID inverter] with
          | Err err =>
              do* log_Err err "unable to generate metrics for inverter info" in
              ret ids
          | Ok m =>
              do* send m in
              do* report_status c inverter in
              ret ids
          end) in
      ret (Return ids)
  end.

(** The method [collectCommonInverterData(ch, id)] of [collector]. *)
Definition collectCommonInverterData (c : collector) (id : string) : M unit :=
  let ctx := WithTimeout timeout in
  let* r := GetInverterRealtimeCommonData ctx id in
  match r with
  | Err err => log_Err err "unable to get common data for inverter"
  | Ok data =>
    match NewConstMetric (inverterTotalEnergy c) CounterValue
            (Value (TotalEnergy data) / 1000)%float [id] with
    | Err err => log_Err err "unable to generate metrics for inverter total energy"
    | Ok m =>
      do* send m in
      match NewConstMetric (inverterDCVoltage c) GaugeValue
              (Value (Udc data)) [id] with
      | Err err => log_Err err "unable to generate metrics for inverter dc voltage"
      | Ok m =>
        do* send m in
        match NewConstMetric (inverterDCCurrent c) GaugeValue
                (Value (Idc data)) [id] with
        | Err err => log_Err err "unable to generate metrics for inverter dc current"
        | Ok m =>
          do* send m in
          match NewConstMetric (inverterACFrequency c) GaugeValue
                  (Value (Fac data)) [id] with
          | Err err =>
              log_Err err "unable to generate metrics for inverter grid frequency"
          | Ok m => send m
          end
        end
      end
    end
  end.

(** The method [collectThreePhaseInverterData(ch, id)] of [collector]. *)
Definition collectThreePhaseInverterData (c : collector) (id : string) : M unit :=
  let ctx := WithTimeout timeout in
  let* r := GetInverterRealtimeThreePhaseData ctx id in
  match r with
  | Err err => log_Err err "unable to get three phase data for inverter"
  | Ok data =>
    for_until_return
      [ (inverterACVoltage c, UacL1 data, "L1");
        (inverterACVoltage c, UacL2 data, "L2");
        (inverterACVoltage c, UacL3 data, "L3");
        (inverterACCurrent c, IacL1 data, "L1");
        (inverterACCurrent c, IacL2 data, "L2");
        (inverterACCurrent c, IacL3 data, "L3") ]
      (fun x =>
        match NewConstMetric (fst (fst x)) GaugeValue (Value (snd (fst x)))
                [id; snd x] with
        | Err err =>
            do* log_Err err
              "unable to generate metrics for grid voltage/phaseinverter total energy" in
            ret false
        | Ok m =>
            do* send m in
            ret true
        end)
  end.

(** The method [Collect(ch)] of [collector]. A panic of
    [collectInverters] unwinds through it, to the goroutine of the
    registry that called it. *)
Definition Collect (c : collector) : M (completion unit) :=
  let* ids := collectInverters c in
  match ids with
  | Panic v => ret (Panic v)
  | Return ids =>
      do* for_each ids (fun id =>
            do* collectCommonInverterData c id in
            collectThreePhaseInverterData c id) in
      ret (Return tt)
  end.

(** The method [Describe(ch)] of [collector]: the descriptors it sends on
    [ch], in the order it sends them. *)
Definition Describe (c : collector) : list Desc :=
  [ inverterInfo c;
    inverterStatus c;
    inverterTotalEnergy c;
    inverterDCVoltage c;
    inverterDCCurrent c;
    inverterACFrequency c;
    inverterACVoltage c;
    inverterACCurrent c ].

End Collector.

(** ** Vocabulary of the properties

    Definitions the statements below are written with. They describe
    states and metric records; none of them is part of the program. *)

(** The entry of a decoded inventory map as a key with its record, when
    the entry is not a nil pointer. *)
Definition record_of (e : string * option InverterInfo)
  : option (string * InverterInfo) :=
  match snd e with
  | Some inverter => Some (fst e, inverter)
  | None => None
  end.


(** The common-data shape the specification expects of a payload: an
    object with the nine measurements, each an object with a unit and a
    numeric value, and the device status with its six members. *)
Definition member (key : string) (members : list (string * encoding_json.value))
  : option encoding_json.value :=
  snd <$> List.find (fun kv => String.eqb (fst kv) key) members.

Definition is_measurement (v : encoding_json.value) : bool :=
  match v with
  | encoding_json.Object members =>
      match member "Unit" members, member "Value" members with
      | Some (encoding_json.Str _), Some (encoding_json.Number (Some _) _) => true
      | _, _ => false
      end
  | _ => false
  end.

Definition is_integer (v : option encoding_json.value) : bool :=
  match v with
  | Some (encoding_json.Number _ (Some _)) => true
  | _ => false
  end.

Definition is_device_status (v : encoding_json.value) : bool :=
  match v with
  | encoding_json.Object members =>
      is_integer (member "ErrorCode" members)
      && is_integer (member "LEDColor" members)
      && is_integer (member "LEDState" members)
      && is_integer (member "MgmtTimerRemainingTime" members)
      && match member "StateToReset" members with
         | Some (encoding_json.Bool _) => true
         | _ => false
         end
      && is_integer (member "StatusCode" members)
  | _ => false
  end.

Definition has_common_data_shape (v : encoding_json.value) : bool :=
  match v with
  | encoding_json.Object members =>
      forallb (fun key =>
                 match member key members with
                 | Some x => is_measurement x
                 | None => false
                 end)
        [ "DAY_ENERGY"; "FAC"; "IAC"; "IDC"; "PAC"; "TOTAL_ENERGY"; "UAC"; "UDC";
          "YEAR_ENERGY" ]
      && match member "DeviceStatus" members with
         | Some x => is_device_status x
         | None => false
         end
  | _ => false
  end.

(** A JSON value that is neither [null] nor an object. *)
Definition is_scalar_or_array (v : encoding_json.value) : bool :=
  match v with
  | encoding_json.Null | encoding_json.Object _ => false
  | _ => true
  end.

(** [a] may stand before [b] in a slice sorted by [key]: [b] is not less
    than [a]. *)
Definition may_precede {A} (key : A -> string) (a b : A) : Prop :=
  String.ltb (key b) (key a) = false.

(** The key of [a] is less than the key of [b], in the byte-wise order of
    Go strings. *)
Definition strictly_before {A} (key : A -> string) (a b : A) : Prop :=
  String.ltb (key a) (key b) = true.

Section Vocabulary.
Context `{RT : Runtime}.

(** Two states in which the client and the world are the same; they may
    differ in what has been sent, logged and requested so far. *)
Definition same_device (st st' : State) : Prop :=
  client st = client st' /\ world st = world st'.

(** The state after the metrics [ms] were sent on the channel. *)
Definition emit (ms : list Metric) (st : State) : State :=
  {| client := client st; world := world st; wire := wire st;
     sink := sink st ++ ms; logs := logs st |}.

(** The state after the entries [es] were logged. *)
Definition note (es : list LogEntry) (st : State) : State :=
  {| client := client st; world := world st; wire := wire st;
     sink := sink st; logs := logs st ++ es |}.

(** In state [st] a GET request for [url] is answered with HTTP status 200
    and a body that decodes to the envelope [m]. *)
Definition delivers (st : State) (ctx : Context) (url : string) (m : Msg) : Prop :=
  exists req resp w,
    newRequest ctx "GET" url = Ok req /\
    Client_Do req (world st) = (Ok resp, w) /\
    resp_StatusCode resp = http_StatusOK /\
    json_Decode_Msg (resp_Body resp) = Ok m.

(** The error the specification calls a protocol error: the code, the user
    message and the reason of the envelope, in the format of [Msg.Error]. *)
Definition protocol_error (code : Z) (reason user : string) : error :=
  errorString ("fronius status code=" +:+ fmt_d code +:+ ": msg=" +:+ user
               +:+ " reason=" +:+ reason).

(** The calls a user of the client can make. *)
Inductive ClientCall : Type :=
| CallInverterInfo (ctx : Context)
| CallRealtimeData (ctx : Context) (scope dataCollection deviceID : string)
| CallCommonData (ctx : Context) (deviceID : string)
| CallThreePhaseData (ctx : Context) (deviceID : string).

(** The state a call leaves behind. *)
Definition after_call (st : State) (c : ClientCall) : State :=
  match c with
  | CallInverterInfo ctx => snd (GetInverterInfo ctx st)
  | CallRealtimeData ctx scope dc id =>
      snd (GetRealtimeInverterRealtimeData ctx scope dc id st)
  | CallCommonData ctx id => snd (GetInverterRealtimeCommonData ctx id st)
  | CallThreePhaseData ctx id => snd (GetInverterRealtimeThreePhaseData ctx id st)
  end.

(** The address a call requests when the client is [f]. *)
Definition call_url (f : Fronius) (c : ClientCall) : string :=
  match c with
  | CallInverterInfo _ => GetInverterInfo_url f
  | CallRealtimeData _ scope dc id =>
      GetRealtimeInverterRealtimeData_url f scope dc id
  | CallCommonData _ id =>
      GetRealtimeInverterRealtimeData_url f "Device" "CommonInverterData" id
  | CallThreePhaseData _ id =>
      GetRealtimeInverterRealtimeData_url f "Device" "3PInverterData" id
  end.

(** The info record of a device. *)
Definition info_record (inverter : InverterInfo) : Metric :=
  {| desc := inverterInfo newCollector;
     valType := GaugeValue;
     value := 1%float;
     labelValues := [Name inverter; fmt_d (Dt inverter);
                     CustomName inverter; UniqueID inverter] |}.

(** The status indicator of a device for one status name: 1 when the
    device is in that status, 0 otherwise, labelled with [label]. *)
Definition status_record (inverter : InverterInfo) (status label : string) : Metric :=
  {| desc := inverterStatus newCollector;
     valType := GaugeValue;
     value := if decide (StatusCode_String (Info_StatusCode inverter) = status)
              then 1%float else 0%float;
     labelValues := [Name inverter; label] |}.

(** The status names as they appear in the label [status]. *)
Definition status_labels : list string :=
  [ "startup"; "running"; "standby"; "bootloading"; "error";
    "idle"; "ready"; "sleeping"; "unknown"; "invalid" ].

(** The ten status indicators of a device, in the order of [StatusCodes]. *)
Definition status_records (inverter : InverterInfo) : list Metric :=
  zip_with (status_record inverter) StatusCodes status_labels.

Definition inventory_records (inverter : InverterInfo) : list Metric :=
  info_record inverter :: status_records inverter.

Definition gauge (d : Desc) (v : float) (labels : list string) : Metric :=
  {| desc := d; valType := GaugeValue; value := v; labelValues := labels |}.

(** The detail records of a device from its common data. *)
Definition common_records (id : string) (data : InverterCommonData) : list Metric :=
  [ {| desc := inverterTotalEnergy newCollector;
       valType := CounterValue;
       value := (Value (TotalEnergy data) / 1000)%float;
       labelValues := [id] |};
    gauge (inverterDCVoltage newCollector) (Value (Udc data)) [id];
    gauge (inverterDCCurrent newCollector) (Value (Idc data)) [id];
    gauge (inverterACFrequency newCollector) (Value (Fac data)) [id] ].

(** The detail records of a device from its three-phase data. *)
Definition threephase_records (id : string) (data : InverterThreePhaseData)
  : list Metric :=
  [ gauge (inverterACVoltage newCollector) (Value (UacL1 data)) [id; "L1"];
    gauge (inverterACVoltage newCollector) (Value (UacL2 data)) [id; "L2"];
    gauge (inverterACVoltage newCollector) (Value (UacL3 data)) [id; "L3"];
    gauge (inverterACCurrent newCollector) (Value (IacL1 data)) [id; "L1"];
    gauge (inverterACCurrent newCollector) (Value (IacL2 data)) [id; "L2"];
    gauge (inverterACCurrent newCollector) (Value (IacL3 data)) [id; "L3"] ].

(** What the two detail calls for one device returned. *)
Record DetailOutcome : Type := mkDetailOutcome {
  device : string;
  common : result InverterCommonData;
  threephase : result InverterThreePhaseData
}.

(** The answers of the client to the detail calls for the devices [ids],
    made one device after the other (common data first) from state [st]. *)
Fixpoint detail_outcomes (ids : list string) (st : State) : list DetailOutcome :=
  match ids with
  | [] => []
  | id :: ids' =>
      let (rc, st1) := GetInverterRealtimeCommonData (WithTimeout timeout) id st in
      let (rt, st2) := GetInverterRealtimeThreePhaseData (WithTimeout timeout) id st1 in
      {| device := id; common := rc; threephase := rt |} :: detail_outcomes ids' st2
  end.

(** The detail records of one device: those of the calls that succeeded. *)
Definition detail_records (o : DetailOutcome) : list Metric :=
  match common o with
  | Ok data => common_records (device o) data
  | Err _ => []
  end ++
  match threephase o with
  | Ok data => threephase_records (device o) data
  | Err _ => []
  end.


(** In state [st] the transport is handed a GET request for [url] and
    answers it with [r]. *)
Definition answered (st : State) (ctx : Context) (url : string)
    (r : result Response) : Prop :=
  exists req w,
    newRequest ctx "GET" url = Ok req /\
    Client_Do req (world st) = (r, w).

(** The context a call is made with. *)
Definition call_ctx (c : ClientCall) : Context :=
  match c with
  | CallInverterInfo ctx => ctx
  | CallRealtimeData ctx _ _ _ => ctx
  | CallCommonData ctx _ => ctx
  | CallThreePhaseData ctx _ => ctx
  end.

Definition error_of {A} (r : result A) : option error :=
  match r with
  | Ok _ => None
  | Err err => Some err
  end.

(** The error a call made in state [st] returns, if it returns one. *)
Definition call_error (st : State) (c : ClientCall) : option error :=
  match c with
  | CallInverterInfo ctx =>
      match fst (GetInverterInfo ctx st) with
      | Return r => error_of r
      | Panic _ => None
      end
  | CallRealtimeData ctx scope dc id =>
      error_of (fst (GetRealtimeInverterRealtimeData ctx scope dc id st))
  | CallCommonData ctx id => error_of (fst (GetInverterRealtimeCommonData ctx id st))
  | CallThreePhaseData ctx id =>
      error_of (fst (GetInverterRealtimeThreePhaseData ctx id st))
  end.

(** The GET request for [url] with the two headers of the client. *)
Definition request_for (ctx : Context) (url : string) : Request :=
  {| req_ctx := ctx; req_Method := "GET"; req_URL := url;
     req_Header := <["User-Agent" := ["fronius-exporter"]]>
                     (<["Accept" := ["application/json"]]> ∅) |}.

(** The requests of one scrape for the devices [ids], when the client is
    [f]: common data, then three-phase data, device after device. *)
Definition detail_requests (f : Fronius) (ids : list string) : list Request :=
  flat_map (fun id =>
    [ request_for (WithTimeout timeout)
        (GetRealtimeInverterRealtimeData_url f "Device" "CommonInverterData" id);
      request_for (WithTimeout timeout)
        (GetRealtimeInverterRealtimeData_url f "Device" "3PInverterData" id) ]) ids.

(** The state the two detail calls per device leave behind, without the
    collector around them. *)
Definition after_details (ids : list string) (st : State) : State :=
  fold_left (fun st id =>
    after_call (after_call st (CallCommonData (WithTimeout timeout) id))
               (CallThreePhaseData (WithTimeout timeout) id)) ids st.

(** The log entries of one device: one per detail call that failed. *)
Definition detail_logs (o : DetailOutcome) : list LogEntry :=
  match common o with
  | Ok _ => []
  | Err err => [ {| log_err := err;
                    log_msg := "unable to get common data for inverter" |} ]
  end ++
  match threephase o with
  | Ok _ => []
  | Err err => [ {| log_err := err;
                    log_msg := "unable to get three phase data for inverter" |} ]
  end.

(** What identifies a metric within a scrape: its name and its label
    values. *)
Definition metric_identity (m : Metric) : string * list string :=
  (fqName (desc m), labelValues m).

End Vocabulary.

(** ** A simulated installation

    One instance of [Runtime], small enough to run: a device at
    [inverter.local] that lists three inverters, answers the realtime
    requests for inverter 1, reports a protocol error and an HTTP error for
    inverter 3, sends a payload that does not decode for an inverter 4, and
    drops the connection for everything else. The theorems
    below hold for every runtime; this one is where they are run. *)

Module Simulation.

Definition drop_trailing_slash (s : string) : string :=
  match String.length s with
  | O => s
  | S n => if String.eqb (String.substring n 1 s) "/" then String.substring 0 n s else s
  end.

Definition join (l : list string) : string :=
  String.concat "/"
    (List.filter (fun s => negb (String.eqb s "")) (List.map drop_trailing_slash l)).

Definition encode (kvs : list (string * list string)) : string :=
  String.concat "&"
    (List.map (fun kv => fst kv +:+ "=" +:+ String.concat "," (snd kv)) kvs).

Definition url_string (u : URL) : string :=
  Scheme u +:+ "://" +:+ Host u +:+ "/" +:+ Path u +:+ "?" +:+ RawQuery u.

Definition parse (s : string) : result URL :=
  if String.eqb s "" then Err (errorString "parse: empty url")
  else Ok {| Scheme := "http"; Host := s; Path := ""; RawQuery := ""; Fragment := "" |}.

(** The entity [&amp;] and nothing else. *)
Fixpoint unescape_amp (s : string) : string :=
  match s with
  | String "&" (String "a" (String "m" (String "p" (String ";" rest)))) =>
      String "&" (unescape_amp rest)
  | String c rest => String c (unescape_amp rest)
  | EmptyString => EmptyString
  end.

Definition ok_response (body : string) : result Response :=
  Ok {| resp_StatusCode := 200; resp_Status := "200 OK"; resp_Body := body |}.

Definition realtime_url (collection id : string) : string :=
  "http://inverter.local/solar_api/v1/GetInverterRealtimeData.cgi?Scope=Device&DataCollection="
  +:+ collection +:+ "&DeviceId=" +:+ id.

Definition serve (url : string) : result Response :=
  if String.eqb url
       "http://inverter.local/solar_api/v1/GetInverterInfo.cgi?DeviceClass=System"
  then ok_response "inventory"
  else if String.eqb url (realtime_url "CommonInverterData" "1")
  then ok_response "common-1"
  else if String.eqb url (realtime_url "3PInverterData" "1")
  then ok_response "threephase-1"
  else if String.eqb url (realtime_url "CommonInverterData" "3")
  then ok_response "busy"
  else if String.eqb url (realtime_url "3PInverterData" "3")
  then Ok {| resp_StatusCode := 503; resp_Status := "503 Service Unavailable";
             resp_Body := "" |}
  else if String.eqb url (realtime_url "CommonInverterData" "4")
  then ok_response "garbled"
  else Err (errorString "dial tcp: connection refused").

Definition envelope (data : RawMessage) (code : Z) (reason user : string) : Msg :=
  {| Body := {| Data := data |};
     Head := {| Status := {| Code := code; Reason := reason; UserMessage := user |};
                Timestamp := 0 |} |}.

Definition decode_msg (body : string) : result Msg :=
  if String.eqb body "inventory" then Ok (envelope "inventory" 0 "" "")
  else if String.eqb body "common-1" then Ok (envelope "common-1" 0 "" "")
  else if String.eqb body "threephase-1" then Ok (envelope "threephase-1" 0 "" "")
  else if String.eqb body "busy" then Ok (envelope "" 12 "busy" "device is busy")
  else if String.eqb body "garbled" then Ok (envelope "garbled" 0 "" "")
  else Err (errorString "unexpected end of JSON input").

Definition inverter (custom : string) (status : StatusCode) (serial : string)
  : InverterInfo :=
  {| Name := ""; CustomName := custom; Dt := 232; ErrorCode := 0;
     PVPower := 5000; Show := 1; Info_StatusCode := status; UniqueID := serial |}.

Definition inventory : gmap string (option InverterInfo) :=
  list_to_map
    [ ("3", Some (inverter "garage" 8 "3333333"));
      ("1", Some (inverter "East &amp; West" 7 "1234567"));
      ("2", Some (inverter "&amp;" 14 "2222222")) ].

Definition unmarshal_inverters (data : RawMessage)
  : result (gmap string (option InverterInfo)) :=
  if String.eqb data "inventory" then Ok inventory
  else Err (errorString "json: cannot unmarshal into map").

Definition dv (unit : string) (v : float) : DataValue :=
  {| Unit := unit; Value := v |}.

Definition common_1 : InverterCommonData :=
  {| DayEnergy := dv "Wh" 1393.2;
     CD_DeviceStatus :=
       {| DS_ErrorCode := 0; LEDColor := 2; LEDState := 0;
          MgmtTimerRemainingTime := -1; StateToReset := false;
          DS_StatusCode := 7 |};
     Fac := dv "Hz" 49.97;
     Iac := dv "A" 0.57;
     Idc := dv "A" 0.97;
     Pac := dv "W" 258;
     TotalEnergy := dv "Wh" 234611600;
     Uac := dv "V" 236.2;
     Udc := dv "V" 636.9;
     YearEnergy := dv "Wh" 4927356 |}.

Definition unmarshal_common (data : RawMessage) : result InverterCommonData :=
  if String.eqb data "common-1" then Ok common_1
  else Err (errorString "json: cannot unmarshal into common data").

Definition threephase_1 : InverterThreePhaseData :=
  {| IacL1 := dv "A" 0.57; IacL2 := dv "A" 0.71; IacL3 := dv "A" 0.72;
     UacL1 := dv "V" 236.2; UacL2 := dv "V" 234.9; UacL3 := dv "V" 236.4 |}.

Definition unmarshal_threephase (data : RawMessage)
  : result InverterThreePhaseData :=
  if String.eqb data "threephase-1" then Ok threephase_1
  else Err (errorString "json: cannot unmarshal into three phase data").

(** The world is the number of requests served; map iteration runs
    forwards or backwards with its parity. *)
#[export] Instance runtime : Runtime :=
  {| World := nat;
     url_Parse := parse;
     filepath_Join := join;
     Values_Encode := encode;
     URL_String := url_string;
     http_request_error := fun _ _ => None;
     Client_Do := fun req w => (serve (req_URL req), S w);
     json_Decode_Msg := decode_msg;
     json_Unmarshal_inverters := unmarshal_inverters;
     json_Unmarshal_common := unmarshal_common;
     json_Unmarshal_threephase := unmarshal_threephase;
     html_UnescapeString := unescape_amp;
     unicode_ToLower_Map := fun s => s;
     map_range := fun w m =>
       if Nat.even w then map_to_list m else reverse (map_to_list m) |}.

Definition the_client : Fronius :=
  {| baseURL := {| Scheme := "http"; Host := "inverter.local";
                   Path := "solar_api/v1"; RawQuery := ""; Fragment := "" |} |}.

Definition start : State :=
  {| client := the_client; world := 0%nat; wire := []; sink := []; logs := [] |}.

(** The inventory the simulated device lists, as [GetInverterInfo] returns
    it, and the state that call leaves behind. *)
Definition listed : list InverterInfo :=
  [ {| Name := "1"; CustomName := "East & West"; Dt := 232; ErrorCode := 0;
       PVPower := 5000; Show := 1; Info_StatusCode := 7; UniqueID := "1234567" |};
    {| Name := "2"; CustomName := "&"; Dt := 232; ErrorCode := 0;
       PVPower := 5000; Show := 1; Info_StatusCode := 14; UniqueID := "2222222" |};
    {| Name := "3"; CustomName := "garage"; Dt := 232; ErrorCode := 0;
       PVPower := 5000; Show := 1; Info_StatusCode := 8; UniqueID := "3333333" |} ].

Definition after_inventory : State :=
  snd (GetInverterInfo (WithTimeout timeout) start).

End Simulation.

(** ** Variants of the simulated installation

    The same installation with another transport, another check of
    requests or another inventory, for the failures the first one does not
    show. *)

Module Variants.

Definition installation (serve : string -> result Response)
    (reject : string -> string -> option error)
    (inventory : gmap string (option InverterInfo)) : Runtime :=
  {| World := nat;
     url_Parse := Simulation.parse;
     filepath_Join := Simulation.join;
     Values_Encode := Simulation.encode;
     URL_String := Simulation.url_string;
     http_request_error := reject;
     Client_Do := fun req w => (serve (req_URL req), S w);
     json_Decode_Msg := Simulation.decode_msg;
     json_Unmarshal_inverters := fun data =>
       if String.eqb data "inventory" then Ok inventory
       else Err (errorString "json: cannot unmarshal into map");
     json_Unmarshal_common := Simulation.unmarshal_common;
     json_Unmarshal_threephase := Simulation.unmarshal_threephase;
     html_UnescapeString := Simulation.unescape_amp;
     unicode_ToLower_Map := fun s => s;
     map_range := fun w m =>
       if Nat.even w then map_to_list m else reverse (map_to_list m) |}.

(** A device that lists no inverter. *)
Definition empty_site : Runtime :=
  installation Simulation.serve (fun _ _ => None) ∅.

(** A device whose inventory has a [null] entry: the payload
    [{"1": {...}, "2": null}]. *)
Definition null_site : Runtime :=
  installation Simulation.serve (fun _ _ => None)
    (list_to_map
       [ ("1", Some (Simulation.inverter "East &amp; West" 7 "1234567"));
         ("2", None) ]).

(** An HTTP library that rejects every request. *)
Definition strict_site : Runtime :=
  installation Simulation.serve
    (fun _ _ => Some (errorString "net/http: invalid method"))
    Simulation.inventory.

(** A web server that answers every request with a page of HTML. *)
Definition html_site : Runtime :=
  installation (fun _ => Simulation.ok_response "<html>") (fun _ _ => None)
    Simulation.inventory.

(** The payload that arrives for the three-phase data of inverter 1 is
    the one of its common data. *)
Definition mixed_site : Runtime :=
  installation
    (fun url =>
       if String.eqb url (Simulation.realtime_url "3PInverterData" "1")
       then Simulation.ok_response "common-1" else Simulation.serve url)
    (fun _ _ => None) Simulation.inventory.

(** A device that answers the common-data request of inverter 1 with the
    empty object and that of inverter 2 with an array, on a runtime whose
    decoder of common data is the one of [encoding_json] with the folding
    of ASCII letters. *)
Definition upper_byte (c : ascii) : ascii :=
  if ((97 <=? N_of_ascii c) && (N_of_ascii c <=? 122))%N
  then ascii_of_N (N_of_ascii c - 32) else c.

Definition fold_ascii (s : string) : string := map_bytes upper_byte s.

Definition parse_json (data : RawMessage) : result encoding_json.value :=
  if String.eqb data "{}" then Ok (encoding_json.Object [])
  else if String.eqb data "null" then Ok encoding_json.Null
  else if String.eqb data "[]" then Ok (encoding_json.Array [])
  else Err (errorString "unexpected end of JSON input").

Definition json_site : Runtime :=
  {| World := nat;
     url_Parse := Simulation.parse;
     filepath_Join := Simulation.join;
     Values_Encode := Simulation.encode;
     URL_String := Simulation.url_string;
     http_request_error := fun _ _ => None;
     Client_Do := fun req w =>
       (if String.eqb (req_URL req) (Simulation.realtime_url "CommonInverterData" "1")
        then Simulation.ok_response "envelope of {}"
        else if String.eqb (req_URL req)
                  (Simulation.realtime_url "CommonInverterData" "2")
        then Simulation.ok_response "envelope of []"
        else Err (errorString "dial tcp: connection refused"), S w);
     json_Decode_Msg := fun body =>
       if String.eqb body "envelope of {}" then Ok (Simulation.envelope "{}" 0 "" "")
       else if String.eqb body "envelope of []" then Ok (Simulation.envelope "[]" 0 "" "")
       else Err (errorString "unexpected end of JSON input");
     json_Unmarshal_inverters := fun _ => Err (errorString "not an inventory");
     json_Unmarshal_common := fun data =>
       match parse_json data with
       | Ok v => encoding_json.Unmarshal_InverterCommonData fold_ascii v
       | Err err => Err err
       end;
     json_Unmarshal_threephase := Simulation.unmarshal_threephase;
     html_UnescapeString := Simulation.unescape_amp;
     unicode_ToLower_Map := fun s => s;
     map_range := fun w m =>
       if Nat.even w then map_to_list m else reverse (map_to_list m) |}.

Definition start (rt : Runtime) (w : @World rt) : @State rt :=
  {| client := Simulation.the_client; world := w; wire := []; sink := [];
     logs := [] |}.

End Variants.

(** * Properties *)

(** ** The status decoder *)

Lemma StatusCodes_NoDup : NoDup StatusCodes.
Proof.
  apply (bool_decide_unpack _). vm_compute. exact I.
Qed.

Ltac decide_code i k :=
  destruct (Z.eqb_spec i k) as [-> | ?];
  [ repeat split; intros; try reflexivity; try discriminate; try lia;
    cbv; tauto | ].

(** Every code is decoded to one of the ten names. *)
Lemma StatusCode_String_enumerated (i : StatusCode) :
  In (StatusCode_String i) StatusCodes.
Proof.
  unfold StatusCode_String.
  destruct ((0 <=? i) && (i <? 7)); [ cbv; tauto | ].
  repeat match goal with
         | |- context [if ?b then _ else _] => destruct b; [ cbv; tauto | ]
         end.
  cbv; tauto.
Qed.

(** C1. The status decoder is total and follows the table of the
    specification: every integer code is decoded to one of the ten names of
    [StatusCodes], which are pairwise different; the name is Startup
    exactly for 0..6, Running for 7, Standby for 8, Bootloading for 9,
    Error for 10, Idle for 11, Ready for 12, Sleeping for 13, Unknown for
    255 and Invalid for every other integer, negative ones and 14..254
    included. *)
Theorem StatusCode_String_table (i : StatusCode) :
  In (StatusCode_String i) StatusCodes /\
  length StatusCodes = 10%nat /\
  NoDup StatusCodes /\
  (StatusCode_String i = StatusCodeStartup <-> 0 <= i < 7) /\
  (StatusCode_String i = StatusCodeRunning <-> i = 7) /\
  (StatusCode_String i = StatusCodeStandby <-> i = 8) /\
  (StatusCode_String i = StatusCodeBootloading <-> i = 9) /\
  (StatusCode_String i = StatusCodeError <-> i = 10) /\
  (StatusCode_String i = StatusCodeIdle <-> i = 11) /\
  (StatusCode_String i = StatusCodeReady <-> i = 12) /\
  (StatusCode_String i = StatusCodeSleeping <-> i = 13) /\
  (StatusCode_String i = StatusCodeUnknown <-> i = 255) /\
  (StatusCode_String i = StatusCodeInvalid <->
     i < 0 \/ 14 <= i <= 254 \/ 256 <= i).
Proof.
  split; [ | split; [ reflexivity | split; [ exact StatusCodes_NoDup | ] ] ].
  - apply StatusCode_String_enumerated.
  - unfold StatusCode_String.
    destruct (Z.leb_spec 0 i); destruct (Z.ltb_spec i 7); cbn [andb];
      try (repeat split; intros; try reflexivity; try discriminate; lia).
    + decide_code i 7. decide_code i 8. decide_code i 9. decide_code i 10.
      decide_code i 11. decide_code i 12. decide_code i 13. decide_code i 255.
      repeat split; intros; try reflexivity; try discriminate; lia.
    + assert (Hn : forall k, 0 <= k -> (i =? k) = false)
        by (intros; apply Z.eqb_neq; lia).
      rewrite !Hn by lia.
      repeat split; intros; try reflexivity; try discriminate; lia.
Qed.

(** The boundary cases the specification lists. *)
Example StatusCode_String_boundaries :
  StatusCode_String 0 = "Startup" /\
  StatusCode_String 6 = "Startup" /\
  StatusCode_String 7 = "Running" /\
  StatusCode_String 13 = "Sleeping" /\
  StatusCode_String 14 = "INVALID" /\
  StatusCode_String 254 = "INVALID" /\
  StatusCode_String 255 = "Unknown" /\
  StatusCode_String 256 = "INVALID" /\
  StatusCode_String (-1) = "INVALID".
Proof. repeat split. Qed.

(** ** Byte-wise order of strings ([<] on Go strings) *)

Section StringOrder.

Lemma ascii_compare_refl (a : ascii) : Ascii.compare a a = Eq.
Proof. unfold Ascii.compare. apply N.compare_refl. Qed.

Lemma ascii_compare_lt_trans (a b c : ascii) :
  Ascii.compare a b = Lt -> Ascii.compare b c = Lt -> Ascii.compare a c = Lt.
Proof.
  unfold Ascii.compare. rewrite !N.compare_lt_iff. apply N.lt_trans.
Qed.

Lemma string_compare_refl (s : string) : String.compare s s = Eq.
Proof.
  induction s as [ | a s IH]; cbn; [ reflexivity | ].
  rewrite ascii_compare_refl. exact IH.
Qed.

Lemma string_compare_lt_trans (s1 s2 s3 : string) :
  String.compare s1 s2 = Lt -> String.compare s2 s3 = Lt ->
  String.compare s1 s3 = Lt.
Proof.
  revert s2 s3. induction s1 as [ | a s1 IH]; intros [ | b s2] [ | c s3]; cbn;
    try discriminate; try reflexivity.
  destruct (Ascii.compare a b) eqn:Hab; try discriminate;
    destruct (Ascii.compare b c) eqn:Hbc; try discriminate; intros H12 H23.
  - apply Ascii.compare_eq_iff in Hab, Hbc. subst.
    rewrite ascii_compare_refl. eapply IH; eassumption.
  - apply Ascii.compare_eq_iff in Hab. subst. rewrite Hbc. reflexivity.
  - apply Ascii.compare_eq_iff in Hbc. subst. rewrite Hab. reflexivity.
  - rewrite (ascii_compare_lt_trans _ _ _ Hab Hbc). reflexivity.
Qed.

Lemma ltb_compare (s t : string) : String.ltb s t = true <-> String.compare s t = Lt.
Proof.
  unfold String.ltb. destruct (String.compare s t); split; congruence.
Qed.

Lemma ltb_irrefl (s : string) : String.ltb s s = false.
Proof. unfold String.ltb. rewrite string_compare_refl. reflexivity. Qed.

Lemma ltb_trans (s t u : string) :
  String.ltb s t = true -> String.ltb t u = true -> String.ltb s u = true.
Proof. rewrite !ltb_compare. apply string_compare_lt_trans. Qed.

Lemma ltb_asym (s t : string) : String.ltb s t = true -> String.ltb t s = false.
Proof.
  intros Hst. destruct (String.ltb t s) eqn:Hts; [ | reflexivity ].
  pose proof (ltb_trans _ _ _ Hst Hts) as H. rewrite ltb_irrefl in H.
  discriminate H.
Qed.

Lemma ltb_total (s t : string) :
  String.ltb s t = true \/ s = t \/ String.ltb t s = true.
Proof.
  rewrite !ltb_compare. rewrite (String.compare_antisym t s).
  destruct (String.compare s t) eqn:Hc; cbn; auto.
  right. left. apply String.compare_eq_iff. exact Hc.
Qed.

End StringOrder.

(** ** [sort.Slice] on records with a string key *)

Section SortByKey.
Context {A : Type} (key : A -> string).

Local Abbreviation less := (fun a b : A => String.ltb (key a) (key b)).
Local Abbreviation before := (may_precede key).
Local Abbreviation ascending := (strictly_before key).

Lemma sort_insert_Permutation (x : A) (l : list A) :
  sort_insert less x l ≡ₚ x :: l.
Proof.
  induction l as [ | y l IH]; cbn; [ reflexivity | ].
  destruct (less x y); [ reflexivity | ].
  rewrite IH. apply Permutation_swap.
Qed.

Lemma sort_fold_Permutation (l acc : list A) :
  fold_left (fun sorted a => sort_insert less a sorted) l acc ≡ₚ acc ++ l.
Proof.
  revert acc. induction l as [ | x l IH]; intros acc; cbn.
  - rewrite app_nil_r. reflexivity.
  - rewrite IH, sort_insert_Permutation.
    rewrite (Permutation_middle acc l x). reflexivity.
Qed.

Lemma sort_Slice_Permutation (l : list A) : sort_Slice less l ≡ₚ l.
Proof. unfold sort_Slice. rewrite sort_fold_Permutation. reflexivity. Qed.

Lemma before_trans (a b c : A) : before a b -> before b c -> before a c.
Proof.
  unfold may_precede. intros Hab Hbc.
  destruct (String.ltb (key c) (key a)) eqn:Hca; [ | reflexivity ].
  destruct (ltb_total (key b) (key a)) as [H | [H | H]].
  - congruence.
  - rewrite H in Hbc. congruence.
  - pose proof (ltb_trans _ _ _ Hca H). congruence.
Qed.

Lemma sort_insert_sorted (x : A) (l : list A) :
  StronglySorted before l -> StronglySorted before (sort_insert less x l).
Proof.
  induction 1 as [ | y l Hl IH Hy]; cbn.
  - repeat constructor.
  - destruct (less x y) eqn:Hxy.
    + assert (Hb : before x y) by (apply ltb_asym; exact Hxy).
      constructor; [ constructor; assumption | ].
      constructor; [ exact Hb | ].
      eapply Forall_impl; [ exact Hy | ].
      intros z Hz. eapply before_trans; eassumption.
    + constructor; [ exact IH | ].
      rewrite sort_insert_Permutation. constructor; assumption.
Qed.

Lemma sort_Slice_sorted (l : list A) : StronglySorted before (sort_Slice less l).
Proof.
  unfold sort_Slice.
  assert (H : forall acc, StronglySorted before acc ->
            StronglySorted before
              (fold_left (fun sorted a => sort_insert less a sorted) l acc)).
  { induction l as [ | x l IH]; intros acc Hacc; cbn; [ exact Hacc | ].
    apply IH, sort_insert_sorted, Hacc. }
  apply H. constructor.
Qed.

(** With pairwise different keys a sorted slice is strictly ascending. *)
Lemma sorted_strictly (l : list A) :
  NoDup (key <$> l) -> StronglySorted before l -> StronglySorted ascending l.
Proof.
  intros Hnd Hs. induction Hs as [ | x l Hl IH Hx]; [ constructor | ].
  rewrite fmap_cons in Hnd. apply NoDup_cons in Hnd as [Hnin Hnd].
  constructor; [ apply IH, Hnd | ].
  apply Forall_forall. intros y Hy.
  rewrite Forall_forall in Hx. specialize (Hx y Hy). unfold may_precede in Hx.
  unfold strictly_before.
  destruct (ltb_total (key x) (key y)) as [H | [H | H]]; [ exact H | | congruence ].
  exfalso. apply Hnin. rewrite H. apply list_elem_of_fmap_2. exact Hy.
Qed.

#[local] Instance strictly_before_antisym : AntiSymm eq ascending.
Proof.
  intros a b Hab Hba. unfold strictly_before in *.
  apply ltb_asym in Hab. congruence.
Qed.

(** Whatever algorithm sorted them: two strictly ascending arrangements of
    the same records are the same slice. *)
Lemma strictly_sorted_unique (l1 l2 : list A) :
  StronglySorted ascending l1 -> StronglySorted ascending l2 ->
  l1 ≡ₚ l2 -> l1 = l2.
Proof. apply StronglySorted_unique. exact strictly_before_antisym. Qed.

Lemma sort_Slice_strictly (l : list A) :
  NoDup (key <$> l) -> StronglySorted ascending (sort_Slice less l).
Proof.
  intros Hnd. apply sorted_strictly; [ | apply sort_Slice_sorted ].
  rewrite sort_Slice_Permutation. exact Hnd.
Qed.

(** The order of the input does not matter. *)
Lemma sort_Slice_order_independent (l1 l2 : list A) :
  NoDup (key <$> l1) -> l1 ≡ₚ l2 -> sort_Slice less l1 = sort_Slice less l2.
Proof.
  intros Hnd Hp. apply strictly_sorted_unique.
  - apply sort_Slice_strictly, Hnd.
  - apply sort_Slice_strictly. rewrite <- Hp. exact Hnd.
  - rewrite !sort_Slice_Permutation. exact Hp.
Qed.

End SortByKey.

(** ** The client *)

Section ClientProperties.
Context `{RT : Runtime}.

(** Unfolds one client method down to the transport and the decoders. *)
Ltac run_client :=
  unfold GetInverterRealtimeCommonData, GetInverterRealtimeThreePhaseData,
    GetRealtimeInverterRealtimeData, GetInverterInfo,
    bind, ret, deref_client, Do, range in *;
  cbn [client world wire sink logs fst snd] in *.

Ltac split_match :=
  match goal with
  | |- context [match ?x with _ => _ end] => destruct x eqn:?
  end.

Lemma Msg_Error_nil (m : Msg) :
  Msg_Error m = None <-> Code (Status (Head m)) = 0.
Proof.
  unfold Msg_Error. destruct (Z.eqb_spec (Code (Status (Head m))) 0); split;
    intros; (reflexivity || discriminate || congruence).
Qed.

Lemma Msg_Error_protocol (m : Msg) :
  Code (Status (Head m)) <> 0 ->
  Msg_Error m = Some (protocol_error (Code (Status (Head m)))
                        (Reason (Status (Head m)))
                        (UserMessage (Status (Head m)))).
Proof.
  intros Hc. unfold Msg_Error, protocol_error.
  destruct (Z.eqb_spec (Code (Status (Head m))) 0); [ contradiction | reflexivity ].
Qed.

(** What [GetRealtimeInverterRealtimeData] returns once the envelope has
    arrived. *)
Lemma GetRealtimeData_delivered ctx scope dc id st m :
  delivers st ctx (GetRealtimeInverterRealtimeData_url (client st) scope dc id) m ->
  fst (GetRealtimeInverterRealtimeData ctx scope dc id st) =
    match Msg_Error m with
    | Some err => Err err
    | None => Ok (Data (Body m))
    end.
Proof.
  intros (req & resp & w & Hreq & Hdo & Hcode & Hdec).
  run_client. rewrite Hreq, Hdo. cbn. rewrite Hcode. cbn.
  rewrite Hdec. destruct (Msg_Error m); reflexivity.
Qed.

(** What [GetInverterInfo] returns once the envelope has arrived. *)
Lemma GetInverterInfo_delivered ctx st m :
  delivers st ctx (GetInverterInfo_url (client st)) m ->
  exists w,
    fst (GetInverterInfo ctx st) =
      match Msg_Error m with
      | Some err => Return (Err err)
      | None =>
          match json_Unmarshal_inverters (Data (Body m)) with
          | Err err => Return (Err err)
          | Ok inverters =>
              match collect_sorted (map_range w inverters) with
              | Panic v => Panic v
              | Return result => Return (Ok result)
              end
          end
      end.
Proof.
  intros (req & resp & w & Hreq & Hdo & Hcode & Hdec).
  exists w. run_client. rewrite Hreq, Hdo. cbn. rewrite Hcode. cbn.
  rewrite Hdec. destruct (Msg_Error m); [ reflexivity | ].
  destruct (json_Unmarshal_inverters _); [ | reflexivity ].
  cbn. destruct (collect_sorted _); reflexivity.
Qed.

(** Conversely, a successful [GetInverterInfo] has received an envelope
    with code 0 whose payload decoded to a map. *)
Lemma GetInverterInfo_Ok_inv ctx st result st' :
  GetInverterInfo ctx st = (Return (Ok result), st') ->
  exists m inverters,
    delivers st ctx (GetInverterInfo_url (client st)) m /\
    Code (Status (Head m)) = 0 /\
    json_Unmarshal_inverters (Data (Body m)) = Ok inverters /\
    collect_sorted (map_range (world st') inverters) = Return result.
Proof.
  run_client. intros H.
  destruct (newRequest _ _ _) as [req | ] eqn:Hreq; [ | discriminate H ].
  destruct (Client_Do req (world st)) as [[resp | ] w] eqn:Hdo;
    [ | discriminate H ].
  destruct (Z.eqb_spec (resp_StatusCode resp) http_StatusOK) as [Hc | ];
    [ | discriminate H ].
  cbn in H.
  destruct (json_Decode_Msg _) as [m | ] eqn:Hdec; [ | discriminate H ].
  destruct (Msg_Error m) eqn:Herr; [ discriminate H | ].
  destruct (json_Unmarshal_inverters _) as [inverters | ] eqn:Hun;
    [ | discriminate H ].
  cbn in H.
  destruct (collect_sorted (map_range w inverters)) as [sorted | ] eqn:Hcs;
    [ | discriminate H ].
  inversion H; subst; clear H. cbn.
  exists m, inverters. split; [ | split; [ | split ] ].
  - exists req, resp, w. auto.
  - apply Msg_Error_nil. exact Herr.
  - exact Hun.
  - exact Hcs.
Qed.

(** C2. Envelope parsing signals a protocol error if and only if
    [Status.Code] is not zero. For a non-zero code the error carries
    exactly that code, the user message and the reason, and the client
    returns it without looking at the payload: the result of
    [GetRealtimeInverterRealtimeData], of its two wrappers and of
    [GetInverterInfo] is that error whatever [Data] holds. For code zero
    there is no error and [GetRealtimeInverterRealtimeData] returns the raw
    [Data] as it arrived. *)
Theorem Msg_Error_iff_nonzero_code (m : Msg) :
  let code := Code (Status (Head m)) in
  let failure :=
    protocol_error code (Reason (Status (Head m))) (UserMessage (Status (Head m))) in
  (Msg_Error m = None <-> code = 0) /\
  (code <> 0 -> Msg_Error m = Some failure) /\
  (forall ctx scope dc id st,
     delivers st ctx (GetRealtimeInverterRealtimeData_url (client st) scope dc id) m ->
     fst (GetRealtimeInverterRealtimeData ctx scope dc id st) =
       if decide (code = 0) then Ok (Data (Body m)) else Err failure) /\
  (forall ctx id st,
     delivers st ctx
       (GetRealtimeInverterRealtimeData_url (client st) "Device" "CommonInverterData" id) m ->
     code <> 0 ->
     fst (GetInverterRealtimeCommonData ctx id st) = Err failure) /\
  (forall ctx id st,
     delivers st ctx
       (GetRealtimeInverterRealtimeData_url (client st) "Device" "3PInverterData" id) m ->
     code <> 0 ->
     fst (GetInverterRealtimeThreePhaseData ctx id st) = Err failure) /\
  (forall ctx st,
     delivers st ctx (GetInverterInfo_url (client st)) m ->
     code <> 0 ->
     fst (GetInverterInfo ctx st) = Return (Err failure)).
Proof.
  intros code failure.
  split; [ apply Msg_Error_nil | ].
  split; [ apply Msg_Error_protocol | ].
  split; [ | split; [ | split ] ].
  - intros ctx scope dc id st Hd.
    rewrite (GetRealtimeData_delivered _ _ _ _ _ _ Hd).
    destruct (decide (code = 0)) as [Hz | Hnz].
    + apply Msg_Error_nil in Hz. rewrite Hz. reflexivity.
    + rewrite (Msg_Error_protocol m Hnz). reflexivity.
  - intros ctx id st Hd Hnz.
    pose proof (GetRealtimeData_delivered _ _ _ _ _ _ Hd) as Hr.
    rewrite (Msg_Error_protocol m Hnz) in Hr.
    unfold GetInverterRealtimeCommonData, bind.
    destruct (GetRealtimeInverterRealtimeData _ _ _ _ _) as [r st'].
    cbn in Hr. subst r. reflexivity.
  - intros ctx id st Hd Hnz.
    pose proof (GetRealtimeData_delivered _ _ _ _ _ _ Hd) as Hr.
    rewrite (Msg_Error_protocol m Hnz) in Hr.
    unfold GetInverterRealtimeThreePhaseData, bind.
    destruct (GetRealtimeInverterRealtimeData _ _ _ _ _) as [r st'].
    cbn in Hr. subst r. reflexivity.
  - intros ctx st Hd Hnz.
    destruct (GetInverterInfo_delivered _ _ _ Hd) as [w Hr].
    rewrite Hr, (Msg_Error_protocol m Hnz). reflexivity.
Qed.


Lemma newRequest_url ctx method url req :
  newRequest ctx method url = Ok req -> req_URL req = url.
Proof.
  unfold newRequest. destruct (http_request_error method url); [ discriminate | ].
  intros H. inversion H. reflexivity.
Qed.

(** The footprint of [GetRealtimeInverterRealtimeData]: it reads the
    client, talks to the world, and puts at most one request on the wire. *)
Lemma GetRealtimeData_footprint ctx scope dc id st :
  let st' := snd (GetRealtimeInverterRealtimeData ctx scope dc id st) in
  client st' = client st /\ sink st' = sink st /\ logs st' = logs st /\
  (wire st' = wire st \/
   exists req, wire st' = wire st ++ [req] /\
     req_URL req = GetRealtimeInverterRealtimeData_url (client st) scope dc id).
Proof.
  run_client.
  destruct (newRequest _ _ _) as [req | ] eqn:Hreq; cbn; [ | tauto ].
  assert (Hw : wire st ++ [req] = wire st \/
     exists req0, wire st ++ [req] = wire st ++ [req0] /\
       req_URL req0 =
         GetRealtimeInverterRealtimeData_url (client st) scope dc id).
  { right. exists req. split; [ reflexivity | ].
    apply (newRequest_url _ _ _ _ Hreq). }
  destruct (Client_Do req (world st)) as [[resp | ] w]; cbn; [ | tauto ].
  repeat (split_match; cbn; try tauto).
Qed.

Lemma GetInverterInfo_footprint ctx st :
  let st' := snd (GetInverterInfo ctx st) in
  client st' = client st /\ sink st' = sink st /\ logs st' = logs st /\
  (wire st' = wire st \/
   exists req, wire st' = wire st ++ [req] /\
     req_URL req = GetInverterInfo_url (client st)).
Proof.
  run_client.
  destruct (newRequest _ _ _) as [req | ] eqn:Hreq; cbn; [ | tauto ].
  assert (Hw : wire st ++ [req] = wire st \/
     exists req0, wire st ++ [req] = wire st ++ [req0] /\
       req_URL req0 = GetInverterInfo_url (client st)).
  { right. exists req. split; [ reflexivity | ].
    apply (newRequest_url _ _ _ _ Hreq). }
  destruct (Client_Do req (world st)) as [[resp | ] w]; cbn; [ | tauto ].
  repeat (split_match; cbn; try tauto).
Qed.

Lemma GetCommonData_state ctx id st :
  snd (GetInverterRealtimeCommonData ctx id st) =
  snd (GetRealtimeInverterRealtimeData ctx "Device" "CommonInverterData" id st).
Proof.
  unfold GetInverterRealtimeCommonData, bind, ret.
  destruct (GetRealtimeInverterRealtimeData _ _ _ _ _) as [[data | ] st'];
    [ destruct (json_Unmarshal_common data) | ]; reflexivity.
Qed.

Lemma GetThreePhaseData_state ctx id st :
  snd (GetInverterRealtimeThreePhaseData ctx id st) =
  snd (GetRealtimeInverterRealtimeData ctx "Device" "3PInverterData" id st).
Proof.
  unfold GetInverterRealtimeThreePhaseData, bind, ret.
  destruct (GetRealtimeInverterRealtimeData _ _ _ _ _) as [[data | ] st'];
    [ destruct (json_Unmarshal_threephase data) | ]; reflexivity.
Qed.

(** Every call leaves the client, the sink and the log as they were, and
    requests at most the address built from the client. *)
Lemma call_footprint (c : ClientCall) (st : State) :
  client (after_call st c) = client st /\
  sink (after_call st c) = sink st /\
  logs (after_call st c) = logs st /\
  (wire (after_call st c) = wire st \/
   exists req, wire (after_call st c) = wire st ++ [req] /\
     req_URL req = call_url (client st) c).
Proof.
  destruct c as [ctx | ctx scope dc id | ctx id | ctx id]; cbn [after_call call_url].
  - apply GetInverterInfo_footprint.
  - apply GetRealtimeData_footprint.
  - rewrite GetCommonData_state. apply GetRealtimeData_footprint.
  - rewrite GetThreePhaseData_state. apply GetRealtimeData_footprint.
Qed.

(** C9. The endpoint is fixed at construction and no client operation
    changes it: [NewFronius] stores the parsed address with the API path
    prefix joined to its path, and after any sequence of calls of
    [GetInverterInfo], [GetRealtimeInverterRealtimeData] and its two
    wrappers the client is the one the sequence started with, so every
    request of the sequence went to an address built from that same base. *)
Theorem baseURL_immutable (calls : list ClientCall) (st : State) :
  let st' := fold_left after_call calls st in
  (forall urlString f,
     NewFronius urlString = Ok f ->
     exists u, url_Parse urlString = Ok u /\
       baseURL f = URL_set_Path u (filepath_Join [Path u; "solar_api/v1/"])) /\
  client st' = client st /\
  exists reqs,
    wire st' = wire st ++ reqs /\
    Forall (fun req => exists c, c ∈ calls /\ req_URL req = call_url (client st) c)
           reqs.
Proof.
  cbn zeta. split.
  { intros urlString f. unfold NewFronius.
    destruct (url_Parse urlString) as [u | ]; [ | discriminate ].
    intros H. inversion H. exists u. split; reflexivity. }
  revert st. induction calls as [ | c calls IH]; intros st; cbn [fold_left].
  - split; [ reflexivity | ]. exists []. split; [ | constructor ].
    symmetry. apply app_nil_r.
  - destruct (call_footprint c st) as (Hc & _ & _ & Hw).
    destruct (IH (after_call st c)) as (Hc' & reqs & Hw' & Hall).
    split; [ congruence | ].
    assert (Hall' : Forall (fun req => exists c0, c0 ∈ c :: calls /\
                       req_URL req = call_url (client st) c0) reqs).
    { eapply Forall_impl; [ exact Hall | ]. cbn.
      intros req (c0 & Hin & Hurl). exists c0. split; [ right; exact Hin | ].
      rewrite Hurl, Hc. reflexivity. }
    destruct Hw as [Hw | (req & Hw & Hurl)].
    + exists reqs. split; [ congruence | exact Hall' ].
    + exists (req :: reqs). split.
      * rewrite Hw', Hw, <- app_assoc. reflexivity.
      * constructor; [ | exact Hall' ].
        exists c. split; [ left | exact Hurl ].
Qed.

End ClientProperties.

(** ** The inventory loop of [GetInverterInfo] *)

Section Inventory.
Context `{RT : Runtime}.

Local Abbreviation fill := (fun e : string * InverterInfo => fill_inverter (fst e) (snd e)).

(** The loop panics exactly when an entry is a nil pointer, wherever it
    stands; otherwise it appends the filled records in the order of the
    visit. *)
Lemma append_inverters_cases (entries : list (string * option InverterInfo))
    (acc : list InverterInfo) :
  ((exists name, (name, None) ∈ entries) /\
   append_inverters entries acc = Panic nil_dereference) \/
  ((forall name, (name, None) ∉ entries) /\
   append_inverters entries acc = Return (acc ++ (fill <$> omap record_of entries))).
Proof.
  revert acc. induction entries as [ | [name [inverter | ]] entries IH]; intros acc.
  - right. split; [ intros name H; inversion H | ].
    cbn. rewrite app_nil_r. reflexivity.
  - cbn [append_inverters].
    destruct (IH (acc ++ [fill_inverter name inverter])) as [[[k Hk] Hp] | [Hn Hr]].
    + left. split; [ exists k; right; exact Hk | exact Hp ].
    + right. split.
      * intros k Hk. apply elem_of_cons in Hk as [Hk | Hk];
          [ discriminate Hk | exact (Hn k Hk) ].
      * rewrite Hr. cbn. rewrite <- app_assoc. reflexivity.
  - left. split; [ exists name; left | reflexivity ].
Qed.

Lemma collect_sorted_cases (entries : list (string * option InverterInfo)) :
  ((exists name, (name, None) ∈ entries) /\
   collect_sorted entries = Panic nil_dereference) \/
  ((forall name, (name, None) ∉ entries) /\
   collect_sorted entries
   = Return (sort_Slice less_Name (fill <$> omap record_of entries))).
Proof.
  unfold collect_sorted.
  destruct (append_inverters_cases entries []) as [[Hk ->] | [Hn ->]];
    [ left | right ]; auto.
Qed.

Lemma Name_fill (entries : list (string * InverterInfo)) :
  Name <$> (fill <$> entries) = fst <$> entries.
Proof. rewrite <- list_fmap_compose. reflexivity. Qed.

Lemma records_keys (entries : list (string * option InverterInfo)) :
  (forall name, (name, None) ∉ entries) ->
  fst <$> omap record_of entries = fst <$> entries.
Proof.
  induction entries as [ | [name [inverter | ]] entries IH]; intros Hn;
    [ reflexivity | | ].
  - cbn. rewrite IH; [ reflexivity | ].
    intros k Hk. apply (Hn k). right. exact Hk.
  - exfalso. apply (Hn name). left.
Qed.

Lemma records_elem (entries : list (string * option InverterInfo)) name inverter :
  (name, inverter) ∈ omap record_of entries <-> (name, Some inverter) ∈ entries.
Proof.
  rewrite list_elem_of_omap. split.
  - intros ([k [i | ]] & Hin & Hr); [ | discriminate Hr ].
    inversion Hr; subst. exact Hin.
  - intros Hin. exists (name, Some inverter). split; [ exact Hin | reflexivity ].
Qed.

(** The loop is indifferent to the order in which the map hands out its
    entries, as long as each key comes once. *)
Lemma collect_sorted_order_independent
    (entries entries' : list (string * option InverterInfo)) :
  NoDup (fst <$> entries) -> entries ≡ₚ entries' ->
  collect_sorted entries = collect_sorted entries'.
Proof.
  intros Hnd Hp.
  destruct (collect_sorted_cases entries) as [[[k Hk] ->] | [Hn ->]];
    destruct (collect_sorted_cases entries') as [[[k' Hk'] ->] | [Hn' ->]].
  - reflexivity.
  - exfalso. apply (Hn' k). rewrite <- Hp. exact Hk.
  - exfalso. apply (Hn k'). rewrite Hp. exact Hk'.
  - f_equal. apply (sort_Slice_order_independent Name).
    + rewrite Name_fill, (records_keys _ Hn). exact Hnd.
    + rewrite Hp. reflexivity.
Qed.

Lemma collect_sorted_map (inverters : gmap string (option InverterInfo))
    (entries : list (string * option InverterInfo)) (result : list InverterInfo) :
  entries ≡ₚ map_to_list inverters ->
  collect_sorted entries = Return result ->
  (forall entries', entries' ≡ₚ map_to_list inverters ->
     collect_sorted entries' = Return result) /\
  StronglySorted (strictly_before Name) result /\
  (forall r, r ∈ result <->
     exists inverter, inverters !! Name r = Some (Some inverter) /\
       r = fill_inverter (Name r) inverter) /\
  Name <$> result ≡ₚ fst <$> map_to_list inverters /\
  (forall name, inverters !! name <> Some None).
Proof.
  intros Hp Hret.
  assert (Hnd : NoDup (fst <$> entries)).
  { rewrite Hp. apply NoDup_fst_map_to_list. }
  destruct (collect_sorted_cases entries) as [[_ Hpanic] | [Hn Hr]];
    [ congruence | ].
  rewrite Hr in Hret. inversion Hret as [Hres]. clear Hret.
  split; [ | split; [ | split; [ | split ] ] ].
  - intros entries' Hp'. rewrite <- Hr.
    apply collect_sorted_order_independent.
    + rewrite Hp'. apply NoDup_fst_map_to_list.
    + rewrite Hp', Hp. reflexivity.
  - apply (sort_Slice_strictly Name).
    rewrite Name_fill, (records_keys _ Hn). exact Hnd.
  - intros r. rewrite (sort_Slice_Permutation Name), list_elem_of_fmap. split.
    + intros ([name inverter] & -> & Hin). cbn.
      apply records_elem in Hin. rewrite Hp in Hin.
      apply elem_of_map_to_list in Hin. exists inverter.
      split; [ exact Hin | reflexivity ].
    + intros (inverter & Hl & Hfill). exists (Name r, inverter).
      split; [ exact Hfill | ]. apply records_elem. rewrite Hp.
      apply elem_of_map_to_list. exact Hl.
  - rewrite (sort_Slice_Permutation Name), Name_fill, (records_keys _ Hn), Hp.
    reflexivity.
  - intros name Hl. apply (Hn name). rewrite Hp.
    apply elem_of_map_to_list. exact Hl.
Qed.

(** The records of a successful [GetInverterInfo], in terms of the payload
    it decoded. *)
Lemma GetInverterInfo_inventory
    (Hrange : forall w (m : gmap string (option InverterInfo)),
                map_range w m ≡ₚ map_to_list m)
    ctx st result st' :
  GetInverterInfo ctx st = (Return (Ok result), st') ->
  exists m inverters,
    delivers st ctx (GetInverterInfo_url (client st)) m /\
    json_Unmarshal_inverters (Data (Body m)) = Ok inverters /\
    (forall r, r ∈ result <->
       exists inverter, inverters !! Name r = Some (Some inverter) /\
         r = fill_inverter (Name r) inverter) /\
    Name <$> result ≡ₚ fst <$> map_to_list inverters /\
    StronglySorted (strictly_before Name) result /\
    (forall entries, entries ≡ₚ map_to_list inverters ->
       collect_sorted entries = Return result).
Proof.
  intros Hget.
  destruct (GetInverterInfo_Ok_inv _ _ _ _ Hget)
    as (m & inverters & Hd & _ & Hun & Hcs).
  exists m, inverters.
  destruct (collect_sorted_map inverters _ result (Hrange (world st') inverters) Hcs)
    as (Heq & Hs & Hin & Hnames & _).
  split; [ exact Hd | ]. split; [ exact Hun | ].
  split; [ exact Hin | ]. split; [ exact Hnames | ]. split; [ exact Hs | ].
  exact Heq.
Qed.

(** C3. A successful [GetInverterInfo] has decoded the payload into a map
    of device records and returns one record per entry of that map, with
    the key of the entry copied into [Name], strictly ascending by that
    key. The slice is the same for every order in which the map could have
    been visited. A payload with the keys 3, 1 and 2 comes out in the order
    1, 2, 3. *)
Theorem GetInverterInfo_sorted_by_key
    (Hrange : forall w (m : gmap string (option InverterInfo)),
                map_range w m ≡ₚ map_to_list m)
    ctx st result st' :
  GetInverterInfo ctx st = (Return (Ok result), st') ->
  (exists m inverters,
     delivers st ctx (GetInverterInfo_url (client st)) m /\
     json_Unmarshal_inverters (Data (Body m)) = Ok inverters /\
     (forall r, r ∈ result <->
        exists inverter, inverters !! Name r = Some (Some inverter) /\
          r = fill_inverter (Name r) inverter) /\
     Name <$> result ≡ₚ fst <$> map_to_list inverters /\
     StronglySorted (strictly_before Name) result /\
     (forall entries, entries ≡ₚ map_to_list inverters ->
        collect_sorted entries = Return result)) /\
  (forall a b c entries,
     entries ≡ₚ [("3", Some a); ("1", Some b); ("2", Some c)] ->
     exists sorted,
       collect_sorted entries = Return sorted /\
       Name <$> sorted = ["1"; "2"; "3"]).
Proof.
  intros Hget. split.
  - apply (GetInverterInfo_inventory Hrange _ _ _ _ Hget).
  - intros a b c entries Hp.
    rewrite (collect_sorted_order_independent entries
               [("3", Some a); ("1", Some b); ("2", Some c)]).
    + eexists. split; reflexivity.
    + rewrite Hp. apply (bool_decide_unpack _). vm_compute. exact I.
    + exact Hp.
Qed.

End Inventory.


(** ** The collector *)

Section CollectorProperties.
Context `{RT : Runtime}.

Local Abbreviation ctx := (WithTimeout timeout).

Lemma emit_nil (st : State) : emit [] st = st.
Proof. destruct st. unfold emit. cbn. rewrite app_nil_r. reflexivity. Qed.

Lemma emit_emit (ms1 ms2 : list Metric) (st : State) :
  emit ms2 (emit ms1 st) = emit (ms1 ++ ms2) st.
Proof. unfold emit. cbn. rewrite app_assoc. reflexivity. Qed.

Lemma same_device_refl (st : State) : same_device st st.
Proof. split; reflexivity. Qed.

Lemma same_device_emit (ms : list Metric) (st st' : State) :
  same_device st st' -> same_device (emit ms st) st'.
Proof. intros H. exact H. Qed.

Lemma same_device_note (es : list LogEntry) (st st' : State) :
  same_device st st' -> same_device (note es st) st'.
Proof. intros H. exact H. Qed.

(** The answer of the client depends on the client and the world only. *)
Lemma GetRealtimeData_respects c scope dc id (st st' : State) :
  same_device st st' ->
  fst (GetRealtimeInverterRealtimeData c scope dc id st)
    = fst (GetRealtimeInverterRealtimeData c scope dc id st') /\
  same_device (snd (GetRealtimeInverterRealtimeData c scope dc id st))
              (snd (GetRealtimeInverterRealtimeData c scope dc id st')).
Proof.
  intros [Hc Hw].
  unfold GetRealtimeInverterRealtimeData, bind, ret, deref_client, Do, same_device.
  cbn beta. rewrite Hc.
  destruct (newRequest _ _ _) as [req | ]; cbn; [ | auto ].
  rewrite Hw.
  destruct (Client_Do req (world st')) as [[resp | ] w]; cbn; [ | auto ].
  destruct (negb _); cbn; [ auto | ].
  destruct (json_Decode_Msg _) as [m | ]; cbn; [ | auto ].
  destruct (Msg_Error m); cbn; auto.
Qed.

Lemma GetCommonData_respects c id (st st' : State) :
  same_device st st' ->
  fst (GetInverterRealtimeCommonData c id st)
    = fst (GetInverterRealtimeCommonData c id st') /\
  same_device (snd (GetInverterRealtimeCommonData c id st))
              (snd (GetInverterRealtimeCommonData c id st')).
Proof.
  intros H.
  destruct (GetRealtimeData_respects c "Device" "CommonInverterData" id _ _ H)
    as [Hr Hs].
  unfold GetInverterRealtimeCommonData, bind, ret.
  destruct (GetRealtimeInverterRealtimeData c _ _ id st) as [r1 s1].
  destruct (GetRealtimeInverterRealtimeData c _ _ id st') as [r2 s2].
  cbn in Hr, Hs. subst r2.
  destruct r1 as [data | ]; [ destruct (json_Unmarshal_common data) | ];
    cbn; auto.
Qed.

Lemma GetThreePhaseData_respects c id (st st' : State) :
  same_device st st' ->
  fst (GetInverterRealtimeThreePhaseData c id st)
    = fst (GetInverterRealtimeThreePhaseData c id st') /\
  same_device (snd (GetInverterRealtimeThreePhaseData c id st))
              (snd (GetInverterRealtimeThreePhaseData c id st')).
Proof.
  intros H.
  destruct (GetRealtimeData_respects c "Device" "3PInverterData" id _ _ H)
    as [Hr Hs].
  unfold GetInverterRealtimeThreePhaseData, bind, ret.
  destruct (GetRealtimeInverterRealtimeData c _ _ id st) as [r1 s1].
  destruct (GetRealtimeInverterRealtimeData c _ _ id st') as [r2 s2].
  cbn in Hr, Hs. subst r2.
  destruct r1 as [data | ]; [ destruct (json_Unmarshal_threephase data) | ];
    cbn; auto.
Qed.

Lemma detail_outcomes_respects (ids : list string) (st st' : State) :
  same_device st st' -> detail_outcomes ids st = detail_outcomes ids st'.
Proof.
  revert st st'. induction ids as [ | id ids IH]; intros st st' H; cbn;
    [ reflexivity | ].
  destruct (GetCommonData_respects ctx id _ _ H) as [Hr1 Hs1].
  destruct (GetInverterRealtimeCommonData ctx id st) as [rc s1].
  destruct (GetInverterRealtimeCommonData ctx id st') as [rc' s1'].
  cbn in Hr1, Hs1. subst rc'.
  destruct (GetThreePhaseData_respects ctx id _ _ Hs1) as [Hr2 Hs2].
  destruct (GetInverterRealtimeThreePhaseData ctx id s1) as [rt s2].
  destruct (GetInverterRealtimeThreePhaseData ctx id s1') as [rt' s2'].
  cbn in Hr2, Hs2. subst rt'.
  rewrite (IH _ _ Hs2). reflexivity.
Qed.

Lemma detail_outcomes_devices (ids : list string) (st : State) :
  device <$> detail_outcomes ids st = ids.
Proof.
  revert st. induction ids as [ | id ids IH]; intros st; cbn; [ reflexivity | ].
  destruct (GetInverterRealtimeCommonData ctx id st) as [rc s1].
  destruct (GetInverterRealtimeThreePhaseData ctx id s1) as [rt s2].
  cbn. rewrite IH. reflexivity.
Qed.

(** The labels the status loop computes. *)
Lemma StatusCodes_lowered : strings_ToLower <$> StatusCodes = status_labels.
Proof. reflexivity. Qed.

Lemma status_value (inverter : InverterInfo) (status : string) :
  (if String.eqb (StatusCode_String (Info_StatusCode inverter)) status
   then 1%float else 0%float)
  = if decide (StatusCode_String (Info_StatusCode inverter) = status)
    then 1%float else 0%float.
Proof.
  destruct (String.eqb_spec (StatusCode_String (Info_StatusCode inverter)) status);
    destruct (decide _); congruence.
Qed.

(** The inner loop sends the ten status indicators. *)
Lemma report_status_emits (inverter : InverterInfo) (st : State) :
  report_status newCollector inverter st = (tt, emit (status_records inverter) st).
Proof.
  unfold report_status, status_records, StatusCodes, status_labels, for_each,
    bind, ret, send, emit.
  cbn -[String.eqb decide]. rewrite !status_value.
  unfold status_record. cbn -[decide]. rewrite <- !app_assoc. reflexivity.
Qed.

Lemma inventory_loop (inverters : list InverterInfo) (ids : list string) (st : State) :
  for_fold inverters ids (fun ids inverter =>
    let ids := ids ++ [Name inverter] in
    match NewConstMetric (inverterInfo newCollector) GaugeValue 1%float
            [Name inverter; fmt_d (Dt inverter);
             CustomName inverter; UniqueID inverter] with
    | Err err =>
        bind (log_Err err "unable to generate metrics for inverter info")
             (fun _ => ret ids)
    | Ok m =>
        bind (send m) (fun _ =>
        bind (report_status newCollector inverter) (fun _ => ret ids))
    end) st
  = (ids ++ (Name <$> inverters),
     emit (flat_map inventory_records inverters) st).
Proof.
  revert ids st. induction inverters as [ | inverter inverters IH]; intros ids st.
  - cbn. rewrite app_nil_r, emit_nil. reflexivity.
  - cbn [for_fold]. unfold bind at 1. cbn [NewConstMetric newCollector inverterInfo
      NewDesc variableLabels length Nat.eqb].
    unfold bind at 1. cbn [send]. unfold bind at 1.
    rewrite report_status_emits. cbn [ret].
    rewrite IH. cbn [fmap list_fmap flat_map]. rewrite <- app_assoc. cbn [app].
    f_equal. unfold inventory_records.
    change (emit (status_records inverter) _)
      with (emit (status_records inverter) (emit [info_record inverter] st)).
    rewrite !emit_emit. reflexivity.
Qed.

(** What [collectInverters] does, by the answer of [GetInverterInfo]. *)
Lemma collectInverters_spec (st : State) :
  collectInverters newCollector st =
    match GetInverterInfo ctx st with
    | (Panic v, st1) => (Panic v, st1)
    | (Return (Err err), st1) =>
        (Return [],
         note [ {| log_err := err; log_msg := "unable to get inverter info" |} ] st1)
    | (Return (Ok inverters), st1) =>
        (Return (Name <$> inverters),
         emit (flat_map inventory_records inverters) st1)
    end.
Proof.
  unfold collectInverters. unfold bind at 1.
  destruct (GetInverterInfo ctx st) as [[[inverters | err] | v] st1].
  - unfold bind at 1. rewrite inventory_loop. reflexivity.
  - reflexivity.
  - reflexivity.
Qed.

(** What [collectCommonInverterData] does, by the answer of the client. *)
Lemma collectCommonInverterData_spec (id : string) (st : State) :
  collectCommonInverterData newCollector id st =
    match GetInverterRealtimeCommonData ctx id st with
    | (Err err, st1) =>
        (tt, note [ {| log_err := err;
                       log_msg := "unable to get common data for inverter" |} ] st1)
    | (Ok data, st1) => (tt, emit (common_records id data) st1)
    end.
Proof.
  unfold collectCommonInverterData. unfold bind at 1.
  destruct (GetInverterRealtimeCommonData ctx id st) as [[data | err] st1];
    [ | reflexivity ].
  unfold bind, ret, send, emit, common_records. cbn. rewrite <- !app_assoc.
  reflexivity.
Qed.

(** What [collectThreePhaseInverterData] does, by the answer of the client. *)
Lemma collectThreePhaseInverterData_spec (id : string) (st : State) :
  collectThreePhaseInverterData newCollector id st =
    match GetInverterRealtimeThreePhaseData ctx id st with
    | (Err err, st1) =>
        (tt, note [ {| log_err := err;
                       log_msg := "unable to get three phase data for inverter" |} ] st1)
    | (Ok data, st1) => (tt, emit (threephase_records id data) st1)
    end.
Proof.
  unfold collectThreePhaseInverterData. unfold bind at 1.
  destruct (GetInverterRealtimeThreePhaseData ctx id st) as [[data | err] st1];
    [ | reflexivity ].
  unfold for_until_return, bind, ret, send, emit, threephase_records. cbn.
  rewrite <- !app_assoc. reflexivity.
Qed.

Lemma float_zero_not_one : 0%float <> 1%float.
Proof.
  intros H. apply (f_equal (fun x => PrimFloat.eqb x 0)) in H.
  vm_compute in H. discriminate H.
Qed.

Lemma GetInverterInfo_sink (st : State) :
  sink (snd (GetInverterInfo ctx st)) = sink st.
Proof. apply (GetInverterInfo_footprint ctx st). Qed.

(** What [collectInverters] sends when the inventory was fetched. *)
Lemma collectInverters_emits (st : State) inverters st1 :
  GetInverterInfo ctx st = (Return (Ok inverters), st1) ->
  sink (snd (collectInverters newCollector st))
    = sink st ++ flat_map inventory_records inverters.
Proof.
  intros Hget. rewrite collectInverters_spec, Hget. cbn.
  pose proof (GetInverterInfo_sink st) as Hs. rewrite Hget in Hs. cbn in Hs.
  rewrite Hs. reflexivity.
Qed.

(** The ten indicators of one device, by the name its code decodes to. *)
Lemma status_records_one_hot (inverter : InverterInfo) :
  exists k,
    StatusCodes !! k = Some (StatusCode_String (Info_StatusCode inverter)) /\
    status_labels !! k
      = Some (strings_ToLower (StatusCode_String (Info_StatusCode inverter))) /\
    value <$> status_records inverter
      = <[k := 1%float]> (replicate 10 0%float).
Proof.
  pose proof (StatusCode_String_enumerated (Info_StatusCode inverter)) as Hin.
  unfold status_records, status_record.
  cbn in Hin.
  repeat (destruct Hin as [Hin | Hin];
    [ rewrite <- Hin;
      first [ exists 0%nat; repeat split; reflexivity
            | exists 1%nat; repeat split; reflexivity
            | exists 2%nat; repeat split; reflexivity
            | exists 3%nat; repeat split; reflexivity
            | exists 4%nat; repeat split; reflexivity
            | exists 5%nat; repeat split; reflexivity
            | exists 6%nat; repeat split; reflexivity
            | exists 7%nat; repeat split; reflexivity
            | exists 8%nat; repeat split; reflexivity
            | exists 9%nat; repeat split; reflexivity ] | ]).
  contradiction.
Qed.

(** C4. When the inventory was fetched, the collector sends for every
    device its info record followed by ten status indicators, whatever the
    raw status code of the device: one indicator per entry of
    [StatusCodes], in that order, each a gauge of the status metric
    labelled with the device; the indicator at the position of the decoded
    status has value 1 and the nine others have value 0. *)
Theorem status_indicators_one_of_ten (st : State) inverters st1 :
  GetInverterInfo ctx st = (Return (Ok inverters), st1) ->
  sink (snd (collectInverters newCollector st))
    = sink st ++ flat_map (fun inverter => info_record inverter :: status_records inverter)
                          inverters /\
  forall inverter : InverterInfo,
    length (status_records inverter) = length StatusCodes /\
    length (status_records inverter) = 10%nat /\
    (forall k status,
       StatusCodes !! k = Some status ->
       exists m, status_records inverter !! k = Some m /\
         desc m = inverterStatus newCollector /\
         valType m = GaugeValue /\
         head (labelValues m) = Some (Name inverter) /\
         (value m = 1%float <->
            status = StatusCode_String (Info_StatusCode inverter)) /\
         (value m = 0%float <->
            status <> StatusCode_String (Info_StatusCode inverter))) /\
    (exists k,
       StatusCodes !! k = Some (StatusCode_String (Info_StatusCode inverter)) /\
       value <$> status_records inverter = <[k := 1%float]> (replicate 10 0%float)) /\
    length (List.filter (fun m => PrimFloat.eqb (value m) 1) (status_records inverter))
      = 1%nat /\
    length (List.filter (fun m => PrimFloat.eqb (value m) 0) (status_records inverter))
      = 9%nat.
Proof.
  intros Hget. split; [ apply (collectInverters_emits _ _ _ Hget) | ].
  intros inverter.
  split; [ reflexivity | ]. split; [ reflexivity | ].
  split; [ | split; [ | split ] ].
  - intros k status Hk.
    assert (Hm : exists label,
              status_records inverter !! k = Some (status_record inverter status label)).
    { unfold status_records, StatusCodes in *.
      do 10 (destruct k as [ | k];
             [ inversion Hk; subst; eexists; reflexivity | ]).
      discriminate Hk. }
    destruct Hm as [label Hm]. eexists. split; [ exact Hm | ].
    unfold status_record. cbn.
    repeat split; try reflexivity;
      destruct (decide (StatusCode_String (Info_StatusCode inverter) = status));
      intros; try congruence;
      try (exfalso; now apply float_zero_not_one);
      try (exfalso; apply float_zero_not_one; congruence).
  - destruct (status_records_one_hot inverter) as (k & Hk & _ & Hv).
    exists k. split; assumption.
  - destruct (status_records_one_hot inverter) as (k & Hk & _ & Hv).
    assert (Hf : forall l : list Metric,
              length (List.filter (fun m => PrimFloat.eqb (value m) 1) l)
              = length (List.filter (fun v => PrimFloat.eqb v 1) (value <$> l))).
    { induction l as [ | m l IH]; cbn; [ reflexivity | ].
      destruct (PrimFloat.eqb (value m) 1); cbn; rewrite IH; reflexivity. }
    rewrite Hf, Hv. clear Hf Hv.
    unfold StatusCodes in Hk.
    do 10 (destruct k as [ | k]; [ reflexivity | ]). discriminate Hk.
  - destruct (status_records_one_hot inverter) as (k & Hk & _ & Hv).
    assert (Hf : forall l : list Metric,
              length (List.filter (fun m => PrimFloat.eqb (value m) 0) l)
              = length (List.filter (fun v => PrimFloat.eqb v 0) (value <$> l))).
    { induction l as [ | m l IH]; cbn; [ reflexivity | ].
      destruct (PrimFloat.eqb (value m) 0); cbn; rewrite IH; reflexivity. }
    rewrite Hf, Hv. clear Hf Hv.
    unfold StatusCodes in Hk.
    do 10 (destruct k as [ | k]; [ reflexivity | ]). discriminate Hk.
Qed.

(** C10. The label [status] of a status indicator is the status name in
    lower case, not the constant of the enumeration: the ten indicators of
    a device carry the labels startup, running, standby, bootloading,
    error, idle, ready, sleeping, unknown and invalid, each the lowered
    form of the entry of [StatusCodes] at its position; the indicator with
    value 1 is labelled with the lowered form of the decoded name. So the
    constant "INVALID" appears as "invalid" and "Startup" as "startup". *)
Theorem status_label_lowercase (st : State) inverters st1 :
  GetInverterInfo ctx st = (Return (Ok inverters), st1) ->
  sink (snd (collectInverters newCollector st))
    = sink st ++ flat_map (fun inverter => info_record inverter :: status_records inverter)
                          inverters /\
  variableLabels (inverterStatus newCollector) = ["device_id"; "status"] /\
  strings_ToLower StatusCodeInvalid = "invalid" /\
  strings_ToLower StatusCodeStartup = "startup" /\
  forall inverter : InverterInfo,
    labelValues <$> status_records inverter
      = (fun status => [Name inverter; strings_ToLower status]) <$> StatusCodes /\
    labelValues <$> status_records inverter
      = (fun label => [Name inverter; label]) <$>
          [ "startup"; "running"; "standby"; "bootloading"; "error";
            "idle"; "ready"; "sleeping"; "unknown"; "invalid" ] /\
    (forall m, m ∈ status_records inverter -> value m = 1%float ->
       labelValues m
         = [Name inverter;
            strings_ToLower (StatusCode_String (Info_StatusCode inverter))]).
Proof.
  intros Hget. split; [ apply (collectInverters_emits _ _ _ Hget) | ].
  do 3 (split; [ reflexivity | ]).
  intros inverter. do 2 (split; [ reflexivity | ]).
  intros m Hm Hv.
  unfold status_records in Hm. apply elem_of_lookup_zip_with in Hm
    as (k & status & label & -> & Hs & Hl).
  unfold status_record in *. cbn in *.
  destruct (decide (StatusCode_String (Info_StatusCode inverter) = status))
    as [-> | ]; [ | exfalso; now apply float_zero_not_one ].
  f_equal. f_equal.
  unfold StatusCodes, status_labels in *.
  do 10 (destruct k as [ | k];
         [ inversion Hs; inversion Hl; subst; reflexivity | ]).
  discriminate Hs.
Qed.

Lemma GetCommonData_sink (id : string) (st : State) :
  sink (snd (GetInverterRealtimeCommonData ctx id st)) = sink st.
Proof. apply (call_footprint (CallCommonData ctx id) st). Qed.

Lemma GetThreePhaseData_sink (id : string) (st : State) :
  sink (snd (GetInverterRealtimeThreePhaseData ctx id st)) = sink st.
Proof. apply (call_footprint (CallThreePhaseData ctx id) st). Qed.

(** C7. For every common-data record that was fetched, the first record
    the collector sends is the total-energy metric [inverter_yield_total],
    a counter and not a gauge, labelled with the device key, whose value is
    TOTAL_ENERGY divided by 1000; the three records after it are gauges.
    For 234611600 watt-hours the counter is 234611.6. *)
Theorem total_energy_counter (id : string) (st : State) data st1 :
  GetInverterRealtimeCommonData ctx id st = (Ok data, st1) ->
  sink (snd (collectCommonInverterData newCollector id st))
    = sink st ++
      [ {| desc := NewDesc "inverter_yield_total" "Information about the inverter"
                     ["device_id"];
           valType := CounterValue;
           value := (Value (TotalEnergy data) / 1000)%float;
           labelValues := [id] |};
        gauge (inverterDCVoltage newCollector) (Value (Udc data)) [id];
        gauge (inverterDCCurrent newCollector) (Value (Idc data)) [id];
        gauge (inverterACFrequency newCollector) (Value (Fac data)) [id] ] /\
  (Value (TotalEnergy data) = 234611600%float ->
   (Value (TotalEnergy data) / 1000)%float = 234611.6%float).
Proof.
  intros Hget. split.
  - rewrite collectCommonInverterData_spec, Hget. cbn.
    pose proof (GetCommonData_sink id st) as Hs. rewrite Hget in Hs. cbn in Hs.
    rewrite Hs. reflexivity.
  - intros ->. reflexivity.
Qed.

(** C8. Every record [GetInverterInfo] returns carries, as its display
    name, the unescaped form of the display name the payload has under the
    record's key, and the collector uses that unescaped name as the value
    of the label [device_name]. With [html.UnescapeString] turning "&amp;"
    into "&", a display name "&amp;" in the payload is returned and
    labelled as "&". *)
Theorem CustomName_unescaped
    (Hrange : forall w (m : gmap string (option InverterInfo)),
                map_range w m ≡ₚ map_to_list m)
    (st : State) result st1 :
  GetInverterInfo ctx st = (Return (Ok result), st1) ->
  exists m inverters,
    delivers st ctx (GetInverterInfo_url (client st)) m /\
    json_Unmarshal_inverters (Data (Body m)) = Ok inverters /\
    forall r, r ∈ result ->
      exists raw,
        inverters !! Name r = Some (Some raw) /\
        CustomName r = html_UnescapeString (CustomName raw) /\
        info_record r ∈ sink (snd (collectInverters newCollector st)) /\
        variableLabels (desc (info_record r)) !! 2%nat = Some "device_name" /\
        labelValues (info_record r) !! 2%nat
          = Some (html_UnescapeString (CustomName raw)) /\
        (html_UnescapeString "&amp;" = "&" -> CustomName raw = "&amp;" ->
         CustomName r = "&" /\ labelValues (info_record r) !! 2%nat = Some "&").
Proof.
  intros Hget.
  destruct (GetInverterInfo_inventory Hrange _ _ _ _ Hget)
    as (m & inverters & Hd & Hun & Hin & _).
  exists m, inverters. split; [ exact Hd | ]. split; [ exact Hun | ].
  intros r Hr. destruct (proj1 (Hin r) Hr) as (raw & Hraw & Hfill).
  assert (Hcn : CustomName r = html_UnescapeString (CustomName raw)).
  { rewrite Hfill at 1. reflexivity. }
  exists raw. split; [ exact Hraw | ]. split; [ exact Hcn | ].
  split; [ | split; [ reflexivity | split ] ].
  - rewrite (collectInverters_emits _ _ _ Hget).
    apply elem_of_app. right. apply list_elem_of_In, in_flat_map.
    exists r. split; [ apply list_elem_of_In, Hr | left; reflexivity ].
  - cbn. rewrite Hcn. reflexivity.
  - intros Hamp Hraw'. rewrite Hraw', Hamp in Hcn.
    split; [ exact Hcn | ]. cbn. rewrite Hcn. reflexivity.
Qed.

Lemma note_nil (st : State) : note [] st = st.
Proof. destruct st. unfold note. cbn. rewrite app_nil_r. reflexivity. Qed.



Lemma detail_outcomes_cons (id : string) (ids : list string) (st : State) :
  detail_outcomes (id :: ids) st =
    let s1 := snd (GetInverterRealtimeCommonData ctx id st) in
    {| device := id;
       common := fst (GetInverterRealtimeCommonData ctx id st);
       threephase := fst (GetInverterRealtimeThreePhaseData ctx id s1) |}
    :: detail_outcomes ids (snd (GetInverterRealtimeThreePhaseData ctx id s1)).
Proof.
  cbn. destruct (GetInverterRealtimeCommonData ctx id st) as [rc s1]. cbn.
  destruct (GetInverterRealtimeThreePhaseData ctx id s1) as [rt s2]. reflexivity.
Qed.







(** [Collect], by what [collectInverters] did. *)
Lemma Collect_unfold (st : State) :
  Collect newCollector st =
    match collectInverters newCollector st with
    | (Panic v, st1) => (Panic v, st1)
    | (Return ids, st1) =>
        (Return tt,
         snd (for_each ids (fun id =>
                bind (collectCommonInverterData newCollector id)
                     (fun _ => collectThreePhaseInverterData newCollector id)) st1))
    end.
Proof.
  unfold Collect. unfold bind at 1.
  destruct (collectInverters newCollector st) as [[ids | v] st1]; [ | reflexivity ].
  unfold bind at 1. destruct (for_each ids _ st1) as [[] st2]. reflexivity.
Qed.


End CollectorProperties.

(** ** The client: how calls fail and what success means *)

Section ClientOutcomes.
Context `{RT : Runtime}.

(** [GetRealtimeInverterRealtimeData], by the answer of the transport. *)
Lemma GetRealtimeData_answered ctx scope dc id st r :
  answered st ctx (GetRealtimeInverterRealtimeData_url (client st) scope dc id) r ->
  fst (GetRealtimeInverterRealtimeData ctx scope dc id st) =
    match r with
    | Err err => Err err
    | Ok resp =>
        if negb (resp_StatusCode resp =? http_StatusOK)
        then Err (errorString ("unexpected http status: " +:+ resp_Status resp))
        else match json_Decode_Msg (resp_Body resp) with
             | Err err => Err (Errorf_w "error parsing json message: " err)
             | Ok m => match Msg_Error m with
                       | Some err => Err err
                       | None => Ok (Data (Body m))
                       end
             end
    end.
Proof.
  intros (req & w & Hreq & Hdo).
  unfold GetRealtimeInverterRealtimeData, bind, ret, deref_client, Do.
  cbn beta. rewrite Hreq. cbn. rewrite Hdo.
  destruct r as [resp | err]; [ | reflexivity ].
  destruct (negb _); [ reflexivity | ].
  destruct (json_Decode_Msg _) as [m | ]; [ | reflexivity ].
  destruct (Msg_Error m); reflexivity.
Qed.

(** [GetInverterInfo], by the answer of the transport. *)
Lemma GetInverterInfo_answered ctx st r :
  answered st ctx (GetInverterInfo_url (client st)) r ->
  exists w,
    fst (GetInverterInfo ctx st) =
      match r with
      | Err err => Return (Err err)
      | Ok resp =>
          if negb (resp_StatusCode resp =? http_StatusOK)
          then Return (Err (errorString
                              ("unexpected http status: " +:+ resp_Status resp)))
          else match json_Decode_Msg (resp_Body resp) with
               | Err err => Return (Err (Errorf_w "error parsing json message: " err))
               | Ok m =>
                   match Msg_Error m with
                   | Some err => Return (Err err)
                   | None =>
                       match json_Unmarshal_inverters (Data (Body m)) with
                       | Err err => Return (Err err)
                       | Ok inverters =>
                           match collect_sorted (map_range w inverters) with
                           | Panic v => Panic v
                           | Return result => Return (Ok result)
                           end
                       end
                   end
               end
      end.
Proof.
  intros (req & w & Hreq & Hdo). exists w.
  unfold GetInverterInfo, bind, ret, deref_client, Do, range.
  cbn beta. rewrite Hreq. cbn. rewrite Hdo.
  destruct r as [resp | err]; [ | reflexivity ].
  destruct (negb _); [ reflexivity | ].
  destruct (json_Decode_Msg _) as [m | ]; [ | reflexivity ].
  destruct (Msg_Error m); [ reflexivity | ].
  destruct (json_Unmarshal_inverters _); [ | reflexivity ].
  cbn. destruct (collect_sorted _); reflexivity.
Qed.

Lemma GetCommonData_result ctx id st :
  fst (GetInverterRealtimeCommonData ctx id st) =
    match fst (GetRealtimeInverterRealtimeData ctx "Device" "CommonInverterData" id st) with
    | Err err => Err err
    | Ok data =>
        match json_Unmarshal_common data with
        | Err err => Err (Errorf_w "unable to parse inverter common data: " err)
        | Ok commonData => Ok commonData
        end
    end.
Proof.
  unfold GetInverterRealtimeCommonData, bind, ret.
  destruct (GetRealtimeInverterRealtimeData _ _ _ _ _) as [[data | ] st']; cbn;
    [ destruct (json_Unmarshal_common data) | ]; reflexivity.
Qed.

Lemma GetThreePhaseData_result ctx id st :
  fst (GetInverterRealtimeThreePhaseData ctx id st) =
    match fst (GetRealtimeInverterRealtimeData ctx "Device" "3PInverterData" id st) with
    | Err err => Err err
    | Ok data =>
        match json_Unmarshal_threephase data with
        | Err err => Err (Errorf_w "unable to parse inverter three phase data: " err)
        | Ok threePhaseData => Ok threePhaseData
        end
    end.
Proof.
  unfold GetInverterRealtimeThreePhaseData, bind, ret.
  destruct (GetRealtimeInverterRealtimeData _ _ _ _ _) as [[data | ] st']; cbn;
    [ destruct (json_Unmarshal_threephase data) | ]; reflexivity.
Qed.

(** A call whose envelope never arrives returns the error of the step
    that failed, whichever of the four methods it is. *)
Lemma call_error_before_envelope (c : ClientCall) (st : State) r (err : error) :
  answered st (call_ctx c) (call_url (client st) c) r ->
  match r with
  | Err err' => err' = err
  | Ok resp =>
      if negb (resp_StatusCode resp =? http_StatusOK)
      then errorString ("unexpected http status: " +:+ resp_Status resp) = err
      else exists err', json_Decode_Msg (resp_Body resp) = Err err' /\
             Errorf_w "error parsing json message: " err' = err
  end ->
  call_error st c = Some err.
Proof.
  intros Ha Hr.
  assert (Hraw : forall ctx scope dc id,
            answered st ctx (GetRealtimeInverterRealtimeData_url (client st) scope dc id) r ->
            fst (GetRealtimeInverterRealtimeData ctx scope dc id st) = Err err).
  { intros ctx scope dc id Ha'. rewrite (GetRealtimeData_answered _ _ _ _ _ _ Ha').
    destruct r as [resp | err']; [ | congruence ].
    destruct (negb _); [ congruence | ].
    destruct Hr as (err' & -> & <-). reflexivity. }
  destruct c as [ctx | ctx scope dc id | ctx id | ctx id];
    cbn [call_error call_ctx call_url] in *.
  - destruct (GetInverterInfo_answered _ _ _ Ha) as [w ->].
    destruct r as [resp | err']; [ | cbn; congruence ].
    destruct (negb _); [ cbn; congruence | ].
    destruct Hr as (err' & -> & <-). reflexivity.
  - rewrite (Hraw _ _ _ _ Ha). reflexivity.
  - rewrite GetCommonData_result, (Hraw _ _ _ _ Ha). reflexivity.
  - rewrite GetThreePhaseData_result, (Hraw _ _ _ _ Ha). reflexivity.
Qed.

(** X1. A realtime call succeeds only on an accepted envelope: when
    [GetRealtimeInverterRealtimeData] returns a payload, the device has
    answered the request with HTTP status 200 and an envelope of status
    code 0, and the payload is the [Data] of that envelope; when one of the
    two wrappers returns a record, that record is what the [Data] of such
    an envelope decodes to. *)
Theorem realtime_success_sound ctx id st :
  (forall scope dc data st',
     GetRealtimeInverterRealtimeData ctx scope dc id st = (Ok data, st') ->
     exists m,
       delivers st ctx (GetRealtimeInverterRealtimeData_url (client st) scope dc id) m /\
       Code (Status (Head m)) = 0 /\
       data = Data (Body m)) /\
  (forall commonData st',
     GetInverterRealtimeCommonData ctx id st = (Ok commonData, st') ->
     exists m,
       delivers st ctx
         (GetRealtimeInverterRealtimeData_url (client st) "Device" "CommonInverterData" id)
         m /\
       Code (Status (Head m)) = 0 /\
       json_Unmarshal_common (Data (Body m)) = Ok commonData) /\
  (forall threePhaseData st',
     GetInverterRealtimeThreePhaseData ctx id st = (Ok threePhaseData, st') ->
     exists m,
       delivers st ctx
         (GetRealtimeInverterRealtimeData_url (client st) "Device" "3PInverterData" id)
         m /\
       Code (Status (Head m)) = 0 /\
       json_Unmarshal_threephase (Data (Body m)) = Ok threePhaseData).
Proof.
  assert (Hraw : forall scope dc data st',
            GetRealtimeInverterRealtimeData ctx scope dc id st = (Ok data, st') ->
            exists m,
              delivers st ctx
                (GetRealtimeInverterRealtimeData_url (client st) scope dc id) m /\
              Code (Status (Head m)) = 0 /\
              data = Data (Body m)).
  { intros scope dc data st'.
    unfold GetRealtimeInverterRealtimeData, bind, ret, deref_client, Do. cbn beta.
    destruct (newRequest _ _ _) as [req | ] eqn:Hreq; [ | discriminate ].
    cbn. destruct (Client_Do req (world st)) as [[resp | ] w] eqn:Hdo;
      [ | discriminate ].
    destruct (Z.eqb_spec (resp_StatusCode resp) http_StatusOK) as [Hc | ];
      [ | discriminate ].
    cbn. destruct (json_Decode_Msg _) as [m | ] eqn:Hdec; [ | discriminate ].
    destruct (Msg_Error m) eqn:Herr; [ discriminate | ].
    intros H. inversion H; subst. exists m. split; [ | split ].
    - exists req, resp, w. auto.
    - apply Msg_Error_nil, Herr.
    - reflexivity. }
  split; [ exact Hraw | ]. split.
  - intros commonData st' H.
    pose proof (GetCommonData_result ctx id st) as Hr. rewrite H in Hr. cbn [fst] in Hr.
    destruct (GetRealtimeInverterRealtimeData ctx "Device" "CommonInverterData" id st)
      as [[data | ] s1] eqn:Hget; [ | discriminate Hr ].
    cbn [fst] in Hr. destruct (Hraw _ _ _ _ Hget) as (m & Hd & Hc & ->).
    exists m. split; [ exact Hd | ]. split; [ exact Hc | ].
    destruct (json_Unmarshal_common _); [ congruence | discriminate Hr ].
  - intros threePhaseData st' H.
    pose proof (GetThreePhaseData_result ctx id st) as Hr. rewrite H in Hr. cbn [fst] in Hr.
    destruct (GetRealtimeInverterRealtimeData ctx "Device" "3PInverterData" id st)
      as [[data | ] s1] eqn:Hget; [ | discriminate Hr ].
    cbn [fst] in Hr. destruct (Hraw _ _ _ _ Hget) as (m & Hd & Hc & ->).
    exists m. split; [ exact Hd | ]. split; [ exact Hc | ].
    destruct (json_Unmarshal_threephase _); [ congruence | discriminate Hr ].
Qed.

(** X2. An HTTP status other than 200 is an error whatever the body
    holds: each of the four client methods returns "unexpected http status:
    " followed by the status line, and the body is not decoded. *)
Theorem http_status_not_ok_is_error (c : ClientCall) (st : State) (resp : Response) :
  answered st (call_ctx c) (call_url (client st) c) (Ok resp) ->
  resp_StatusCode resp <> http_StatusOK ->
  call_error st c
    = Some (errorString ("unexpected http status: " +:+ resp_Status resp)).
Proof.
  intros Ha Hne. apply (call_error_before_envelope c st (Ok resp)); [ exact Ha | ].
  destruct (Z.eqb_spec (resp_StatusCode resp) http_StatusOK);
    [ contradiction | reflexivity ].
Qed.

(** X3. An error of the transport (a refused connection, an expired
    deadline) comes back from each of the four client methods as it is,
    not wrapped and not replaced; the request has gone out once. *)
Theorem transport_error_returned (c : ClientCall) (st : State) (err : error) :
  answered st (call_ctx c) (call_url (client st) c) (Err err) ->
  call_error st c = Some err /\
  exists req,
    wire (after_call st c) = wire st ++ [req] /\
    req_URL req = call_url (client st) c.
Proof.
  intros Ha. split.
  - apply (call_error_before_envelope c st (Err err)); [ exact Ha | reflexivity ].
  - destruct Ha as (req & w & Hreq & Hdo). exists req.
    split; [ | apply (newRequest_url _ _ _ _ Hreq) ].
    destruct c as [ctx | ctx scope dc id | ctx id | ctx id];
      cbn [after_call call_ctx call_url] in *;
      rewrite ?GetCommonData_state, ?GetThreePhaseData_state;
      unfold GetRealtimeInverterRealtimeData, GetInverterInfo, bind, ret,
        deref_client, Do; cbn beta; rewrite Hreq; cbn; rewrite Hdo; reflexivity.
Qed.

(** X4. When the request cannot be built, each of the four client methods
    returns the error of [http.NewRequestWithContext] and nothing has
    happened: no request went out and the state is the one before the
    call. *)
Theorem rejected_request_no_effect (c : ClientCall) (st : State) (err : error) :
  newRequest (call_ctx c) "GET" (call_url (client st) c) = Err err ->
  call_error st c = Some err /\ after_call st c = st.
Proof.
  intros Hreq.
  assert (Hraw : forall ctx scope dc id,
            newRequest ctx "GET"
              (GetRealtimeInverterRealtimeData_url (client st) scope dc id) = Err err ->
            GetRealtimeInverterRealtimeData ctx scope dc id st = (Err err, st)).
  { intros ctx scope dc id H.
    unfold GetRealtimeInverterRealtimeData, bind, ret, deref_client. cbn beta.
    rewrite H. reflexivity. }
  destruct c as [ctx | ctx scope dc id | ctx id | ctx id];
    cbn [call_error after_call call_ctx call_url] in *.
  - unfold GetInverterInfo, bind, ret, deref_client. cbn beta. rewrite Hreq.
    split; reflexivity.
  - rewrite (Hraw _ _ _ _ Hreq). split; reflexivity.
  - rewrite GetCommonData_result, GetCommonData_state, (Hraw _ _ _ _ Hreq).
    split; reflexivity.
  - rewrite GetThreePhaseData_result, GetThreePhaseData_state, (Hraw _ _ _ _ Hreq).
    split; reflexivity.
Qed.

(** X5. A body that is not an envelope, received with status 200, makes
    each of the four client methods fail with "error parsing json message:
    " wrapping the decoder's error; the two wrappers pass that error on
    without their own "unable to parse" prefix. *)
Theorem envelope_decode_failure (c : ClientCall) (st : State) (resp : Response)
    (err : error) :
  answered st (call_ctx c) (call_url (client st) c) (Ok resp) ->
  resp_StatusCode resp = http_StatusOK ->
  json_Decode_Msg (resp_Body resp) = Err err ->
  call_error st c
    = Some (wrapError ("error parsing json message: " +:+ Error_msg err) err).
Proof.
  intros Ha Hok Hdec. apply (call_error_before_envelope c st (Ok resp)); [ exact Ha | ].
  rewrite Hok. cbn. exists err. split; [ exact Hdec | reflexivity ].
Qed.

(** X6. Once the envelope of a three-phase request has been accepted,
    [GetInverterRealtimeThreePhaseData] returns the record its payload
    decodes to, and when the payload does not decode it fails with an error
    that wraps the decoder's error under the message "unable to parse
    inverter three phase data: ...". *)
Theorem GetInverterRealtimeThreePhaseData_decode ctx id st data st' :
  GetRealtimeInverterRealtimeData ctx "Device" "3PInverterData" id st
    = (Ok data, st') ->
  (forall threePhaseData,
     json_Unmarshal_threephase data = Ok threePhaseData ->
     GetInverterRealtimeThreePhaseData ctx id st = (Ok threePhaseData, st')) /\
  (forall err,
     json_Unmarshal_threephase data = Err err ->
     exists failure,
       GetInverterRealtimeThreePhaseData ctx id st = (Err failure, st') /\
       Unwrap failure = Some err /\
       Error_msg failure =
         "unable to parse inverter three phase data: " +:+ Error_msg err).
Proof.
  intros Hraw. unfold GetInverterRealtimeThreePhaseData, bind. rewrite Hraw.
  split.
  - intros threePhaseData Hdec. rewrite Hdec. reflexivity.
  - intros err Hdec. rewrite Hdec. eexists. split; [ reflexivity | ].
    split; reflexivity.
Qed.

End ClientOutcomes.

(** ** One scrape, state by state *)

Section CollectorRun.
Context `{RT : Runtime}.

Local Abbreviation ctx := (WithTimeout timeout).

(** What was sent and logged before does not matter to a client call and
    is still there after it. *)
Lemma GetRealtimeData_frame c scope dc id ms es (st : State) :
  GetRealtimeInverterRealtimeData c scope dc id (emit ms (note es st))
  = (fst (GetRealtimeInverterRealtimeData c scope dc id st),
     emit ms (note es (snd (GetRealtimeInverterRealtimeData c scope dc id st)))).
Proof.
  unfold GetRealtimeInverterRealtimeData, bind, ret, deref_client, Do.
  cbn [client world wire sink logs emit note].
  destruct (newRequest _ _ _) as [req | ]; cbn; [ | reflexivity ].
  destruct (Client_Do req (world st)) as [[resp | ] w]; cbn; [ | reflexivity ].
  destruct (negb _); cbn; [ reflexivity | ].
  destruct (json_Decode_Msg _) as [m | ]; cbn; [ | reflexivity ].
  destruct (Msg_Error m); reflexivity.
Qed.

Lemma GetCommonData_frame id ms es (st : State) :
  GetInverterRealtimeCommonData ctx id (emit ms (note es st))
  = (fst (GetInverterRealtimeCommonData ctx id st),
     emit ms (note es (snd (GetInverterRealtimeCommonData ctx id st)))).
Proof.
  unfold GetInverterRealtimeCommonData, bind, ret.
  rewrite GetRealtimeData_frame.
  destruct (GetRealtimeInverterRealtimeData ctx _ _ id st) as [[data | ] s1]; cbn;
    [ destruct (json_Unmarshal_common data) | ]; reflexivity.
Qed.

Lemma GetThreePhaseData_frame id ms es (st : State) :
  GetInverterRealtimeThreePhaseData ctx id (emit ms (note es st))
  = (fst (GetInverterRealtimeThreePhaseData ctx id st),
     emit ms (note es (snd (GetInverterRealtimeThreePhaseData ctx id st)))).
Proof.
  unfold GetInverterRealtimeThreePhaseData, bind, ret.
  rewrite GetRealtimeData_frame.
  destruct (GetRealtimeInverterRealtimeData ctx _ _ id st) as [[data | ] s1]; cbn;
    [ destruct (json_Unmarshal_threephase data) | ]; reflexivity.
Qed.

Lemma collectCommonInverterData_state id ms es (st : State) :
  collectCommonInverterData newCollector id (emit ms (note es st))
  = (tt,
     emit (ms ++ match fst (GetInverterRealtimeCommonData ctx id st) with
                 | Ok data => common_records id data
                 | Err _ => []
                 end)
       (note (es ++ match fst (GetInverterRealtimeCommonData ctx id st) with
                    | Ok _ => []
                    | Err err =>
                        [ {| log_err := err;
                             log_msg := "unable to get common data for inverter" |} ]
                    end)
          (snd (GetInverterRealtimeCommonData ctx id st)))).
Proof.
  rewrite collectCommonInverterData_spec, GetCommonData_frame.
  destruct (GetInverterRealtimeCommonData ctx id st) as [[data | err] s1];
    cbn [fst snd]; unfold emit, note; cbn [client world wire sink logs];
    rewrite ?app_nil_r, <- ?app_assoc; reflexivity.
Qed.

Lemma collectThreePhaseInverterData_state id ms es (st : State) :
  collectThreePhaseInverterData newCollector id (emit ms (note es st))
  = (tt,
     emit (ms ++ match fst (GetInverterRealtimeThreePhaseData ctx id st) with
                 | Ok data => threephase_records id data
                 | Err _ => []
                 end)
       (note (es ++ match fst (GetInverterRealtimeThreePhaseData ctx id st) with
                    | Ok _ => []
                    | Err err =>
                        [ {| log_err := err;
                             log_msg := "unable to get three phase data for inverter" |} ]
                    end)
          (snd (GetInverterRealtimeThreePhaseData ctx id st)))).
Proof.
  rewrite collectThreePhaseInverterData_spec, GetThreePhaseData_frame.
  destruct (GetInverterRealtimeThreePhaseData ctx id st) as [[data | err] s1];
    cbn [fst snd]; unfold emit, note; cbn [client world wire sink logs];
    rewrite ?app_nil_r, <- ?app_assoc; reflexivity.
Qed.

(** The detail phase, state for state. *)
Lemma detail_loop_state (ids : list string) ms es (st : State) :
  for_each ids (fun id =>
    bind (collectCommonInverterData newCollector id)
         (fun _ => collectThreePhaseInverterData newCollector id))
    (emit ms (note es st))
  = (tt,
     emit (ms ++ flat_map detail_records (detail_outcomes ids st))
       (note (es ++ flat_map detail_logs (detail_outcomes ids st))
          (after_details ids st))).
Proof.
  revert ms es st. induction ids as [ | id ids IH]; intros ms es st.
  - cbn. rewrite !app_nil_r. reflexivity.
  - rewrite detail_outcomes_cons. cbn zeta.
    cbn [for_each flat_map after_details fold_left after_call].
    unfold bind at 1. unfold bind at 1.
    rewrite collectCommonInverterData_state, collectThreePhaseInverterData_state.
    rewrite IH. unfold after_details, detail_records, detail_logs.
    cbn [device common threephase].
    rewrite <- !app_assoc. reflexivity.
Qed.

(** One scrape, state for state. *)
Lemma Collect_run (st : State) :
  Collect newCollector st =
    match GetInverterInfo ctx st with
    | (Panic v, st1) => (Panic v, st1)
    | (Return (Err err), st1) =>
        (Return tt,
         note [ {| log_err := err; log_msg := "unable to get inverter info" |} ] st1)
    | (Return (Ok inverters), st1) =>
        (Return tt,
         emit (flat_map inventory_records inverters
               ++ flat_map detail_records (detail_outcomes (Name <$> inverters) st1))
           (note (flat_map detail_logs (detail_outcomes (Name <$> inverters) st1))
              (after_details (Name <$> inverters) st1)))
    end.
Proof.
  rewrite Collect_unfold, collectInverters_spec.
  destruct (GetInverterInfo ctx st) as [[[inverters | err] | v] st1];
    [ | reflexivity | reflexivity ].
  replace (emit (flat_map inventory_records inverters) st1)
    with (emit (flat_map inventory_records inverters) (note [] st1))
    by (rewrite note_nil; reflexivity).
  rewrite detail_loop_state. reflexivity.
Qed.

(** A request that was accepted is the GET request with the two headers. *)
Lemma newRequest_request_for c url req :
  newRequest c "GET" url = Ok req -> req = request_for c url.
Proof.
  unfold newRequest. destruct (http_request_error _ _); [ discriminate | ].
  intros H. inversion H. reflexivity.
Qed.

(** The request a call puts on the wire. *)
Lemma call_wire (c : ClientCall) (st : State) :
  wire (after_call st c)
  = wire st ++
    match newRequest (call_ctx c) "GET" (call_url (client st) c) with
    | Ok _ => [request_for (call_ctx c) (call_url (client st) c)]
    | Err _ => []
    end.
Proof.
  assert (Hraw : forall c0 scope dc id,
            wire (snd (GetRealtimeInverterRealtimeData c0 scope dc id st))
            = wire st ++
              match newRequest c0 "GET"
                      (GetRealtimeInverterRealtimeData_url (client st) scope dc id) with
              | Ok _ => [request_for c0
                           (GetRealtimeInverterRealtimeData_url (client st) scope dc id)]
              | Err _ => []
              end).
  { intros c0 scope dc id.
    unfold GetRealtimeInverterRealtimeData, bind, ret, deref_client, Do. cbn beta.
    destruct (newRequest _ _ _) as [req | ] eqn:Hreq; cbn;
      [ | rewrite app_nil_r; reflexivity ].
    rewrite <- (newRequest_request_for _ _ _ Hreq).
    destruct (Client_Do req (world st)) as [[resp | ] w]; cbn; [ | reflexivity ].
    destruct (negb _); cbn; [ reflexivity | ].
    destruct (json_Decode_Msg _) as [m | ]; cbn; [ | reflexivity ].
    destruct (Msg_Error m); reflexivity. }
  destruct c as [c0 | c0 scope dc id | c0 id | c0 id];
    cbn [after_call call_ctx call_url].
  - unfold GetInverterInfo, bind, ret, deref_client, Do, range. cbn beta.
    destruct (newRequest _ _ _) as [req | ] eqn:Hreq; cbn;
      [ | rewrite app_nil_r; reflexivity ].
    rewrite <- (newRequest_request_for _ _ _ Hreq).
    destruct (Client_Do req (world st)) as [[resp | ] w]; cbn; [ | reflexivity ].
    destruct (negb _); cbn; [ reflexivity | ].
    destruct (json_Decode_Msg _) as [m | ]; cbn; [ | reflexivity ].
    destruct (Msg_Error m); [ reflexivity | ].
    destruct (json_Unmarshal_inverters _); [ | reflexivity ].
    cbn. destruct (collect_sorted _); reflexivity.
  - apply Hraw.
  - rewrite GetCommonData_state. apply Hraw.
  - rewrite GetThreePhaseData_state. apply Hraw.
Qed.

(** The detail calls leave the client, the sink and the log alone. *)
Lemma after_details_footprint (ids : list string) (st : State) :
  client (after_details ids st) = client st /\
  sink (after_details ids st) = sink st /\
  logs (after_details ids st) = logs st.
Proof.
  revert st. induction ids as [ | id ids IH]; intros st; [ repeat split | ].
  unfold after_details in *. cbn [fold_left].
  destruct (IH (after_call (after_call st (CallCommonData ctx id))
                           (CallThreePhaseData ctx id))) as (Hc & Hs & Hl).
  destruct (call_footprint (CallCommonData ctx id) st) as (Hc1 & Hs1 & Hl1 & _).
  destruct (call_footprint (CallThreePhaseData ctx id)
              (after_call st (CallCommonData ctx id))) as (Hc2 & Hs2 & Hl2 & _).
  repeat split; congruence.
Qed.

Lemma built_request_shape (url : string) :
  let reqs := match newRequest ctx "GET" url with
              | Ok _ => [request_for ctx url]
              | Err _ => []
              end in
  Forall (fun req => exists url', req = request_for ctx url') reqs /\
  (length reqs <= 1)%nat.
Proof.
  cbn zeta. destruct (newRequest ctx "GET" url); split; cbn; try lia.
  - constructor; [ eexists; reflexivity | constructor ].
  - constructor.
Qed.

(** The requests of the detail phase: at most two per device, each a GET
    request of the client; exactly the two of each device when no request
    is rejected. *)
Lemma after_details_wire (ids : list string) (st : State) :
  exists reqs,
    wire (after_details ids st) = wire st ++ reqs /\
    Forall (fun req => exists url, req = request_for ctx url) reqs /\
    (length reqs <= 2 * length ids)%nat /\
    ((forall method url, http_request_error method url = None) ->
     reqs = detail_requests (client st) ids).
Proof.
  revert st. induction ids as [ | id ids IH]; intros st.
  - exists []. cbn. rewrite app_nil_r. repeat split; auto.
  - unfold after_details in *. cbn [fold_left].
    set (s1 := after_call st (CallCommonData ctx id)).
    set (s2 := after_call s1 (CallThreePhaseData ctx id)).
    destruct (IH s2) as (reqs & Hw & Hall & Hlen & Hexact).
    pose proof (call_wire (CallCommonData ctx id) st) as Hw1.
    pose proof (call_wire (CallThreePhaseData ctx id) s1) as Hw2.
    destruct (call_footprint (CallCommonData ctx id) st) as (Hc1 & _).
    destruct (call_footprint (CallThreePhaseData ctx id) s1) as (Hc2 & _).
    fold s1 in Hw1, Hc1. fold s2 in Hw2, Hc2.
    cbn [call_ctx call_url] in Hw1, Hw2. rewrite Hc1 in Hw2.
    set (r1 := match newRequest ctx "GET"
                       (GetRealtimeInverterRealtimeData_url (client st)
                          "Device" "CommonInverterData" id) with
               | Ok _ => [request_for ctx
                            (GetRealtimeInverterRealtimeData_url (client st)
                               "Device" "CommonInverterData" id)]
               | Err _ => []
               end) in *.
    set (r2 := match newRequest ctx "GET"
                       (GetRealtimeInverterRealtimeData_url (client st)
                          "Device" "3PInverterData" id) with
               | Ok _ => [request_for ctx
                            (GetRealtimeInverterRealtimeData_url (client st)
                               "Device" "3PInverterData" id)]
               | Err _ => []
               end) in *.
    exists (r1 ++ r2 ++ reqs). split; [ | split; [ | split ] ].
    + rewrite Hw, Hw2, Hw1, <- !app_assoc. reflexivity.
    + rewrite !Forall_app. split; [ | split; [ | exact Hall ] ].
      * apply built_request_shape.
      * apply built_request_shape.
    + rewrite !length_app.
      assert (length r1 <= 1)%nat by apply built_request_shape.
      assert (length r2 <= 1)%nat by apply built_request_shape.
      cbn [length]. lia.
    + intros Hok. rewrite (Hexact Hok), Hc2, Hc1.
      unfold r1, r2, newRequest. rewrite !Hok. reflexivity.
Qed.

End CollectorRun.

(** ** One scrape: inventory, requests, logs *)

Section ScrapeProperties.
Context `{RT : Runtime}.

Local Abbreviation ctx := (WithTimeout timeout).

(** X7. The inventory has one record per key of the payload and no key
    twice: the names of the records [GetInverterInfo] returns are pairwise
    different, they are exactly the keys of the decoded map, and there are
    as many records as the map has entries; an empty map gives an empty
    inventory. *)
Theorem GetInverterInfo_one_record_per_key
    (Hrange : forall w (m : gmap string (option InverterInfo)),
                map_range w m ≡ₚ map_to_list m)
    c st result st' :
  GetInverterInfo c st = (Return (Ok result), st') ->
  NoDup (Name <$> result) /\
  exists m inverters,
    delivers st c (GetInverterInfo_url (client st)) m /\
    json_Unmarshal_inverters (Data (Body m)) = Ok inverters /\
    length result = size inverters /\
    (forall name, name ∈ Name <$> result <-> is_Some (inverters !! name)) /\
    (inverters = ∅ -> result = []).
Proof.
  intros Hget.
  destruct (GetInverterInfo_inventory Hrange _ _ _ _ Hget)
    as (m & inverters & Hd & Hun & _ & Hnames & _).
  split.
  - rewrite Hnames. apply NoDup_fst_map_to_list.
  - exists m, inverters. split; [ exact Hd | ]. split; [ exact Hun | ].
    assert (Hlen : length result = size inverters).
    { rewrite <- (length_fmap Name), Hnames, length_fmap. apply length_map_to_list. }
    split; [ exact Hlen | ]. split.
    + intros name. rewrite Hnames, list_elem_of_fmap. split.
      * intros ([k inverter] & -> & Hin). apply elem_of_map_to_list in Hin.
        cbn. eauto.
      * intros [inverter Hl]. exists (name, inverter).
        split; [ reflexivity | apply elem_of_map_to_list, Hl ].
    + intros ->. rewrite map_size_empty in Hlen.
      destruct result; [ reflexivity | discriminate Hlen ].
Qed.

Lemma GetInverterInfo_request ctx0 (st : State) req :
  newRequest ctx0 "GET" (GetInverterInfo_url (client st)) = Ok req ->
  wire (snd (GetInverterInfo ctx0 st)) = wire st ++ [req].
Proof.
  intros Hreq. pose proof (call_wire (CallInverterInfo ctx0) st) as Hw.
  cbn [after_call call_ctx call_url] in Hw. rewrite Hreq in Hw.
  rewrite (newRequest_request_for _ _ _ Hreq). exact Hw.
Qed.

(** X8. A device that lists no inverter: [GetInverterInfo] returns the
    empty inventory, and [Collect] sends no metric, writes no log entry and
    makes no request beyond the one for the inventory. *)
Theorem empty_inventory_collects_nothing
    (Hrange : forall w (m : gmap string (option InverterInfo)),
                map_range w m ≡ₚ map_to_list m)
    (st : State) (m : Msg) :
  delivers st ctx (GetInverterInfo_url (client st)) m ->
  Code (Status (Head m)) = 0 ->
  json_Unmarshal_inverters (Data (Body m)) = Ok ∅ ->
  fst (GetInverterInfo ctx st) = Return (Ok []) /\
  sink (snd (Collect newCollector st)) = sink st /\
  logs (snd (Collect newCollector st)) = logs st /\
  exists req,
    wire (snd (Collect newCollector st)) = wire st ++ [req] /\
    req_URL req = GetInverterInfo_url (client st).
Proof.
  intros Hd Hc Hun.
  assert (Hres : fst (GetInverterInfo ctx st) = Return (Ok [])).
  { destruct (GetInverterInfo_delivered _ _ _ Hd) as [w Hr]. rewrite Hr.
    apply Msg_Error_nil in Hc. rewrite Hc, Hun.
    pose proof (Hrange w ∅) as Hp. rewrite map_to_list_empty in Hp.
    apply Permutation_nil_r in Hp. rewrite Hp. reflexivity. }
  split; [ exact Hres | ].
  destruct Hd as (req & resp & w & Hreq & _).
  pose proof (GetInverterInfo_request ctx st req Hreq) as Hw.
  destruct (GetInverterInfo_footprint ctx st) as (_ & Hs & Hl & _).
  rewrite Collect_run.
  destruct (GetInverterInfo ctx st) as [r st1]. cbn [fst snd] in *. subst r.
  cbn. rewrite !app_nil_r. split; [ exact Hs | ]. split; [ exact Hl | ].
  exists req. split; [ exact Hw | apply (newRequest_url _ _ _ _ Hreq) ].
Qed.

(** X9. Every failure of a scrape is logged once, with its error, and
    success is silent: when the inventory fetch fails [Collect] writes the
    single entry "unable to get inverter info" with that error; otherwise
    it writes, device after device, one entry per detail call that failed
    ("unable to get common data for inverter", "unable to get three phase
    data for inverter") with the error the client returned, and nothing for
    a call that succeeded. *)
Theorem Collect_logs_failures (st : State) :
  (forall err st1,
     GetInverterInfo ctx st = (Return (Err err), st1) ->
     logs (snd (Collect newCollector st))
       = logs st ++ [ {| log_err := err; log_msg := "unable to get inverter info" |} ]) /\
  (forall inverters st1,
     GetInverterInfo ctx st = (Return (Ok inverters), st1) ->
     let outcomes := detail_outcomes (Name <$> inverters) st1 in
     logs (snd (Collect newCollector st))
       = logs st ++
         flat_map (fun o =>
           match common o with
           | Ok _ => []
           | Err err => [ {| log_err := err;
                             log_msg := "unable to get common data for inverter" |} ]
           end ++
           match threephase o with
           | Ok _ => []
           | Err err => [ {| log_err := err;
                             log_msg := "unable to get three phase data for inverter" |} ]
           end) outcomes /\
     ((forall o, o ∈ outcomes ->
         error_of (common o) = None /\ error_of (threephase o) = None) ->
      logs (snd (Collect newCollector st)) = logs st)).
Proof.
  destruct (GetInverterInfo_footprint ctx st) as (_ & _ & Hl & _).
  split.
  - intros err st1 Hget. rewrite Collect_run. rewrite Hget in *. cbn in *.
    rewrite Hl. reflexivity.
  - intros inverters st1 Hget outcomes. rewrite Collect_run.
    rewrite Hget in *. cbn [fst snd emit note logs] in *.
    destruct (after_details_footprint (Name <$> inverters) st1) as (_ & _ & Hl').
    rewrite Hl', Hl. fold outcomes. split; [ reflexivity | ].
    intros Hall. rewrite <- (app_nil_r (logs st)) at 2. f_equal.
    induction outcomes as [ | o outcomes IH]; [ reflexivity | ].
    cbn [flat_map]. rewrite IH by (intros o' Ho'; apply Hall; right; exact Ho').
    destruct (Hall o) as [H1 H2]; [ left | ].
    unfold detail_logs.
    destruct (common o); [ | discriminate H1 ].
    destruct (threephase o); [ reflexivity | discriminate H2 ].
Qed.

(** X10. What a scrape does on the network: [Collect] leaves the client
    as it was, and every request it makes is a GET request with the
    headers Accept: application/json and User-Agent: fronius-exporter and
    the deadline of 15 seconds; it makes at most one request for the
    inventory and two per listed device. *)
Theorem Collect_requests_wellformed (st : State) :
  client (snd (Collect newCollector st)) = client st /\
  exists reqs,
    wire (snd (Collect newCollector st)) = wire st ++ reqs /\
    Forall (fun req =>
              req_Method req = "GET" /\
              req_ctx req = {| ctx_timeout := 15000000000 |} /\
              req_Header req !! "Accept" = Some ["application/json"] /\
              req_Header req !! "User-Agent" = Some ["fronius-exporter"] /\
              dom (req_Header req) = {["Accept"; "User-Agent"]}) reqs /\
    (length reqs <= 1 + 2 * match fst (collectInverters newCollector st) with
                            | Return ids => length ids
                            | Panic _ => 0
                            end)%nat.
Proof.
  assert (Hshape : forall reqs,
            Forall (fun req => exists url, req = request_for ctx url) reqs ->
            Forall (fun req =>
              req_Method req = "GET" /\
              req_ctx req = {| ctx_timeout := 15000000000 |} /\
              req_Header req !! "Accept" = Some ["application/json"] /\
              req_Header req !! "User-Agent" = Some ["fronius-exporter"] /\
              dom (req_Header req) = {["Accept"; "User-Agent"]}) reqs).
  { intros reqs Hreqs. eapply Forall_impl; [ exact Hreqs | ]. intros req [url ->].
    unfold request_for. cbn [req_Method req_ctx req_Header].
    split; [ reflexivity | ]. split; [ reflexivity | ].
    split; [ rewrite lookup_insert_ne by discriminate; apply lookup_insert_eq | ].
    split; [ apply lookup_insert_eq | ].
    rewrite !dom_insert_L, dom_empty_L. set_solver. }
  destruct (GetInverterInfo_footprint ctx st) as (Hc & _).
  pose proof (call_wire (CallInverterInfo ctx) st) as Hw.
  cbn [after_call call_ctx call_url] in Hw.
  destruct (built_request_shape (GetInverterInfo_url (client st))) as [Hall0 Hlen0].
  cbn zeta in Hall0, Hlen0.
  set (r0 := match newRequest ctx "GET" (GetInverterInfo_url (client st)) with
             | Ok _ => [request_for ctx (GetInverterInfo_url (client st))]
             | Err _ => []
             end) in *.
  rewrite Collect_run, collectInverters_spec.
  destruct (GetInverterInfo ctx st) as [[[inverters | err] | v] st1];
    cbn [fst snd] in *.
  - destruct (after_details_footprint (Name <$> inverters) st1) as (Hc' & _).
    destruct (after_details_wire (Name <$> inverters) st1)
      as (reqs & Hw' & Hall & Hlen & _).
    cbn [emit note client wire]. split; [ congruence | ].
    exists (r0 ++ reqs). split; [ rewrite Hw', Hw, <- app_assoc; reflexivity | ].
    split; [ apply Hshape, Forall_app; split; assumption | ].
    rewrite length_app. lia.
  - cbn [note client wire]. split; [ exact Hc | ].
    exists r0. split; [ exact Hw | ]. split; [ apply Hshape, Hall0 | ].
    cbn [length]. lia.
  - split; [ exact Hc | ].
    exists r0. split; [ exact Hw | ]. split; [ apply Hshape, Hall0 | ]. lia.
Qed.

(** X11. No retries and no stray requests: when the HTTP library accepts
    the requests, a scrape makes exactly one request for the inventory
    and, if that succeeded, for each listed device in the order of the
    inventory one request for its common data followed by one for its
    three-phase data, whatever the earlier requests answered; when the
    inventory fetch failed or panicked, the inventory request is the only
    one. *)
Theorem Collect_requests_once
    (Haccept : forall method url, http_request_error method url = None)
    (st : State) :
  wire (snd (Collect newCollector st))
  = wire st ++
    request_for ctx (GetInverterInfo_url (client st))
    :: match fst (GetInverterInfo ctx st) with
       | Return (Ok inverters) =>
           flat_map (fun id =>
             [ request_for ctx
                 (GetRealtimeInverterRealtimeData_url (client st)
                    "Device" "CommonInverterData" id);
               request_for ctx
                 (GetRealtimeInverterRealtimeData_url (client st)
                    "Device" "3PInverterData" id) ])
             (Name <$> inverters)
       | Return (Err _) | Panic _ => []
       end.
Proof.
  destruct (GetInverterInfo_footprint ctx st) as (Hc & _).
  pose proof (call_wire (CallInverterInfo ctx) st) as Hw.
  cbn [after_call call_ctx call_url] in Hw.
  unfold newRequest in Hw. rewrite Haccept in Hw.
  rewrite Collect_run.
  destruct (GetInverterInfo ctx st) as [[[inverters | err] | v] st1];
    cbn [fst snd] in *.
  - destruct (after_details_wire (Name <$> inverters) st1)
      as (reqs & Hw' & _ & _ & Hexact).
    cbn [emit note wire]. rewrite Hw', Hw, (Hexact Haccept), Hc, <- app_assoc.
    reflexivity.
  - cbn [note wire]. exact Hw.
  - exact Hw.
Qed.

End ScrapeProperties.

(** ** One scrape: the metrics *)

Section MetricProperties.
Context `{RT : Runtime}.

Local Abbreviation ctx := (WithTimeout timeout).

(** The metrics of one scrape. *)
Lemma Collect_sends (st : State) :
  sink (snd (Collect newCollector st))
  = sink st ++
    match GetInverterInfo ctx st with
    | (Return (Ok inverters), st1) =>
        flat_map inventory_records inverters
        ++ flat_map detail_records (detail_outcomes (Name <$> inverters) st1)
    | (Return (Err _), _) | (Panic _, _) => []
    end.
Proof.
  destruct (GetInverterInfo_footprint ctx st) as (_ & Hs & _).
  rewrite Collect_run.
  destruct (GetInverterInfo ctx st) as [[[inverters | err] | v] st1];
    cbn [fst snd] in *.
  - destruct (after_details_footprint (Name <$> inverters) st1) as (_ & Hs' & _).
    cbn [emit note sink]. rewrite Hs', Hs. reflexivity.
  - cbn [note sink]. rewrite Hs, app_nil_r. reflexivity.
  - rewrite Hs, app_nil_r. reflexivity.
Qed.

(** A property of every record of every kind holds of all that is sent. *)
Lemma sent_Forall (P : Metric -> Prop) :
  (forall inverter, Forall P (inventory_records inverter)) ->
  (forall id data, Forall P (common_records id data)) ->
  (forall id data, Forall P (threephase_records id data)) ->
  forall (st : State),
    Forall P match GetInverterInfo ctx st with
             | (Return (Ok inverters), st1) =>
                 flat_map inventory_records inverters
                 ++ flat_map detail_records (detail_outcomes (Name <$> inverters) st1)
             | (Return (Err _), _) | (Panic _, _) => []
             end.
Proof.
  intros Hinv Hcommon Hthree st.
  destruct (GetInverterInfo ctx st) as [[[inverters | err] | v] st1];
    [ | constructor | constructor ].
  apply Forall_app. split; apply Forall_flat_map, Forall_forall.
  - intros inverter _. apply Hinv.
  - intros [id rc rt] _. unfold detail_records. cbn [device common threephase].
    apply Forall_app. split.
    + destruct rc; [ apply Hcommon | constructor ].
    + destruct rt; [ apply Hthree | constructor ].
Qed.

Lemma identity_flat_map {A} (f : A -> list Metric) (l : list A) :
  metric_identity <$> flat_map f l
  = flat_map (fun a => metric_identity <$> f a) l.
Proof.
  induction l as [ | a l IH]; [ reflexivity | ].
  cbn [flat_map]. rewrite fmap_app, IH. reflexivity.
Qed.

(** Blocks of pairwise different devices, each without a repetition, make
    a list without a repetition. *)
Lemma NoDup_flat_map_by_device {A} (f : A -> list (string * list string))
    (dev : A -> string) (l : list A) :
  NoDup (dev <$> l) ->
  (forall a x, x ∈ f a -> head (snd x) = Some (dev a)) ->
  (forall a, NoDup (f a)) ->
  NoDup (flat_map f l).
Proof.
  intros Hnd Hdev Hblock. induction l as [ | a l IH]; [ constructor | ].
  rewrite fmap_cons in Hnd. apply NoDup_cons in Hnd as [Hnin Hnd].
  cbn [flat_map]. apply NoDup_app. split; [ apply Hblock | ].
  split; [ | apply IH, Hnd ].
  intros x Hx Hx'. apply list_elem_of_In, in_flat_map in Hx' as (a' & Ha' & Hx').
  apply list_elem_of_In in Ha', Hx'.
  pose proof (Hdev a x Hx) as H1. pose proof (Hdev a' x Hx') as H2.
  apply Hnin. assert (dev a = dev a') as -> by congruence.
  apply list_elem_of_fmap_2. exact Ha'.
Qed.

Ltac distinct_identities :=
  repeat (apply NoDup_cons_2;
          [ rewrite ?not_elem_of_cons; repeat split;
            solve [ apply not_elem_of_nil | discriminate ] | ]);
  apply NoDup_nil_2.

Lemma inventory_identities_NoDup (inverter : InverterInfo) :
  NoDup (metric_identity <$> inventory_records inverter).
Proof. cbn. distinct_identities. Qed.

Lemma detail_identities_NoDup (o : DetailOutcome) :
  NoDup (metric_identity <$> detail_records o).
Proof.
  destruct o as [id [data | ] [data3 | ]]; unfold detail_records; cbn;
    distinct_identities.
Qed.

Ltac each_identity H :=
  repeat (apply elem_of_cons in H as [-> | H]; [ reflexivity | ]);
  apply elem_of_nil in H; contradiction.

Lemma inventory_identities_device (inverter : InverterInfo) x :
  x ∈ metric_identity <$> inventory_records inverter ->
  head (snd x) = Some (Name inverter).
Proof. cbn. intros H. each_identity H. Qed.

Lemma detail_identities_device (o : DetailOutcome) x :
  x ∈ metric_identity <$> detail_records o -> head (snd x) = Some (device o).
Proof.
  destruct o as [id [data | ] [data3 | ]]; unfold detail_records; cbn;
    intros H; each_identity H.
Qed.

Lemma inventory_identities_name (inverters : list InverterInfo) x :
  x ∈ metric_identity <$> flat_map inventory_records inverters ->
  fst x = "fronius_inverter_info" \/ fst x = "fronius_inverter_status".
Proof.
  rewrite identity_flat_map. intros H.
  apply list_elem_of_In, in_flat_map in H as (inverter & _ & H).
  apply list_elem_of_In in H. cbn in H.
  repeat (apply elem_of_cons in H as [-> | H]; [ cbn; tauto | ]).
  apply elem_of_nil in H. contradiction.
Qed.

Lemma detail_identities_name (outcomes : list DetailOutcome) x :
  x ∈ metric_identity <$> flat_map detail_records outcomes ->
  fst x <> "fronius_inverter_info" /\ fst x <> "fronius_inverter_status".
Proof.
  rewrite identity_flat_map. intros H.
  apply list_elem_of_In, in_flat_map in H as (o & _ & H).
  apply list_elem_of_In in H.
  destruct o as [id [data | ] [data3 | ]]; unfold detail_records in H; cbn in H;
    repeat (apply elem_of_cons in H as [-> | H]; [ cbn; split; discriminate | ]);
    apply elem_of_nil in H; contradiction.
Qed.

(** X12. No metric twice in a scrape: the records [Collect] sends in one
    cycle have pairwise different identities (metric name and label
    values), because the inventory lists no device key twice. *)
Theorem metric_identities_unique
    (Hrange : forall w (m : gmap string (option InverterInfo)),
                map_range w m ≡ₚ map_to_list m)
    (st : State) :
  exists sent,
    sink (snd (Collect newCollector st)) = sink st ++ sent /\
    NoDup (metric_identity <$> sent).
Proof.
  eexists. split; [ apply Collect_sends | ].
  destruct (GetInverterInfo ctx st) as [[[inverters | err] | v] st1] eqn:Hget;
    [ | constructor | constructor ].
  assert (Hnd : NoDup (Name <$> inverters)).
  { destruct (GetInverterInfo_inventory Hrange _ _ _ _ Hget)
      as (m & payload & _ & _ & _ & Hnames & _).
    rewrite Hnames. apply NoDup_fst_map_to_list. }
  rewrite fmap_app. apply NoDup_app. split; [ | split ].
  - rewrite identity_flat_map.
    apply (NoDup_flat_map_by_device _ Name); [ exact Hnd | | ].
    + apply inventory_identities_device.
    + apply inventory_identities_NoDup.
  - intros x Hx Hx'. apply inventory_identities_name in Hx.
    apply detail_identities_name in Hx'. destruct Hx as [Hx | Hx]; tauto.
  - rewrite identity_flat_map.
    apply (NoDup_flat_map_by_device _ device).
    + rewrite detail_outcomes_devices. exact Hnd.
    + apply detail_identities_device.
    + apply detail_identities_NoDup.
Qed.

(** X13. Every record [Collect] sends belongs to one of the eight
    descriptors [Describe] announces, which have pairwise different names,
    and has exactly as many label values as its descriptor has label
    names. *)
Theorem sent_metrics_described (st : State) :
  NoDup (fqName <$> Describe newCollector) /\
  length (Describe newCollector) = 8%nat /\
  exists sent,
    sink (snd (Collect newCollector st)) = sink st ++ sent /\
    Forall (fun m =>
              desc m ∈ Describe newCollector /\
              length (labelValues m) = length (variableLabels (desc m))) sent.
Proof.
  split; [ apply (bool_decide_unpack _); vm_compute; exact I | ].
  split; [ reflexivity | ].
  eexists. split; [ apply Collect_sends | ].
  apply sent_Forall.
  - intros inverter. unfold inventory_records, status_records.
    cbn. repeat (constructor; [ split; [ | reflexivity ] | ]);
      try constructor; unfold Describe; cbn; set_solver.
  - intros id data. unfold common_records, gauge.
    repeat (constructor; [ split; [ | reflexivity ] | ]);
      try constructor; unfold Describe; cbn; set_solver.
  - intros id data. unfold threephase_records, gauge.
    repeat (constructor; [ split; [ | reflexivity ] | ]);
      try constructor; unfold Describe; cbn; set_solver.
Qed.

(** X14. The total energy is the only counter: among the records
    [Collect] sends, those of the metric [inverter_yield_total] are
    counters and all others are gauges. *)
Theorem only_total_energy_is_counter (st : State) :
  exists sent,
    sink (snd (Collect newCollector st)) = sink st ++ sent /\
    Forall (fun m =>
              (fqName (desc m) = "inverter_yield_total" -> valType m = CounterValue) /\
              (fqName (desc m) <> "inverter_yield_total" -> valType m = GaugeValue))
           sent.
Proof.
  eexists. split; [ apply Collect_sends | ].
  apply sent_Forall.
  - intros inverter. unfold inventory_records, status_records. cbn.
    repeat (constructor; [ split; [ discriminate | reflexivity ] | ]). constructor.
  - intros id data. unfold common_records, gauge.
    constructor; [ split; [ reflexivity | intros H; exfalso; apply H; reflexivity ] | ].
    repeat (constructor; [ split; [ discriminate | reflexivity ] | ]). constructor.
  - intros id data. unfold threephase_records, gauge.
    repeat (constructor; [ split; [ discriminate | reflexivity ] | ]). constructor.
Qed.

(** X15. For every three-phase record that was fetched, the collector
    sends six gauges labelled with the device key and the phase: the grid
    voltage [inverter_grid_voltage] of the phases L1, L2, L3 from UAC_L1,
    UAC_L2, UAC_L3, then the grid current [inverter_grid_current] of the
    same phases from IAC_L1, IAC_L2, IAC_L3. When the fetch failed it sends
    nothing. *)
Theorem threephase_gauges (id : string) (st : State) :
  (forall data st1,
     GetInverterRealtimeThreePhaseData ctx id st = (Ok data, st1) ->
     sink (snd (collectThreePhaseInverterData newCollector id st))
     = sink st ++
       let voltage := NewDesc "inverter_grid_voltage" "Grid (AC) current"
                        ["device_id"; "phase"] in
       let current := NewDesc "inverter_grid_current" "Grid (AC) current"
                        ["device_id"; "phase"] in
       [ {| desc := voltage; valType := GaugeValue;
            value := Value (UacL1 data); labelValues := [id; "L1"] |};
         {| desc := voltage; valType := GaugeValue;
            value := Value (UacL2 data); labelValues := [id; "L2"] |};
         {| desc := voltage; valType := GaugeValue;
            value := Value (UacL3 data); labelValues := [id; "L3"] |};
         {| desc := current; valType := GaugeValue;
            value := Value (IacL1 data); labelValues := [id; "L1"] |};
         {| desc := current; valType := GaugeValue;
            value := Value (IacL2 data); labelValues := [id; "L2"] |};
         {| desc := current; valType := GaugeValue;
            value := Value (IacL3 data); labelValues := [id; "L3"] |} ]) /\
  (forall err st1,
     GetInverterRealtimeThreePhaseData ctx id st = (Err err, st1) ->
     sink (snd (collectThreePhaseInverterData newCollector id st)) = sink st).
Proof.
  pose proof (GetThreePhaseData_sink id st) as Hs.
  split; intros r st1 Hget; rewrite collectThreePhaseInverterData_spec, Hget;
    rewrite Hget in Hs; cbn in *; rewrite Hs; reflexivity.
Qed.

End MetricProperties.

(** ** The theorems at work on the simulated installation *)

Module Witnesses.
Import Simulation.

Local Abbreviation ctx := (WithTimeout timeout).

Lemma simulated_range (w : nat) (m : gmap string (option InverterInfo)) :
  map_range w m ≡ₚ map_to_list m.
Proof.
  cbn. destruct (Nat.even w); [ reflexivity | apply reverse_Permutation ].
Defined.

Lemma simulated_inventory :
  GetInverterInfo ctx start = (Return (Ok listed), after_inventory).
Proof. vm_compute. reflexivity. Defined.

(** Inverter 3 answers the common-data request with code 12: the client
    returns the protocol error. *)
Lemma Msg_Error_iff_nonzero_code_witness :
  delivers start ctx
    (GetRealtimeInverterRealtimeData_url (client start) "Device" "CommonInverterData" "3")
    (envelope "" 12 "busy" "device is busy") /\
  12 <> 0 /\
  fst (GetInverterRealtimeCommonData ctx "3" start)
  = Err (protocol_error 12 "busy" "device is busy").
Proof.
  assert (Hd : delivers start ctx
            (GetRealtimeInverterRealtimeData_url (client start)
               "Device" "CommonInverterData" "3")
            (envelope "" 12 "busy" "device is busy")).
  { eexists _, _, _. repeat split; vm_compute; reflexivity. }
  assert (Hnz : 12 <> 0) by discriminate.
  split; [ exact Hd | ]. split; [ exact Hnz | ].
  exact (proj1 (proj2 (proj2 (proj2
           (Msg_Error_iff_nonzero_code (envelope "" 12 "busy" "device is busy")))))
           ctx "3" start Hd Hnz).
Defined.

(** The three listed inverters come back in the order 1, 2, 3. *)
Lemma GetInverterInfo_sorted_by_key_witness :
  GetInverterInfo ctx start = (Return (Ok listed), after_inventory) /\
  StronglySorted (strictly_before Name) listed /\
  Name <$> listed = ["1"; "2"; "3"].
Proof.
  split; [ exact simulated_inventory | ].
  destruct (GetInverterInfo_sorted_by_key (RT := runtime) simulated_range ctx start listed
              after_inventory simulated_inventory)
    as [(m & inverters & _ & _ & _ & _ & Hs & _) _].
  split; [ exact Hs | reflexivity ].
Defined.

(** Thirty-three records for three inverters: one info record and ten
    indicators each. *)
Lemma status_indicators_one_of_ten_witness :
  GetInverterInfo ctx start = (Return (Ok listed), after_inventory) /\
  sink (snd (collectInverters newCollector start))
    = sink start ++ flat_map (fun inverter => info_record inverter :: status_records inverter)
                             listed.
Proof.
  split; [ exact simulated_inventory | ].
  exact (proj1 (status_indicators_one_of_ten start listed after_inventory
                  simulated_inventory)).
Defined.



(** 234611600 watt-hours are reported as 234611.6. *)
Lemma total_energy_counter_witness :
  let fetched := snd (GetInverterRealtimeCommonData ctx "1" start) in
  GetInverterRealtimeCommonData ctx "1" start = (Ok common_1, fetched) /\
  Value (TotalEnergy common_1) = 234611600%float /\
  sink (snd (collectCommonInverterData newCollector "1" start))
    = [ {| desc := NewDesc "inverter_yield_total" "Information about the inverter"
                     ["device_id"];
           valType := CounterValue;
           value := 234611.6%float;
           labelValues := ["1"] |};
        gauge (inverterDCVoltage newCollector) 636.9%float ["1"];
        gauge (inverterDCCurrent newCollector) 0.97%float ["1"];
        gauge (inverterACFrequency newCollector) 49.97%float ["1"] ].
Proof.
  intros fetched.
  assert (Hget : GetInverterRealtimeCommonData ctx "1" start = (Ok common_1, fetched))
    by (vm_compute; reflexivity).
  split; [ exact Hget | ]. split; [ reflexivity | ].
  destruct (total_energy_counter "1" start common_1 fetched Hget) as [Hsink Hvalue].
  rewrite Hsink, (Hvalue eq_refl). reflexivity.
Defined.

(** Inverter 2 is named "&amp;" in the payload and "&" in the label. *)
Lemma CustomName_unescaped_witness :
  GetInverterInfo ctx start = (Return (Ok listed), after_inventory) /\
  exists m inverters,
    delivers start ctx (GetInverterInfo_url (client start)) m /\
    json_Unmarshal_inverters (Data (Body m)) = Ok inverters /\
    forall r, r ∈ listed ->
      exists raw,
        inverters !! Name r = Some (Some raw) /\
        CustomName r = html_UnescapeString (CustomName raw) /\
        info_record r ∈ sink (snd (collectInverters newCollector start)) /\
        variableLabels (desc (info_record r)) !! 2%nat = Some "device_name" /\
        labelValues (info_record r) !! 2%nat
          = Some (html_UnescapeString (CustomName raw)) /\
        (html_UnescapeString "&amp;" = "&" -> CustomName raw = "&amp;" ->
         CustomName r = "&" /\ labelValues (info_record r) !! 2%nat = Some "&").
Proof.
  split; [ exact simulated_inventory | ].
  exact (CustomName_unescaped (RT := runtime) simulated_range start listed after_inventory
           simulated_inventory).
Defined.

(** Three calls in a row leave the client as it was. *)
Lemma baseURL_immutable_witness :
  NewFronius "inverter.local" = Ok the_client /\
  client (fold_left after_call
            [CallInverterInfo ctx; CallCommonData ctx "1"; CallInverterInfo ctx] start)
  = the_client.
Proof.
  split; [ reflexivity | ].
  exact (proj1 (proj2 (baseURL_immutable
            [CallInverterInfo ctx; CallCommonData ctx "1"; CallInverterInfo ctx] start))).
Defined.

(** The labels of the simulated inventory are in lower case. *)
Lemma status_label_lowercase_witness :
  GetInverterInfo ctx start = (Return (Ok listed), after_inventory) /\
  forall inverter : InverterInfo,
    labelValues <$> status_records inverter
      = (fun label => [Name inverter; label]) <$>
          [ "startup"; "running"; "standby"; "bootloading"; "error";
            "idle"; "ready"; "sleeping"; "unknown"; "invalid" ].
Proof.
  split; [ exact simulated_inventory | ].
  intros inverter.
  destruct (status_label_lowercase start listed after_inventory simulated_inventory)
    as (_ & _ & _ & _ & Hlabels).
  exact (proj1 (proj2 (Hlabels inverter))).
Defined.

End Witnesses.

(** ** Scrapes do not remember *)

Section Stateless.
Context `{RT : Runtime}.

Local Abbreviation ctx := (WithTimeout timeout).

Lemma GetInverterInfo_respects c (st st' : State) :
  same_device st st' ->
  fst (GetInverterInfo c st) = fst (GetInverterInfo c st') /\
  same_device (snd (GetInverterInfo c st)) (snd (GetInverterInfo c st')).
Proof.
  intros [Hc Hw].
  unfold GetInverterInfo, bind, ret, deref_client, Do, range, same_device.
  cbn beta. rewrite Hc.
  destruct (newRequest _ _ _) as [req | ]; cbn; [ | auto ].
  rewrite Hw.
  destruct (Client_Do req (world st')) as [[resp | ] w]; cbn; [ | auto ].
  destruct (negb _); cbn; [ auto | ].
  destruct (json_Decode_Msg _) as [m | ]; cbn; [ | auto ].
  destruct (Msg_Error m); cbn; [ auto | ].
  destruct (json_Unmarshal_inverters _); cbn; [ | auto ].
  destruct (collect_sorted _); cbn; auto.
Qed.

Lemma after_details_respects (ids : list string) (st st' : State) :
  same_device st st' ->
  same_device (after_details ids st) (after_details ids st').
Proof.
  revert st st'. induction ids as [ | id ids IH]; intros st st' H; [ exact H | ].
  unfold after_details in *. cbn [fold_left after_call]. apply IH.
  apply GetThreePhaseData_respects, GetCommonData_respects, H.
Qed.

(** X16. A scrape does not remember earlier ones: what [Collect] sends,
    and the client and the world it leaves behind, depend on the client
    and the world it starts from and not on the metrics sent, the entries
    logged or the requests made before. *)
Theorem Collect_is_stateless (st st' : State) :
  client st = client st' ->
  world st = world st' ->
  exists sent,
    sink (snd (Collect newCollector st)) = sink st ++ sent /\
    sink (snd (Collect newCollector st')) = sink st' ++ sent /\
    client (snd (Collect newCollector st)) = client (snd (Collect newCollector st')) /\
    world (snd (Collect newCollector st)) = world (snd (Collect newCollector st')).
Proof.
  intros Hc Hw. assert (Hsame : same_device st st') by (split; assumption).
  destruct (GetInverterInfo_respects ctx st st' Hsame) as [Hr Hs].
  destruct (GetInverterInfo_footprint ctx st) as (_ & Hsink & _).
  destruct (GetInverterInfo_footprint ctx st') as (_ & Hsink' & _).
  rewrite !Collect_run.
  destruct (GetInverterInfo ctx st) as [r st1].
  destruct (GetInverterInfo ctx st') as [r' st1'].
  cbn [fst snd] in *. subst r'.
  destruct r as [[inverters | err] | v].
  - rewrite (detail_outcomes_respects _ st1 st1' Hs).
    destruct (after_details_footprint (Name <$> inverters) st1) as (_ & Hd & _).
    destruct (after_details_footprint (Name <$> inverters) st1') as (_ & Hd' & _).
    destruct (after_details_respects (Name <$> inverters) st1 st1' Hs) as [Hc2 Hw2].
    eexists. cbn [fst snd emit note sink client world].
    rewrite Hd, Hd', Hsink, Hsink'. repeat split; [ exact Hc2 | exact Hw2 ].
  - exists []. cbn [fst snd note sink client world]. rewrite !app_nil_r.
    destruct Hs as [Hc2 Hw2]. repeat split; assumption.
  - exists []. cbn [fst snd]. rewrite !app_nil_r.
    destruct Hs as [Hc2 Hw2]. repeat split; assumption.
Qed.

End Stateless.

(** ** Failure scenarios on the simulated installations *)

Module Scenarios.

Local Abbreviation ctx := (WithTimeout timeout).
Local Abbreviation sim := Simulation.runtime.
Local Abbreviation start := Simulation.start.

#[local] Existing Instance Simulation.runtime.

Lemma range_is_permutation (rt_serve : string -> result Response)
    (reject : string -> string -> option error) (inv : gmap string (option InverterInfo))
    (w : nat) (m : gmap string (option InverterInfo)) :
  @map_range (Variants.installation rt_serve reject inv) w m ≡ₚ map_to_list m.
Proof.
  cbn. destruct (Nat.even w); [ reflexivity | apply reverse_Permutation ].
Defined.

(** Inverter 1 returns its common data: they came in an envelope with
    code 0. *)
Lemma realtime_success_sound_witness :
  let fetched := snd (GetInverterRealtimeCommonData (RT := sim) ctx "1" start) in
  GetInverterRealtimeCommonData (RT := sim) ctx "1" start
    = (Ok Simulation.common_1, fetched) /\
  exists m,
    delivers (RT := sim) start ctx
      (GetRealtimeInverterRealtimeData_url (client start) "Device" "CommonInverterData" "1")
      m /\
    Code (Status (Head m)) = 0 /\
    json_Unmarshal_common (Data (Body m)) = Ok Simulation.common_1.
Proof.
  intros fetched.
  assert (Hget : GetInverterRealtimeCommonData (RT := sim) ctx "1" start
                 = (Ok Simulation.common_1, fetched)) by (vm_compute; reflexivity).
  split; [ exact Hget | ].
  exact (proj1 (proj2 (realtime_success_sound (RT := sim) ctx "1" start))
           Simulation.common_1 fetched Hget).
Defined.

(** Inverter 3 answers the three-phase request with 503. *)
Lemma http_status_not_ok_is_error_witness :
  let resp := {| resp_StatusCode := 503; resp_Status := "503 Service Unavailable";
                 resp_Body := "" |} in
  let c := CallThreePhaseData ctx "3" in
  answered (RT := sim) start (call_ctx c) (call_url (client start) c) (Ok resp) /\
  resp_StatusCode resp <> http_StatusOK /\
  call_error (RT := sim) start c
    = Some (errorString "unexpected http status: 503 Service Unavailable").
Proof.
  intros resp c.
  assert (Ha : answered (RT := sim) start (call_ctx c) (call_url (client start) c)
                 (Ok resp)).
  { eexists _, _. split; vm_compute; reflexivity. }
  assert (Hne : resp_StatusCode resp <> http_StatusOK) by discriminate.
  split; [ exact Ha | ]. split; [ exact Hne | ].
  exact (http_status_not_ok_is_error (RT := sim) c start resp Ha Hne).
Defined.

(** Inverter 2 is unreachable. *)
Lemma transport_error_returned_witness :
  let c := CallCommonData ctx "2" in
  let err := errorString "dial tcp: connection refused" in
  answered (RT := sim) start (call_ctx c) (call_url (client start) c) (Err err) /\
  call_error (RT := sim) start c = Some err /\
  exists req,
    wire (after_call (RT := sim) start c) = wire start ++ [req] /\
    req_URL req = call_url (RT := sim) (client start) c.
Proof.
  intros c err.
  assert (Ha : answered (RT := sim) start (call_ctx c) (call_url (client start) c)
                 (Err err)).
  { eexists _, _. split; vm_compute; reflexivity. }
  split; [ exact Ha | ].
  exact (transport_error_returned (RT := sim) c start err Ha).
Defined.

Section OnStrictSite.
#[local] Existing Instance Variants.strict_site.

(** The HTTP library rejects the request: nothing happens. *)
Lemma rejected_request_no_effect_witness :
  let st := Variants.start Variants.strict_site 0%nat in
  let c := CallInverterInfo ctx in
  let err := errorString "net/http: invalid method" in
  newRequest (RT := Variants.strict_site) (call_ctx c) "GET" (call_url (RT := Variants.strict_site) (client st) c)
    = Err err /\
  call_error (RT := Variants.strict_site) st c = Some err /\
  after_call (RT := Variants.strict_site) st c = st.
Proof.
  intros st c err.
  assert (Hreq : newRequest (RT := Variants.strict_site) (call_ctx c) "GET"
                   (call_url (RT := Variants.strict_site) (client st) c) = Err err) by reflexivity.
  split; [ exact Hreq | ].
  exact (rejected_request_no_effect (RT := Variants.strict_site) c st err Hreq).
Defined.

End OnStrictSite.

Section OnHtmlSite.
#[local] Existing Instance Variants.html_site.

(** A page of HTML is not an envelope. *)
Lemma envelope_decode_failure_witness :
  let st := Variants.start Variants.html_site 0%nat in
  let c := CallCommonData ctx "1" in
  let resp := {| resp_StatusCode := 200; resp_Status := "200 OK";
                 resp_Body := "<html>" |} in
  let err := errorString "unexpected end of JSON input" in
  answered (RT := Variants.html_site) st (call_ctx c) (call_url (RT := Variants.html_site) (client st) c) (Ok resp) /\
  resp_StatusCode resp = http_StatusOK /\
  json_Decode_Msg (Runtime := Variants.html_site) (resp_Body resp) = Err err /\
  call_error (RT := Variants.html_site) st c
    = Some (wrapError "error parsing json message: unexpected end of JSON input" err).
Proof.
  intros st c resp err.
  assert (Ha : answered (RT := Variants.html_site) st (call_ctx c)
                 (call_url (RT := Variants.html_site) (client st) c) (Ok resp)).
  { eexists _, _. split; vm_compute; reflexivity. }
  split; [ exact Ha | ]. split; [ reflexivity | ]. split; [ reflexivity | ].
  exact (envelope_decode_failure (RT := Variants.html_site) c st resp err Ha
           eq_refl eq_refl).
Defined.

End OnHtmlSite.

(** The three-phase payload of inverter 1 decodes; a common-data payload
    in its place does not. *)
Lemma GetInverterRealtimeThreePhaseData_decode_witness :
  let arrived :=
    snd (GetRealtimeInverterRealtimeData (RT := sim) ctx "Device" "3PInverterData" "1"
           start) in
  let st := Variants.start Variants.mixed_site 0%nat in
  let mixed :=
    snd (GetRealtimeInverterRealtimeData (RT := Variants.mixed_site) ctx "Device"
           "3PInverterData" "1" st) in
  GetRealtimeInverterRealtimeData (RT := sim) ctx "Device" "3PInverterData" "1" start
    = (Ok "threephase-1", arrived) /\
  GetInverterRealtimeThreePhaseData (RT := sim) ctx "1" start
    = (Ok Simulation.threephase_1, arrived) /\
  GetRealtimeInverterRealtimeData (RT := Variants.mixed_site) ctx "Device"
    "3PInverterData" "1" st = (Ok "common-1", mixed) /\
  exists failure,
    GetInverterRealtimeThreePhaseData (RT := Variants.mixed_site) ctx "1" st
      = (Err failure, mixed) /\
    Unwrap failure = Some (errorString "json: cannot unmarshal into three phase data") /\
    Error_msg failure
      = "unable to parse inverter three phase data: json: cannot unmarshal into three phase data".
Proof.
  intros arrived st mixed.
  assert (H1 : GetRealtimeInverterRealtimeData (RT := sim) ctx "Device" "3PInverterData"
                 "1" start = (Ok "threephase-1", arrived)) by (vm_compute; reflexivity).
  assert (H2 : GetRealtimeInverterRealtimeData (RT := Variants.mixed_site) ctx "Device"
                 "3PInverterData" "1" st = (Ok "common-1", mixed))
    by (vm_compute; reflexivity).
  split; [ exact H1 | ]. split; [ | split; [ exact H2 | ] ].
  - exact (proj1 (GetInverterRealtimeThreePhaseData_decode (RT := sim) ctx "1" start
                    "threephase-1" _ H1) Simulation.threephase_1 eq_refl).
  - exact (proj2 (GetInverterRealtimeThreePhaseData_decode (RT := Variants.mixed_site)
                    ctx "1" st "common-1" _ H2)
             (errorString "json: cannot unmarshal into three phase data") eq_refl).
Defined.

(** Three keys in the payload, three records with three different names. *)
Lemma GetInverterInfo_one_record_per_key_witness :
  GetInverterInfo (RT := sim) ctx start
    = (Return (Ok Simulation.listed), Simulation.after_inventory) /\
  NoDup (Name <$> Simulation.listed) /\
  length Simulation.listed = 3%nat.
Proof.
  assert (Hget : GetInverterInfo (RT := sim) ctx start
                 = (Return (Ok Simulation.listed), Simulation.after_inventory))
    by (vm_compute; reflexivity).
  split; [ exact Hget | ].
  destruct (GetInverterInfo_one_record_per_key (RT := sim)
              Witnesses.simulated_range ctx start Simulation.listed
              Simulation.after_inventory Hget) as [Hnd _].
  split; [ exact Hnd | reflexivity ].
Defined.

Section OnEmptySite.
#[local] Existing Instance Variants.empty_site.

(** The device lists no inverter: one request, no metric, no log entry. *)
Lemma empty_inventory_collects_nothing_witness :
  let st := Variants.start Variants.empty_site 0%nat in
  let m := Simulation.envelope "inventory" 0 "" "" in
  delivers (RT := Variants.empty_site) st ctx (GetInverterInfo_url (RT := Variants.empty_site) (client st)) m /\
  json_Unmarshal_inverters (Runtime := Variants.empty_site) (Data (Body m)) = Ok ∅ /\
  fst (GetInverterInfo (RT := Variants.empty_site) ctx st) = Return (Ok []) /\
  sink (snd (Collect (RT := Variants.empty_site) newCollector st)) = [] /\
  logs (snd (Collect (RT := Variants.empty_site) newCollector st)) = [] /\
  length (wire (snd (Collect (RT := Variants.empty_site) newCollector st))) = 1%nat.
Proof.
  intros st m.
  assert (Hd : delivers (RT := Variants.empty_site) st ctx
                 (GetInverterInfo_url (RT := Variants.empty_site) (client st)) m).
  { eexists _, _, _. repeat split; vm_compute; reflexivity. }
  assert (Hun : json_Unmarshal_inverters (Runtime := Variants.empty_site)
                  (Data (Body m)) = Ok ∅) by reflexivity.
  split; [ exact Hd | ]. split; [ exact Hun | ].
  destruct (empty_inventory_collects_nothing (RT := Variants.empty_site)
              (range_is_permutation _ _ _) st m Hd eq_refl Hun)
    as (Hres & Hs & Hl & req & Hw & _).
  split; [ exact Hres | ]. split; [ exact Hs | ]. split; [ exact Hl | ].
  rewrite Hw. reflexivity.
Defined.

End OnEmptySite.

(** Inverter 2 is unreachable and inverter 3 reports errors: four log
    entries, none for inverter 1. *)
Lemma Collect_logs_failures_witness :
  GetInverterInfo (RT := sim) ctx start
    = (Return (Ok Simulation.listed), Simulation.after_inventory) /\
  logs (snd (Collect (RT := sim) newCollector start))
  = [ {| log_err := errorString "dial tcp: connection refused";
         log_msg := "unable to get common data for inverter" |};
      {| log_err := errorString "dial tcp: connection refused";
         log_msg := "unable to get three phase data for inverter" |};
      {| log_err := errorString "fronius status code=12: msg=device is busy reason=busy";
         log_msg := "unable to get common data for inverter" |};
      {| log_err := errorString "unexpected http status: 503 Service Unavailable";
         log_msg := "unable to get three phase data for inverter" |} ].
Proof.
  assert (Hget : GetInverterInfo (RT := sim) ctx start
                 = (Return (Ok Simulation.listed), Simulation.after_inventory))
    by (vm_compute; reflexivity).
  split; [ exact Hget | ].
  destruct (proj2 (Collect_logs_failures (RT := sim) start) Simulation.listed
              Simulation.after_inventory Hget) as [Hlogs _].
  rewrite Hlogs. vm_compute. reflexivity.
Defined.

(** Seven requests for three inverters, in the order of the inventory. *)
Lemma Collect_requests_once_witness :
  (forall method url, http_request_error (Runtime := sim) method url = None) /\
  req_URL <$> wire (snd (Collect (RT := sim) newCollector start))
  = [ "http://inverter.local/solar_api/v1/GetInverterInfo.cgi?DeviceClass=System";
      Simulation.realtime_url "CommonInverterData" "1";
      Simulation.realtime_url "3PInverterData" "1";
      Simulation.realtime_url "CommonInverterData" "2";
      Simulation.realtime_url "3PInverterData" "2";
      Simulation.realtime_url "CommonInverterData" "3";
      Simulation.realtime_url "3PInverterData" "3" ].
Proof.
  assert (Haccept : forall method url,
            http_request_error (Runtime := sim) method url = None)
    by (intros; reflexivity).
  split; [ exact Haccept | ].
  rewrite (Collect_requests_once (RT := sim) Haccept start).
  vm_compute. reflexivity.
Defined.

(** The forty-three records of the simulated scrape are all different. *)
Lemma metric_identities_unique_witness :
  (forall w (m : gmap string (option InverterInfo)),
     map_range (Runtime := sim) w m ≡ₚ map_to_list m) /\
  NoDup (metric_identity <$> sink (snd (Collect (RT := sim) newCollector start))).
Proof.
  split; [ exact Witnesses.simulated_range | ].
  destruct (metric_identities_unique (RT := sim) Witnesses.simulated_range start)
    as (sent & Hsink & Hnd).
  rewrite Hsink. exact Hnd.
Defined.

(** The six three-phase gauges of inverter 1. *)
Lemma threephase_gauges_witness :
  let fetched := snd (GetInverterRealtimeThreePhaseData (RT := sim) ctx "1" start) in
  GetInverterRealtimeThreePhaseData (RT := sim) ctx "1" start
    = (Ok Simulation.threephase_1, fetched) /\
  (fun m => (fqName (desc m), value m, labelValues m))
    <$> sink (snd (collectThreePhaseInverterData (RT := sim) newCollector "1" start))
  = [ ("inverter_grid_voltage", 236.2%float, ["1"; "L1"]);
      ("inverter_grid_voltage", 234.9%float, ["1"; "L2"]);
      ("inverter_grid_voltage", 236.4%float, ["1"; "L3"]);
      ("inverter_grid_current", 0.57%float, ["1"; "L1"]);
      ("inverter_grid_current", 0.71%float, ["1"; "L2"]);
      ("inverter_grid_current", 0.72%float, ["1"; "L3"]) ].
Proof.
  intros fetched.
  assert (Hget : GetInverterRealtimeThreePhaseData (RT := sim) ctx "1" start
                 = (Ok Simulation.threephase_1, fetched)) by (vm_compute; reflexivity).
  split; [ exact Hget | ].
  rewrite (proj1 (threephase_gauges (RT := sim) "1" start) _ _ Hget).
  reflexivity.
Defined.

(** A scrape that starts with a record already in the sink sends the same
    forty-three records after it. *)
Lemma Collect_is_stateless_witness :
  let earlier := info_record (Simulation.inverter "old" 7 "0") in
  let st' := emit (RT := sim) [earlier] start in
  client start = client st' /\
  world start = world st' /\
  sink (snd (Collect (RT := sim) newCollector st'))
  = earlier :: sink (snd (Collect (RT := sim) newCollector start)).
Proof.
  intros earlier st'.
  split; [ reflexivity | ]. split; [ reflexivity | ].
  destruct (Collect_is_stateless (RT := sim) start st' eq_refl eq_refl)
    as (sent & H1 & H2 & _).
  rewrite H2, H1. reflexivity.
Defined.

End Scenarios.
